(** * Online cinema backend: a shallow embedding of the request handlers

    The development follows the layout of the Python sources:

    - [Datetime]   : the part of [datetime] the handlers use (naive and
                     aware values, [replace(tzinfo=...)], comparison);
    - [Models]     : the rows of [database/models] and the database state;
    - [Http]       : [HTTPException] and the outcome of a handler;
    - [Orm]        : the request-scoped session (pending changes, commit);
    - [Security]   : the JWT manager interface and [get_current_user];
    - [Accounts]   : [routers/accounts.py];
    - [Movies]     : [routers/movies.py] with a small embedding of the
                     [select] statements it builds;
    - [Cleanup]    : [tasks/cleanup.py].

    Definitions come first; the properties are stated and proved after
    the last module. *)

From Stdlib Require Import ZArith QArith Qround List String Ascii Bool Lia.
From Stdlib Require Import Sorting.Permutation Sorting.Sorted.
Import ListNotations.

Open Scope Z_scope.

(* ------------------------------------------------------------------ *)
(** ** datetime *)

Module Datetime.

(** A [datetime] value: the wall-clock reading in microseconds and the
    attached [tzinfo], kept as a UTC offset in microseconds.  A naive
    value has [tzinfo = None]. *)
Record datetime := mk_datetime {
  wall : Z;
  tzinfo : option Z
}.

(** [timezone.utc] *)
Definition utc : Z := 0.

(** [d.replace(tzinfo=tz)]: same wall-clock reading, new zone. *)
Definition replace_tzinfo (d : datetime) (tz : Z) : datetime :=
  {| wall := wall d; tzinfo := Some tz |}.

(** [datetime.now(timezone.utc)] when the clock reads [clock]
    microseconds after the epoch. *)
Definition now_utc (clock : Z) : datetime :=
  {| wall := clock; tzinfo := Some utc |}.

(** [a <= b].  Two aware values compare by instant; two naive values by
    wall-clock reading; mixing them is a [TypeError], here [None]. *)
Definition le (a b : datetime) : option bool :=
  match tzinfo a, tzinfo b with
  | Some oa, Some ob => Some (wall a - oa <=? wall b - ob)
  | None, None => Some (wall a <=? wall b)
  | _, _ => None
  end.

(** The three lines every handler runs before it compares an expiry:
<<
    expires_at = record.expires_at
    if expires_at.tzinfo is None:
        expires_at = expires_at.replace(tzinfo=timezone.utc)
>> *)
Definition normalize (expires_at : datetime) : datetime :=
  match tzinfo expires_at with
  | None => replace_tzinfo expires_at utc
  | Some _ => expires_at
  end.

(** The instant, in UTC microseconds, a stored expiry denotes once
    naive values are read as UTC. *)
Definition utc_instant (d : datetime) : Z :=
  match tzinfo d with
  | None => wall d
  | Some off => wall d - off
  end.

Definition microseconds_per_day : Z := 86400 * 1000000.

(** [d + timedelta(days=n)] *)
Definition add_days (d : datetime) (n : Z) : datetime :=
  {| wall := wall d + n * microseconds_per_day; tzinfo := tzinfo d |}.

End Datetime.

(* ------------------------------------------------------------------ *)
(** ** Rows and database state *)

Module Models.
Import Datetime.

(** Modelled from the spec: [database/models/accounts.py] is not part
    of the sources at hand.  A user has an integer identifier, an
    email, a stored password hash, an active flag and a group. *)
Record UserModel := mk_user {
  user_id : Z;
  user_email : string;
  user_hashed_password : string;
  user_is_active : bool;
  user_group_id : Z
}.

(** Modelled from the spec: the three token entities share one shape,
    identifier, owning user, token string and expiry. *)
Record TokenRow := mk_token {
  token_id : Z;
  token_user_id : Z;
  token : string;
  expires_at : datetime
}.

Definition ActivationTokenModel := TokenRow.
Definition PasswordResetTokenModel := TokenRow.
Definition RefreshTokenModel := TokenRow.

Record StarModel := mk_star { star_id : Z; star_name : string }.
Record DirectorModel := mk_director { director_id : Z; director_name : string }.

Record MovieModel := mk_movie {
  movie_id : Z;
  movie_uuid : string;
  movie_name : string;
  movie_year : Z;
  movie_time : Z;
  movie_imdb : Q;
  movie_votes : Z;
  movie_meta_score : option Q;
  movie_gross : option Q;
  movie_description : string;
  movie_price : Q;
  movie_certification_id : Z
}.

(** The tables the handlers read and write.  Rows are kept in storage
    order, so that [first()] is the head of the selected rows.  The
    association tables hold pairs of foreign keys. *)
Record Database := mk_db {
  users : list UserModel;
  activation_tokens : list ActivationTokenModel;
  password_reset_tokens : list PasswordResetTokenModel;
  refresh_tokens : list RefreshTokenModel;
  movies : list MovieModel;
  stars : list StarModel;
  directors : list DirectorModel;
  movie_stars : list (Z * Z);
  movie_directors : list (Z * Z);
  user_favorites : list (Z * Z)
}.

Definition with_users (f : list UserModel -> list UserModel) (d : Database) :=
  mk_db (f (users d)) (activation_tokens d) (password_reset_tokens d)
        (refresh_tokens d) (movies d) (stars d) (directors d)
        (movie_stars d) (movie_directors d) (user_favorites d).

Definition with_activation_tokens (f : list TokenRow -> list TokenRow) (d : Database) :=
  mk_db (users d) (f (activation_tokens d)) (password_reset_tokens d)
        (refresh_tokens d) (movies d) (stars d) (directors d)
        (movie_stars d) (movie_directors d) (user_favorites d).

Definition with_password_reset_tokens (f : list TokenRow -> list TokenRow) (d : Database) :=
  mk_db (users d) (activation_tokens d) (f (password_reset_tokens d))
        (refresh_tokens d) (movies d) (stars d) (directors d)
        (movie_stars d) (movie_directors d) (user_favorites d).

Definition with_refresh_tokens (f : list TokenRow -> list TokenRow) (d : Database) :=
  mk_db (users d) (activation_tokens d) (password_reset_tokens d)
        (f (refresh_tokens d)) (movies d) (stars d) (directors d)
        (movie_stars d) (movie_directors d) (user_favorites d).

Definition with_user_favorites (f : list (Z * Z) -> list (Z * Z)) (d : Database) :=
  mk_db (users d) (activation_tokens d) (password_reset_tokens d)
        (refresh_tokens d) (movies d) (stars d) (directors d)
        (movie_stars d) (movie_directors d) (f (user_favorites d)).

(** The three token tables, as the cleanup task iterates over them. *)
Inductive TokenTable := Activation | PasswordReset | Refresh.

Definition token_rows (t : TokenTable) (d : Database) : list TokenRow :=
  match t with
  | Activation => activation_tokens d
  | PasswordReset => password_reset_tokens d
  | Refresh => refresh_tokens d
  end.

Definition with_token_rows (t : TokenTable) (f : list TokenRow -> list TokenRow)
    (d : Database) : Database :=
  match t with
  | Activation => with_activation_tokens f d
  | PasswordReset => with_password_reset_tokens f d
  | Refresh => with_refresh_tokens f d
  end.

(** [result.scalars().first()] *)
Definition first {A} (rows : list A) : option A := hd_error rows.

(** The next value of an autoincrement key. *)
Definition next_id (ids : list Z) : Z := 1 + fold_right Z.max 0 ids.

End Models.

(* ------------------------------------------------------------------ *)
(** ** HTTP outcomes *)

Module Http.

Record HTTPException := mk_exc {
  status_code : Z;
  detail : string;
  headers : list (string * string)
}.

(** What running a handler gives: a returned value or a raised
    [HTTPException]. *)
Inductive Outcome (A : Type) :=
| Returned (a : A)
| Raised (e : HTTPException).
Arguments Returned {A} a.
Arguments Raised {A} e.

(** [schemas.accounts.MessageResponseSchema] *)
Record MessageResponseSchema := mk_message { message : string }.

(** [schemas.accounts.LoginResponseSchema] *)
Record LoginResponseSchema := mk_login_response {
  login_access_token : string;
  login_refresh_token : string;
  token_type : string
}.

(** [schemas.accounts.RefreshTokenResponseSchema] *)
Record RefreshTokenResponseSchema := mk_refresh_response {
  access_token : string
}.

End Http.

(* ------------------------------------------------------------------ *)
(** ** The request-scoped session *)

Module Orm.
Import Models Http.

(** Calls a handler makes on its session, in the order made. *)
Inductive DbCall :=
| CallExecute
| CallGet
| CallAdd
| CallRefresh
| CallCommit.

(** A session sees its own pending changes in [working]; [committed]
    is what the other requests, and the database after the request,
    see.  [calls] records the traffic, most recent call last. *)
Record Session := mk_session {
  committed : Database;
  working : Database;
  calls : list DbCall
}.

(** What [get_db] yields for a request arriving at state [d]. *)
Definition open_session (d : Database) : Session :=
  {| committed := d; working := d; calls := [] |}.

(** A handler body: a computation over the session that returns or
    raises. *)
Definition Handler (A : Type) : Type := Session -> Outcome A * Session.

Definition ret {A} (a : A) : Handler A := fun s => (Returned a, s).

Definition raise {A} (e : HTTPException) : Handler A := fun s => (Raised e, s).

Definition bind {A B} (m : Handler A) (k : A -> Handler B) : Handler B :=
  fun s =>
    match m s with
    | (Returned a, s') => k a s'
    | (Raised e, s') => (Raised e, s')
    end.

Definition log (c : DbCall) (s : Session) : Session :=
  {| committed := committed s; working := working s; calls := calls s ++ [c] |}.

(** [await db.execute(select(...))]: a read of the session's view. *)
Definition select {A} (q : Database -> A) : Handler A :=
  fun s => (Returned (q (working s)), log CallExecute s).

(** [await db.get(Model, key)] *)
Definition get {A} (q : Database -> A) : Handler A :=
  fun s => (Returned (q (working s)), log CallGet s).

(** [await db.refresh(obj)]: reload from the session's view. *)
Definition refresh {A} (q : Database -> A) : Handler A :=
  fun s => (Returned (q (working s)), log CallRefresh s).

(** [await db.execute(delete(...))] and [update]: a pending change;
    the result is the statement's row count. *)
Definition execute (rowcount : Database -> Z) (f : Database -> Database) : Handler Z :=
  fun s =>
    (Returned (rowcount (working s)),
     log CallExecute
         {| committed := committed s; working := f (working s); calls := calls s |}).

(** An attribute assignment on a loaded row or [db.add(obj)]: a
    pending change, flushed with the next statement or commit. *)
Definition mutate (f : Database -> Database) : Handler unit :=
  fun s =>
    (Returned tt,
     {| committed := committed s; working := f (working s); calls := calls s |}).

Definition add (f : Database -> Database) : Handler unit :=
  fun s =>
    (Returned tt,
     log CallAdd
         {| committed := committed s; working := f (working s); calls := calls s |}).

(** [await db.commit()] *)
Definition commit : Handler unit :=
  fun s =>
    (Returned tt,
     log CallCommit
         {| committed := working s; working := working s; calls := calls s |}).

(** One request: open a session on [d], run the handler, release the
    session.  Changes that were not committed are dropped with it. *)
Definition run_request {A} (h : Handler A) (d : Database)
    : Outcome A * Database * list DbCall :=
  let (r, s) := h (open_session d) in (r, committed s, calls s).

Definition outcome {A} (x : Outcome A * Database * list DbCall) : Outcome A :=
  fst (fst x).
Definition database_after {A} (x : Outcome A * Database * list DbCall) : Database :=
  snd (fst x).
Definition traffic {A} (x : Outcome A * Database * list DbCall) : list DbCall :=
  snd x.

End Orm.

Declare Scope handler_scope.
Delimit Scope handler_scope with handler.
Notation "x <- m ;; k" := (Orm.bind m (fun x => k))
  (at level 61, m at next level, right associativity) : handler_scope.
Notation "m ;;; k" := (Orm.bind m (fun _ => k))
  (at level 61, right associativity) : handler_scope.

(* ------------------------------------------------------------------ *)
(** ** Text helpers *)

Module Text.

(** ASCII lower-casing, the part of [str.lower] header names and
    schemes need. *)
Definition ascii_lower (c : ascii) : ascii :=
  let n := nat_of_ascii c in
  if (Nat.leb 65 n && Nat.leb n 90)%bool then ascii_of_nat (n + 32) else c.

Fixpoint lower (s : string) : string :=
  match s with
  | EmptyString => EmptyString
  | String c r => String (ascii_lower c) (lower r)
  end.

(** [s.partition(" ")]: the text before the first space and the text
    after it (both empty sides allowed; no space gives [(s, "")]). *)
Fixpoint partition_space (s : string) : string * string :=
  match s with
  | EmptyString => (EmptyString, EmptyString)
  | String c r =>
      if Ascii.eqb c " "%char then (EmptyString, r)
      else let (a, b) := partition_space r in (String c a, b)
  end.

End Text.

(* ------------------------------------------------------------------ *)
(** ** Security: the JWT manager interface and the bearer dependency *)

Module Security.
Import Models Http Orm.
Local Open Scope string_scope.
Local Open Scope Z_scope.
Local Open Scope handler_scope.

(** The claims of a token, a dictionary from claim names to
    identifiers. *)
Definition Claims := list (string * Z).

(** [claims.get(key)] *)
Fixpoint claims_get (key : string) (c : Claims) : option Z :=
  match c with
  | [] => None
  | (k, v) :: r => if String.eqb k key then Some v else claims_get key r
  end.

(** [exceptions.BaseSecurityError], carrying the text [str(e)] gives. *)
Record BaseSecurityError := mk_security_error { security_message : string }.

(** [security.interfaces.JWTAuthManagerInterface].  The implementation
    lives outside the sources at hand; handlers only rely on the
    interface.  A call that raises [BaseSecurityError] is a left
    injection (or [Some] for the verify-or-raise operation). *)
Class JWTAuthManagerInterface := {
  create_access_token : Claims -> string;
  create_refresh_token : Claims -> string;
  decode_refresh_token : string -> BaseSecurityError + Claims;
  verify_refresh_token_or_raise : string -> option BaseSecurityError
}.

(** [jose.jwt.decode(token, key, algorithms)]: the decoded payload, or
    [None] when the library raises [JWTError]. *)
Class JoseJwt := {
  jwt_decode : string -> string -> list string -> option Claims
}.

Definition SECRET_KEY : string := "YOUR_SECRET_KEY".
Definition ALGORITHM : string := "HS256".

(** What [OAuth2PasswordBearer] reads off the request's
    [Authorization] header: the credentials after the scheme, when the
    header is there and its scheme is [bearer] in any letter case. *)
Definition bearer_token (authorization : option string) : option string :=
  match authorization with
  | None => None
  | Some value =>
      let (scheme, param) := Text.partition_space value in
      if (String.eqb value "" || negb (String.eqb (Text.lower scheme) "bearer"))%bool
      then None
      else Some param
  end.

(** [oauth2_scheme = OAuth2PasswordBearer(tokenUrl="/auth/login")] as a
    dependency: the bearer credentials, else the framework's own 401. *)
Definition oauth2_scheme (authorization : option string) : Handler string :=
  match bearer_token authorization with
  | None => raise (mk_exc 401 "Not authenticated" [("WWW-Authenticate", "Bearer")])
  | Some token => ret token
  end.

Definition credentials_exception : HTTPException :=
  mk_exc 401 "Could not validate credentials" [("WWW-Authenticate", "Bearer")].

(** [db.get(UserModel, ident)]: primary-key lookup. *)
Definition get_user (ident : Z) (d : Database) : option UserModel :=
  find (fun u => user_id u =? ident) (users d).

(** The two session classes of the ORM. *)
Inductive SessionClass := SyncSession | AsyncSession.

(** Modelled from the spec: [database.get_db] is not among the sources
    at hand.  It yields the request-scoped session of the
    asynchronous engine, the one every router declares as
    [AsyncSession] and awaits on. *)
Definition get_db : SessionClass := AsyncSession.

(** What the expression [db.get(UserModel, ident)] evaluates to when
    it is not awaited: on a synchronous session the row or [None]; on
    an asynchronous session a coroutine object. *)
Inductive Got :=
| GotRow (row : option UserModel)
| GotCoroutine.

(** [db.get(UserModel, ident)], not awaited.  A coroutine that is
    never awaited issues no statement. *)
Definition db_get (db : SessionClass) (ident : Z) : Handler Got :=
  match db with
  | SyncSession => row <- get (get_user ident) ;; ret (GotRow row)
  | AsyncSession => ret GotCoroutine
  end.

(** A Python exception nothing catches: the framework answers 500. *)
Definition unhandled_error : HTTPException :=
  mk_exc 500 "Internal Server Error" [].

Section Dependency.
Context {jose : JoseJwt}.

(** [security.dependencies.get_current_user], with the
    [Depends(oauth2_scheme)] it starts with, on the session [db] that
    [Depends(get_db)] hands it.  The function is not a coroutine and
    awaits nothing.  On a coroutine object [user is None] is false
    and [user.is_active] raises [AttributeError]. *)
Definition get_current_user (db : SessionClass) (authorization : option string)
    : Handler UserModel :=
  token <- oauth2_scheme authorization ;;
  match jwt_decode token SECRET_KEY [ALGORITHM] with
  | None => raise credentials_exception
  | Some payload =>
      match claims_get "sub" payload with
      | None => raise credentials_exception
      | Some user_id =>
          user <- db_get db user_id ;;
          match user with
          | GotRow None => raise credentials_exception
          | GotRow (Some user) =>
              if negb (user_is_active user) then raise credentials_exception
              else ret user
          | GotCoroutine => raise unhandled_error
          end
      end
  end.

End Dependency.

End Security.

(* ------------------------------------------------------------------ *)
(** ** routers/accounts.py *)

Module Accounts.
Import Datetime Models Http Orm Security.
Local Open Scope string_scope.
Local Open Scope Z_scope.
Local Open Scope handler_scope.

(** [schemas.accounts.ActivateUserRequestSchema] *)
Record ActivateUserRequestSchema := mk_activate_request {
  activate_email : string;
  activate_token : string
}.

(** [schemas.accounts.PasswordResetCompleteRequestSchema]; the
    password has passed the strength validator when the handler runs. *)
Record PasswordResetCompleteRequestSchema := mk_reset_request {
  reset_email : string;
  reset_token : string;
  reset_password : string
}.

(** [schemas.accounts.LoginRequestSchema] *)
Record LoginRequestSchema := mk_login_request {
  login_email : string;
  login_password : string
}.

(** [schemas.accounts.LogoutRequestSchema] and
    [RefreshTokenRequestSchema]: one field, [refresh_token]. *)
Record LogoutRequestSchema := mk_logout_request { logout_refresh_token : string }.
Record RefreshTokenRequestSchema := mk_refresh_request { refresh_token : string }.

(** [config.settings.BaseAppSettings], the field the router reads. *)
Record BaseAppSettings := mk_settings { LOGIN_TIME_DAYS : Z }.
Definition get_settings : BaseAppSettings := {| LOGIN_TIME_DAYS := 7 |}.

(** [select(UserModel).where(UserModel.email == email)] *)
Definition users_by_email (email : string) (d : Database) : list UserModel :=
  filter (fun u => String.eqb (user_email u) email) (users d).

(** [select(UserModel).where(UserModel.id == ident)]; a missing claim
    compares the key with NULL and selects nothing. *)
Definition users_by_id (ident : option Z) (d : Database) : list UserModel :=
  match ident with
  | None => []
  | Some i => filter (fun u => user_id u =? i) (users d)
  end.

(** [select(Token).where(Token.user_id == uid)] *)
Definition tokens_by_user (t : TokenTable) (uid : Z) (d : Database) : list TokenRow :=
  filter (fun r => token_user_id r =? uid) (token_rows t d).

(** [select(Token).where(Token.token == value)] *)
Definition tokens_by_value (t : TokenTable) (value : string) (d : Database) : list TokenRow :=
  filter (fun r => String.eqb (token r) value) (token_rows t d).

(** [delete(Token).where(cond)]: the rows that stay, and the row
    count the statement reports. *)
Definition delete_where (t : TokenTable) (cond : TokenRow -> bool) : Handler Z :=
  execute
    (fun d => Z.of_nat (List.length (filter cond (token_rows t d))))
    (with_token_rows t (filter (fun r => negb (cond r)))).

(** [user.is_active = True] on the loaded row. *)
Definition set_active (u : UserModel) : Database -> Database :=
  with_users (map (fun v =>
    if user_id v =? user_id u
    then mk_user (user_id v) (user_email v) (user_hashed_password v) true (user_group_id v)
    else v)).

Definition invalid_activation : HTTPException :=
  mk_exc 400 "Invalid or expired activation token." [].

(** A Python exception no handler catches: the framework answers 500. *)
Definition internal_server_error : HTTPException :=
  mk_exc 500 "Internal Server Error" [].

Definition invalid_reset : HTTPException :=
  mk_exc 400 "Invalid email or token." [].

(** [user.password = raw] on the loaded row, given the hash the setter
    stores. *)
Definition set_password (u : UserModel) (hashed : string) : Database -> Database :=
  with_users (map (fun v =>
    if user_id v =? user_id u
    then mk_user (user_id v) (user_email v) hashed (user_is_active v) (user_group_id v)
    else v)).

(** [POST /activate/] at clock reading [clock]. *)
Definition activate_user (payload : ActivateUserRequestSchema) (clock : Z)
    : Handler MessageResponseSchema :=
  user <- select (fun d => first (users_by_email (activate_email payload) d)) ;;
  match user with
  | None => raise invalid_activation
  | Some user =>
      if user_is_active user
      then raise (mk_exc 400 "User account is already active." [])
      else
        token_record <- select (fun d => first (tokens_by_user Activation (user_id user) d)) ;;
        match token_record with
        | None => raise invalid_activation
        | Some token_record =>
            if negb (String.eqb (token token_record) (activate_token payload))
            then raise invalid_activation
            else
              let expires_at := normalize (expires_at token_record) in
              match Datetime.le expires_at (now_utc clock) with
              | None => raise internal_server_error
              | Some true =>
                  delete_where Activation
                    (fun r => token_id r =? token_id token_record) ;;;
                  commit ;;;
                  raise invalid_activation
              | Some false =>
                  mutate (set_active user) ;;;
                  delete_where Activation
                    (fun r => token_id r =? token_id token_record) ;;;
                  commit ;;;
                  ret (mk_message "User account activated successfully.")
              end
        end
  end.

(** Modelled from the spec: [RefreshTokenModel.create] is declared in
    the account models, which are not at hand.  The row expires
    [days_valid] days after its creation; the key is assigned by the
    table's autoincrement when the row is flushed. *)
Definition RefreshTokenModel_create (uid days_valid : Z) (value : string)
    (clock : Z) (d : Database) : RefreshTokenModel :=
  mk_token (next_id (map token_id (refresh_tokens d))) uid value
           (add_days (now_utc clock) days_valid).

Section Handlers.
Context {jwt_manager : JWTAuthManagerInterface}.

(** Modelled from the spec: [UserModel.verify_password] checks a
    plain password against the stored hash; the hashing scheme is
    outside the sources at hand. *)
Variable verify_password : UserModel -> string -> bool.

(** Modelled from the spec: the write-only [UserModel.password]
    setter hashes what it is given; the scheme is outside the sources
    at hand. *)
Variable hash_password : string -> string.

(** [POST /reset-password/complete/] when no statement is refused by
    the database.  Of the two [except] clauses the first re-raises
    every [HTTPException]; the second, for [SQLAlchemyError], is in
    [Faults.reset_password_complete], of which this is the run
    without refused statements. *)
Definition reset_password_complete (payload : PasswordResetCompleteRequestSchema)
    (clock : Z) : Handler MessageResponseSchema :=
  user <- select (fun d => first (users_by_email (reset_email payload) d)) ;;
  match user with
  | None => raise invalid_reset
  | Some user =>
      if negb (user_is_active user) then raise invalid_reset
      else
        token_record <- select (fun d => first (tokens_by_user PasswordReset (user_id user) d)) ;;
        match token_record with
        | None => raise invalid_reset
        | Some token_record =>
            if negb (String.eqb (token token_record) (reset_token payload))
            then
              delete_where PasswordReset
                (fun r => token_id r =? token_id token_record) ;;;
              commit ;;;
              raise invalid_reset
            else
              let expires_at := normalize (expires_at token_record) in
              match Datetime.le expires_at (now_utc clock) with
              | None => raise internal_server_error
              | Some true =>
                  delete_where PasswordReset
                    (fun r => token_id r =? token_id token_record) ;;;
                  commit ;;;
                  raise invalid_reset
              | Some false =>
                  mutate (set_password user (hash_password (reset_password payload))) ;;;
                  delete_where PasswordReset
                    (fun r => token_id r =? token_id token_record) ;;;
                  commit ;;;
                  ret (mk_message "Password reset successfully.")
              end
        end
  end.

(** [POST /login/] *)
Definition login_user (payload : LoginRequestSchema) (settings : BaseAppSettings)
    (clock : Z) : Handler LoginResponseSchema :=
  user <- select (fun d => first (users_by_email (login_email payload) d)) ;;
  match user with
  | None => raise (mk_exc 401 "Invalid email or password." [])
  | Some user =>
      if negb (verify_password user (login_password payload))
      then raise (mk_exc 401 "Invalid email or password." [])
      else if negb (user_is_active user)
      then raise (mk_exc 403 "User account is not activated." [])
      else
        let access_token := create_access_token [("user_id", user_id user)] in
        let refresh_token := create_refresh_token [("user_id", user_id user)] in
        add (fun d => with_refresh_tokens
               (fun rows => (rows ++ [RefreshTokenModel_create (user_id user)
                                        (LOGIN_TIME_DAYS settings) refresh_token clock d])%list)
               d) ;;;
        commit ;;;
        ret (mk_login_response access_token refresh_token "bearer")
  end.

(** [POST /logout/] *)
Definition logout_user (payload : LogoutRequestSchema) : Handler MessageResponseSchema :=
  match verify_refresh_token_or_raise (logout_refresh_token payload) with
  | Some _ => ret (mk_message "Logged out.")
  | None =>
      delete_where Refresh
        (fun r => String.eqb (token r) (logout_refresh_token payload)) ;;;
      commit ;;;
      ret (mk_message "Logged out.")
  end.

(** [POST /refresh/].  The function body ends after the assignment
    to [access_token]; a Python function that falls off its end
    returns [None]. *)
Definition refresh_access_token (payload : RefreshTokenRequestSchema) (clock : Z)
    : Handler (option RefreshTokenResponseSchema) :=
  match decode_refresh_token (refresh_token payload) with
  | inl e => raise (mk_exc 400 (security_message e) [])
  | inr token_data =>
      let user_id := claims_get "user_id" token_data in
      rt_record <- select (fun d => first (tokens_by_value Refresh (refresh_token payload) d)) ;;
      match rt_record with
      | None => raise (mk_exc 401 "Refresh token not found." [])
      | Some rt_record =>
          user <- select (fun d => first (users_by_id user_id d)) ;;
          match user with
          | None => raise (mk_exc 401 "User not found or inactive." [])
          | Some user =>
              if negb (user_is_active user)
              then raise (mk_exc 401 "User not found or inactive." [])
              else
                let expires_at := normalize (expires_at rt_record) in
                match Datetime.le expires_at (now_utc clock) with
                | None => raise internal_server_error
                | Some true =>
                    delete_where Refresh
                      (fun r => token_id r =? token_id rt_record) ;;;
                    commit ;;;
                    raise (mk_exc 401 "Refresh token expired." [])
                | Some false =>
                    let access_token :=
                      create_access_token [("user_id", Models.user_id user)] in
                    ret None
                end
          end
      end
  end.

End Handlers.

End Accounts.

(* ------------------------------------------------------------------ *)
(** ** routers/movies.py *)

Module Movies.
Import Models Http Orm.
Local Open Scope string_scope.
Local Open Scope Z_scope.
Local Open Scope handler_scope.

(** The text functions a search goes through: Python's [str.lower] on
    the request side, SQL's [lower] and [LIKE] on the database side.
    They belong to the interpreter and the database engine, so the
    handlers are stated over any choice of them. *)
Class TextSearch := {
  py_lower : string -> string;
  sql_lower : string -> string;
  sql_like : string -> string -> bool
}.

(** The values [sort_by] may take, by its declared pattern
    [^(year|price|imdb|votes)$]. *)
Inductive SortBy := ByYear | ByPrice | ByImdb | ByVotes.

Definition parse_sort_by (s : string) : option SortBy :=
  if String.eqb s "year" then Some ByYear
  else if String.eqb s "price" then Some ByPrice
  else if String.eqb s "imdb" then Some ByImdb
  else if String.eqb s "votes" then Some ByVotes
  else None.

(** [getattr(MovieModel, sort_by)], read as a number. *)
Definition sort_column (c : SortBy) (m : MovieModel) : Q :=
  match c with
  | ByYear => inject_Z (movie_year m)
  | ByPrice => movie_price m
  | ByImdb => movie_imdb m
  | ByVotes => inject_Z (movie_votes m)
  end.

(** *** The [select] statements the router builds *)

Inductive Condition :=
| YearEq (year : Z)              (* MovieModel.year == year *)
| ImdbGe (min_imdb : Q)          (* MovieModel.imdb >= min_imdb *)
| PriceLe (max_price : Q)        (* MovieModel.price <= max_price *)
| FavoriteOf (uid : Z)           (* user_favorites.c.user_id == uid *)
| SearchLike (search_term : string).

Inductive Join :=
| JoinStars                      (* .join(MovieModel.stars, isouter=True) *)
| JoinDirectors                  (* .join(MovieModel.directors, isouter=True) *)
| JoinFavorites.                 (* .join(user_favorites, ...) *)

Record Select := mk_select {
  joins : list Join;
  wheres : list Condition;
  is_distinct : bool;
  ordering : option SortBy;
  stmt_offset : option Z;
  stmt_limit : option Z
}.

(** [select(MovieModel)] *)
Definition select_movies : Select :=
  mk_select [] [] false None None None.

Definition join (j : Join) (s : Select) : Select :=
  mk_select (joins s ++ [j]) (wheres s) (is_distinct s) (ordering s)
            (stmt_offset s) (stmt_limit s).

Definition where_ (c : Condition) (s : Select) : Select :=
  mk_select (joins s) (wheres s ++ [c]) (is_distinct s) (ordering s)
            (stmt_offset s) (stmt_limit s).

Definition distinct (s : Select) : Select :=
  mk_select (joins s) (wheres s) true (ordering s) (stmt_offset s) (stmt_limit s).

Definition order_by_desc (c : SortBy) (s : Select) : Select :=
  mk_select (joins s) (wheres s) (is_distinct s) (Some c)
            (stmt_offset s) (stmt_limit s).

Definition offset (n : Z) (s : Select) : Select :=
  mk_select (joins s) (wheres s) (is_distinct s) (ordering s) (Some n) (stmt_limit s).

Definition limit (n : Z) (s : Select) : Select :=
  mk_select (joins s) (wheres s) (is_distinct s) (ordering s) (stmt_offset s) (Some n).

(** *** Evaluating a statement *)

(** A row of the joined relation: the movie and, per joined table,
    the matching row or NULL. *)
Record JoinedRow := mk_row {
  row_movie : MovieModel;
  row_star : option StarModel;
  row_director : option DirectorModel;
  row_favorite_user : option Z
}.

Definition stars_of (d : Database) (m : MovieModel) : list StarModel :=
  flat_map (fun link =>
              if fst link =? movie_id m
              then filter (fun s => star_id s =? snd link) (stars d)
              else [])
           (movie_stars d).

Definition directors_of (d : Database) (m : MovieModel) : list DirectorModel :=
  flat_map (fun link =>
              if fst link =? movie_id m
              then filter (fun s => director_id s =? snd link) (directors d)
              else [])
           (movie_directors d).

(** [user_favorites] rows of a movie, as user identifiers. *)
Definition favorited_by (d : Database) (m : MovieModel) : list Z :=
  map fst (filter (fun link => snd link =? movie_id m) (user_favorites d)).

(** The right-hand side of a left outer join: the matches, or one
    NULL when there is none. *)
Definition outer {A} (matches : list A) : list (option A) :=
  match matches with
  | [] => [None]
  | _ => map Some matches
  end.

Definition apply_join (d : Database) (j : Join) (rows : list JoinedRow)
    : list JoinedRow :=
  match j with
  | JoinStars =>
      flat_map (fun r =>
        map (fun s => mk_row (row_movie r) s (row_director r) (row_favorite_user r))
            (outer (stars_of d (row_movie r)))) rows
  | JoinDirectors =>
      flat_map (fun r =>
        map (fun x => mk_row (row_movie r) (row_star r) x (row_favorite_user r))
            (outer (directors_of d (row_movie r)))) rows
  | JoinFavorites =>
      flat_map (fun r =>
        map (fun u => mk_row (row_movie r) (row_star r) (row_director r) (Some u))
            (favorited_by d (row_movie r))) rows
  end.

(** SQL's three-valued disjunction; [None] is NULL. *)
Definition sql_or (a b : option bool) : option bool :=
  match a, b with
  | Some true, _ => Some true
  | _, Some true => Some true
  | Some false, Some false => Some false
  | _, _ => None
  end.

Section Engine.
Context {text : TextSearch}.

(** [func.lower(column).like(term)] on a possibly NULL column. *)
Definition lower_like (column : option string) (term : string) : option bool :=
  match column with
  | None => None
  | Some v => Some (sql_like (sql_lower v) term)
  end.

Definition eval_condition (c : Condition) (r : JoinedRow) : option bool :=
  let m := row_movie r in
  match c with
  | YearEq y => Some (movie_year m =? y)
  | ImdbGe v => Some (Qle_bool v (movie_imdb m))
  | PriceLe v => Some (Qle_bool (movie_price m) v)
  | FavoriteOf uid =>
      match row_favorite_user r with
      | None => None
      | Some u => Some (u =? uid)
      end
  | SearchLike term =>
      sql_or (lower_like (Some (movie_name m)) term)
        (sql_or (lower_like (Some (movie_description m)) term)
           (sql_or (lower_like (option_map star_name (row_star r)) term)
                   (lower_like (option_map director_name (row_director r)) term)))
  end.

(** A row passes WHERE when every condition evaluates to true. *)
Definition passes (cs : list Condition) (r : JoinedRow) : bool :=
  forallb (fun c => match eval_condition c r with
                    | Some true => true
                    | _ => false
                    end) cs.

Definition option_Q_eqb (a b : option Q) : bool :=
  match a, b with
  | None, None => true
  | Some x, Some y => Qeq_bool x y
  | _, _ => false
  end.

(** Two selected rows are the same for DISTINCT when all columns of
    [movies] agree. *)
Definition movie_eqb (a b : MovieModel) : bool :=
  (movie_id a =? movie_id b) && String.eqb (movie_uuid a) (movie_uuid b)
  && String.eqb (movie_name a) (movie_name b)
  && (movie_year a =? movie_year b) && (movie_time a =? movie_time b)
  && Qeq_bool (movie_imdb a) (movie_imdb b)
  && (movie_votes a =? movie_votes b)
  && option_Q_eqb (movie_meta_score a) (movie_meta_score b)
  && option_Q_eqb (movie_gross a) (movie_gross b)
  && String.eqb (movie_description a) (movie_description b)
  && Qeq_bool (movie_price a) (movie_price b)
  && (movie_certification_id a =? movie_certification_id b).

(** DISTINCT: the first of each group of equal rows. *)
Fixpoint distinct_rows (l : list MovieModel) : list MovieModel :=
  match l with
  | [] => []
  | m :: r => m :: filter (fun x => negb (movie_eqb x m)) (distinct_rows r)
  end.

(** ORDER BY column DESC.  SQL leaves the order of rows with equal
    keys open; the embedding keeps them in their incoming order. *)
Fixpoint insert_desc (key : MovieModel -> Q) (x : MovieModel) (l : list MovieModel)
    : list MovieModel :=
  match l with
  | [] => [x]
  | y :: r =>
      if Qle_bool (key y) (key x) then x :: y :: r
      else y :: insert_desc key x r
  end.

Definition sort_desc (key : MovieModel -> Q) (l : list MovieModel) : list MovieModel :=
  fold_right (insert_desc key) [] l.

(** What the database may answer to ORDER BY column DESC over [rows]:
    the same rows with the keys descending, rows of equal key in any
    order, and not the same order from one statement to the next.
    [sort_desc] is one such answer. *)
Definition ordered_desc (key : MovieModel -> Q) (rows answer : list MovieModel) : Prop :=
  Permutation rows answer
  /\ StronglySorted (fun a b => (key b <= key a)%Q) answer.

(** No two of the rows have the same key: the one case in which ORDER
    BY fixes the order. *)
Definition tie_free (key : MovieModel -> Q) (rows : list MovieModel) : Prop :=
  ForallOrdPairs (fun a b => ~ (key a == key b)%Q) rows.

Definition apply_order (o : option SortBy) (l : list MovieModel) : list MovieModel :=
  match o with
  | None => l
  | Some c => sort_desc (sort_column c) l
  end.

Definition apply_offset (o : option Z) (l : list MovieModel) : list MovieModel :=
  match o with
  | None => l
  | Some n => skipn (Z.to_nat n) l
  end.

Definition apply_limit (o : option Z) (l : list MovieModel) : list MovieModel :=
  match o with
  | None => l
  | Some n => firstn (Z.to_nat n) l
  end.

(** FROM ... JOIN ... WHERE ...: the selected movies before
    DISTINCT, ORDER BY, OFFSET and LIMIT. *)
Definition matching (s : Select) (d : Database) : list MovieModel :=
  let base := map (fun m => mk_row m None None None) (movies d) in
  let joined := fold_left (fun rows j => apply_join d j rows) (joins s) base in
  map row_movie (filter (passes (wheres s)) joined).

(** The rows the statement returns. *)
Definition run_select (s : Select) (d : Database) : list MovieModel :=
  let rows := matching s d in
  let rows := if is_distinct s then distinct_rows rows else rows in
  apply_limit (stmt_limit s) (apply_offset (stmt_offset s) (apply_order (ordering s) rows)).

(** [select(func.count()).select_from(stmt.subquery())] *)
Definition count_rows (s : Select) (d : Database) : Z :=
  Z.of_nat (List.length (run_select s d)).

(** *** The list endpoint *)

(** [schemas.movies.MovieListItemSchema] *)
Record MovieListItemSchema := mk_item {
  item_id : Z;
  item_uuid : string;
  item_name : string;
  item_year : Z;
  item_imdb : Q;
  item_price : Q
}.

(** [MovieListItemSchema.model_validate(m)] *)
Definition model_validate (m : MovieModel) : MovieListItemSchema :=
  mk_item (movie_id m) (movie_uuid m) (movie_name m) (movie_year m)
          (movie_imdb m) (movie_price m).

(** [schemas.movies.MovieListResponseSchema] *)
Record MovieListResponseSchema := mk_list_response {
  items : list MovieListItemSchema;
  total : Z;
  page : Z;
  pages : Z
}.

(** The declared bounds of the query parameters: [page >= 1],
    [1 <= size <= 100], [0 <= min_imdb <= 10] when given.  A request
    outside them is answered 422 before the handler runs. *)
Definition query_accepted (page size : Z) (min_imdb : option Q) : bool :=
  (1 <=? page) && (1 <=? size) && (size <=? 100)
  && match min_imdb with
     | None => true
     | Some v => Qle_bool 0 v && Qle_bool v 10
     end.

(** [ceil(total / size) if total else 1], the quotient taken exactly. *)
Definition page_count (total size : Z) : Z :=
  if total =? 0 then 1 else Qceiling (inject_Z total / inject_Z size).

(** The filters both list endpoints apply to their statement. *)
Definition apply_filters (year : option Z) (min_imdb max_price : option Q)
    (search : option string) (stmt : Select) : Select :=
  let stmt :=
    match year with
    | Some y => if y =? 0 then stmt else where_ (YearEq y) stmt
    | None => stmt
    end in
  let stmt :=
    match min_imdb with
    | Some v => if Qeq_bool v 0 then stmt else where_ (ImdbGe v) stmt
    | None => stmt
    end in
  let stmt :=
    match max_price with
    | Some v => if Qeq_bool v 0 then stmt else where_ (PriceLe v) stmt
    | None => stmt
    end in
  match search with
  | Some text_ =>
      if String.eqb text_ "" then stmt
      else
        let search_term := "%" ++ py_lower text_ ++ "%" in
        distinct (where_ (SearchLike search_term)
                    (join JoinDirectors (join JoinStars stmt)))
  | None => stmt
  end.

(** The tail of both list endpoints: order, count, paginate. *)
Definition paginate (page size : Z) (sort_by : SortBy) (stmt : Select)
    : Handler MovieListResponseSchema :=
  let stmt := order_by_desc sort_by stmt in
  total <- select (count_rows stmt) ;;
  let pages := page_count total size in
  let stmt := limit size (offset ((page - 1) * size) stmt) in
  movies <- select (run_select stmt) ;;
  ret (mk_list_response (map model_validate movies) total page pages).

(** [GET /movies/] *)
Definition get_movies (page size : Z) (year : option Z) (min_imdb max_price : option Q)
    (search : option string) (sort_by : SortBy) : Handler MovieListResponseSchema :=
  let stmt := select_movies in
  let stmt := apply_filters year min_imdb max_price search stmt in
  paginate page size sort_by stmt.

(** [GET /movies/favorites/] *)
Definition get_favorite_movies (page size : Z) (year : option Z)
    (min_imdb max_price : option Q) (search : option string) (sort_by : SortBy)
    (user : UserModel) : Handler MovieListResponseSchema :=
  let stmt := where_ (FavoriteOf (user_id user)) (join JoinFavorites select_movies) in
  let stmt := apply_filters year min_imdb max_price search stmt in
  paginate page size sort_by stmt.

End Engine.

(** *** Favorites *)

(** [db.get(MovieModel, movie_id)] *)
Definition get_movie_row (mid : Z) (d : Database) : option MovieModel :=
  find (fun m => movie_id m =? mid) (movies d).

(** [user.favorites] after [db.refresh(user)]: the movies links to
    the user through [user_favorites]. *)
Definition favorites (user : UserModel) (d : Database) : list MovieModel :=
  flat_map (fun link =>
              if fst link =? user_id user
              then filter (fun m => movie_id m =? snd link) (movies d)
              else [])
           (user_favorites d).

(** The rows of [user_favorites] with the given pair of keys. *)
Definition links (uid mid : Z) (link : Z * Z) : bool :=
  (fst link =? uid) && (snd link =? mid).

(** [movie in user.favorites]: loaded rows are compared by identity,
    and a session holds one object per primary key. *)
Definition contains (movie : MovieModel) (l : list MovieModel) : bool :=
  existsb (fun m => movie_id m =? movie_id movie) l.

(** [POST /movies/{movie_id}/favorite/] *)
Definition add_to_favorites (mid : Z) (user : UserModel) : Handler MessageResponseSchema :=
  movie <- get (get_movie_row mid) ;;
  match movie with
  | None => raise (mk_exc 404 "Movie not found" [])
  | Some movie =>
      user_favorites_ <- refresh (favorites user) ;;
      (if negb (contains movie user_favorites_)
       then mutate (with_user_favorites
                      (fun rows => (rows ++ [(user_id user, movie_id movie)])%list))
       else ret tt) ;;;
      commit ;;;
      ret (mk_message "Added to favorites")
  end.

(** [DELETE /movies/{movie_id}/favorite/] *)
Definition remove_from_favorites (mid : Z) (user : UserModel)
    : Handler MessageResponseSchema :=
  movie <- get (get_movie_row mid) ;;
  match movie with
  | None => raise (mk_exc 404 "Movie not found" [])
  | Some movie =>
      user_favorites_ <- refresh (favorites user) ;;
      (if contains movie user_favorites_
       then mutate (with_user_favorites
                      (filter (fun link =>
                         negb (links (user_id user) (movie_id movie) link)))) ;;;
            commit
       else ret tt) ;;;
      ret (mk_message "Removed from favorites")
  end.

End Movies.

(* ------------------------------------------------------------------ *)
(** ** tasks/cleanup.py *)

Module Cleanup.
Import Datetime Models Http Orm.
Local Open Scope Z_scope.
Local Open Scope handler_scope.

(** [model.expires_at <= now] as the database evaluates it against the
    bound UTC instant; a column value without zone is read as UTC. *)
Definition expired (clock : Z) (r : TokenRow) : bool :=
  utc_instant (expires_at r) <=? clock.

(** [session.execute(delete(model).where(model.expires_at <= now))],
    giving the statement's row count. *)
Definition delete_expired (t : TokenTable) (clock : Z) : Handler Z :=
  execute
    (fun d => Z.of_nat (List.length (filter (expired clock) (token_rows t d))))
    (with_token_rows t (filter (fun r => negb (expired clock r)))).

(** [x or 0] on an integer. *)
Definition or_zero (x : Z) : Z := if x =? 0 then 0 else x.

(** The [for model in (...)] loop with its accumulator. *)
Fixpoint cleanup_loop (models : list TokenTable) (clock : Z) (total : Z) : Handler Z :=
  match models with
  | [] => ret total
  | model :: rest =>
      rowcount <- delete_expired model clock ;;
      cleanup_loop rest clock (total + or_zero rowcount)
  end.

(** [cleanup_expired_tokens()] run when the clock reads [clock]. *)
Definition cleanup_expired_tokens (clock : Z) : Handler Z :=
  total <- cleanup_loop [Activation; PasswordReset; Refresh] clock 0 ;;
  commit ;;;
  ret total.

End Cleanup.

(* ------------------------------------------------------------------ *)
(** ** Sample data

    A small database and stand-ins for the external capabilities, used
    to run the handlers on concrete requests. *)

Module Samples.
Import Datetime Models Http Orm Security.
Local Open Scope string_scope.
Local Open Scope Z_scope.

(** SQL [LIKE] with its two wildcards: [%] for any run of characters,
    [_] for any one character. *)
Fixpoint like (pattern : string) : string -> bool :=
  match pattern with
  | EmptyString => fun s => match s with EmptyString => true | _ => false end
  | String c rest =>
      if Ascii.eqb c "%"%char then
        fix any (s : string) : bool :=
          like rest s
          || match s with
             | EmptyString => false
             | String _ s' => any s'
             end
      else if Ascii.eqb c "_"%char then
        fun s => match s with
                 | EmptyString => false
                 | String _ s' => like rest s'
                 end
      else
        fun s => match s with
                 | EmptyString => false
                 | String c' s' => Ascii.eqb c c' && like rest s'
                 end
  end.

#[local] Instance ascii_text : Movies.TextSearch := {|
  Movies.py_lower := Text.lower;
  Movies.sql_lower := Text.lower;
  Movies.sql_like := fun value pattern => like pattern value
|}.

(** A JWT manager whose refresh tokens are looked up in a table. *)
Definition issued_refresh_tokens : list (string * Claims) :=
  [("refresh-ann", [("user_id", 1)]); ("refresh-bob", [("user_id", 2)]);
   ("refresh-old", [("user_id", 1)])].

Fixpoint lookup_token (t : string) (l : list (string * Claims)) : option Claims :=
  match l with
  | [] => None
  | (k, c) :: r => if String.eqb k t then Some c else lookup_token t r
  end.

Definition show_claim (c : Claims) : string :=
  match claims_get "user_id" c with
  | Some 1 => "1"
  | Some 2 => "2"
  | _ => "?"
  end.

#[local] Instance table_manager : JWTAuthManagerInterface := {|
  create_access_token := fun c => "access-" ++ show_claim c;
  create_refresh_token := fun c => "refresh-" ++ show_claim c;
  decode_refresh_token := fun t =>
    match lookup_token t issued_refresh_tokens with
    | Some c => inr c
    | None => inl (mk_security_error "Invalid token")
    end;
  verify_refresh_token_or_raise := fun t =>
    match lookup_token t issued_refresh_tokens with
    | Some _ => None
    | None => Some (mk_security_error "Invalid token")
    end
|}.

(** A bearer-token decoder that knows three tokens under the
    dependency's key. *)
#[local] Instance table_jose : JoseJwt := {|
  jwt_decode := fun t key algorithms =>
    if negb (String.eqb key SECRET_KEY) then None
    else if String.eqb t "token-ann" then Some [("sub", 1)]
    else if String.eqb t "token-bob" then Some [("sub", 2)]
    else if String.eqb t "token-nosub" then Some [("user_id", 1)]
    else if String.eqb t "token-ghost" then Some [("sub", 9)]
    else None
|}.

(** Password check of the samples: the stored hash is the password
    behind a fixed prefix. *)
Definition verify_password (u : UserModel) (raw : string) : bool :=
  String.eqb (user_hashed_password u) ("hash:" ++ raw).

Definition ann : UserModel := mk_user 1 "ann@example.com" "hash:secret-A1" true 1.
Definition bob : UserModel := mk_user 2 "bob@example.com" "hash:secret-B2" false 1.

(** One second, in the unit of [wall]. *)
Definition second : Z := 1000000.

(** Bob's activation token, stored naive, expiring at second 100. *)
Definition bob_activation : ActivationTokenModel :=
  mk_token 7 2 "activate-bob" (mk_datetime (100 * second) None).

(** Ann's refresh tokens: one stored with a +2h zone expiring at
    second 500 UTC, one long expired. *)
Definition ann_refresh : RefreshTokenModel :=
  mk_token 3 1 "refresh-ann" (mk_datetime (7700 * second) (Some (7200 * second))).
Definition ann_refresh_old : RefreshTokenModel :=
  mk_token 4 1 "refresh-old" (mk_datetime (10 * second) None).

Definition ann_reset : PasswordResetTokenModel :=
  mk_token 5 1 "reset-ann" (mk_datetime (50 * second) None).

Definition movie (id year : Z) (name : string) (imdb price : Q) (votes : Z) : MovieModel :=
  mk_movie id ("uuid-" ++ name) name year 120 imdb votes None None
           ("About " ++ name) price 1.

Definition alien : MovieModel := movie 1 2000 "Alien" (84 # 10) (999 # 100) 900.
Definition brazil : MovieModel := movie 2 2010 "Brazil" (79 # 10) (1299 # 100) 200.
Definition casino : MovieModel := movie 3 2020 "Casino" (82 # 10) (499 # 100) 500.

Definition cinema : Database := {|
  users := [ann; bob];
  activation_tokens := [bob_activation];
  password_reset_tokens := [ann_reset];
  refresh_tokens := [ann_refresh; ann_refresh_old];
  movies := [alien; brazil; casino];
  stars := [mk_star 1 "Sigourney Weaver"; mk_star 2 "Robert De Niro"];
  directors := [mk_director 1 "Terry Gilliam"; mk_director 2 "Ridley Scott"];
  movie_stars := [(1, 1); (2, 2); (3, 2)];
  movie_directors := [(1, 2); (2, 1)];
  user_favorites := [(1, 2)]
|}.

End Samples.

(* ------------------------------------------------------------------ *)
(** ** services/email.py *)

Module Email.
Local Open Scope string_scope.
Local Open Scope Z_scope.

(** [config.settings.BaseAppSettings], the fields the mail service
    reads.  A field that may be [None] is an option. *)
Record MailSettings := mk_mail_settings {
  FRONTEND_URL : string;
  SMTP_HOST : option string;
  SMTP_PORT : Z;
  SMTP_USERNAME : option string;
  SMTP_PASSWORD : option string;
  SMTP_FROM : string;
  SMTP_USE_TLS : bool
}.

(** [email.message.EmailMessage] with the three headers and the
    content the service sets. *)
Record EmailMessage := mk_email {
  msg_subject : string;
  msg_from : string;
  msg_to : string;
  msg_content : string
}.

(** What the service does with the transport, in order. *)
Inductive SmtpCall :=
| Connect (host : string) (port : Z)            (* smtplib.SMTP(host, port) *)
| StartTls                                      (* server.starttls() *)
| Login (username : string) (password : option string)
| SendMessage (msg : EmailMessage)              (* server.send_message(msg) *)
| Quit.                                         (* leaving the [with] block *)

(** Truth value of an optional string: [None] and [""] are false. *)
Definition truthy (s : option string) : bool :=
  match s with
  | None => false
  | Some v => negb (String.eqb v "")
  end.

(** [send_email(settings, to_email, subject, body)] as the transport
    traffic it causes. *)
Definition send_email (settings : MailSettings) (to_email subject body : string)
    : list SmtpCall :=
  match SMTP_HOST settings with
  | None => []
  | Some host =>
      if negb (truthy (Some host)) then []
      else
        let msg := mk_email subject (SMTP_FROM settings) to_email body in
        [Connect host (SMTP_PORT settings)]
        ++ (if SMTP_USE_TLS settings then [StartTls] else [])
        ++ match SMTP_USERNAME settings with
           | Some username =>
               if truthy (Some username)
               then [Login username (SMTP_PASSWORD settings)]
               else []
           | None => []
           end
        ++ [SendMessage msg; Quit]
  end.

(** [s.rstrip(c)] for a single character [c]. *)
Fixpoint rstrip (c : ascii) (s : string) : string :=
  match s with
  | EmptyString => EmptyString
  | String a r =>
      match rstrip c r with
      | EmptyString => if Ascii.eqb a c then EmptyString else String a EmptyString
      | r' => String a r'
      end
  end.

(** The link of the activation mail. *)
Definition activation_link (settings : MailSettings) (to_email token : string) : string :=
  rstrip "/" (FRONTEND_URL settings) ++ "/activate?email=" ++ to_email ++ "&token=" ++ token.

(** The link of the password-reset mail. *)
Definition password_reset_link (settings : MailSettings) (to_email token : string) : string :=
  rstrip "/" (FRONTEND_URL settings) ++ "/reset-password?email=" ++ to_email ++ "&token=" ++ token.

Definition send_activation_email (settings : MailSettings) (to_email token : string)
    : list SmtpCall :=
  let link := activation_link settings to_email token in
  send_email settings to_email "Activate your account" ("Activation link: " ++ link).

Definition send_password_reset_email (settings : MailSettings) (to_email token : string)
    : list SmtpCall :=
  let link := password_reset_link settings to_email token in
  send_email settings to_email "Reset your password" ("Password reset link: " ++ link).

End Email.

(* ------------------------------------------------------------------ *)
(** ** routers/accounts.py: registration, resending, reset requests,
       password change *)

Module AccountFlows.
Import Datetime Models Http Orm Security Accounts Email.
Local Open Scope string_scope.
Local Open Scope Z_scope.
Local Open Scope handler_scope.

(** Modelled from the spec: the group enumeration has the default
    member [USER]; its other members play no part in the router. *)
Inductive UserGroupEnum := USER | OtherGroup (name : string).

(** Modelled from the spec: a row of the groups table.  No handler
    writes this table, so it is passed to the one handler that reads
    it. *)
Record UserGroupModel := mk_group {
  group_id : Z;
  group_name : UserGroupEnum
}.

Definition is_default_group (g : UserGroupModel) : bool :=
  match group_name g with
  | USER => true
  | OtherGroup _ => false
  end.

(** [schemas.accounts.UserRegistrationRequestSchema]; the password has
    passed the strength validator when the handler runs. *)
Record UserRegistrationRequestSchema := mk_registration {
  register_email : string;
  register_password : string
}.

(** [schemas.accounts.PasswordResetRequestSchema] and the request of
    [/activate/resend/]: one field, [email]. *)
Record PasswordResetRequestSchema := mk_reset_request_email { request_email : string }.
Record ResendActivationRequestSchema := mk_resend_request { resend_email : string }.

(** The request of [/password/change/], by the fields the handler
    reads. *)
Record ChangePasswordRequestSchema := mk_change_password {
  old_password : string;
  new_password : string
}.

(** A look at the session's pending state that issues no statement:
    reading a key the flush has assigned. *)
Definition pending {A} (q : Database -> A) : Handler A :=
  fun s => (Returned (q (working s)), s).

(** Modelled from the spec: a token row as its constructor leaves it,
    for user [uid], with the token string and the expiry the model's
    defaults generate; the key comes from the table's autoincrement. *)
Definition new_token_row (t : TokenTable) (uid : Z) (generated : string)
    (expiry : datetime) (d : Database) : TokenRow :=
  mk_token (next_id (map token_id (token_rows t d))) uid generated expiry.

Definition insert_token (t : TokenTable) (row : TokenRow) : Database -> Database :=
  with_token_rows t (fun rows => (rows ++ [row])%list).

Definition acknowledge_reset : MessageResponseSchema :=
  mk_message "If you are registered, you will receive an email with instructions.".

Definition acknowledge_resend : MessageResponseSchema :=
  mk_message "If the email exists and is not activated, you will receive a new activation link.".

(** [POST /password-reset/request/].  [generated] and [expiry] are the
    token string and the expiry the new row is given.  The second
    component of the result is the mail traffic of the call. *)
Definition request_password_reset_token (settings : MailSettings)
    (payload : PasswordResetRequestSchema) (generated : string) (expiry : datetime)
    : Handler (MessageResponseSchema * list SmtpCall) :=
  let msg := acknowledge_reset in
  user <- select (fun d => first (users_by_email (request_email payload) d)) ;;
  match user with
  | None => ret (msg, [])
  | Some user =>
      if negb (user_is_active user) then ret (msg, [])
      else
        delete_where PasswordReset (fun r => token_user_id r =? user_id user) ;;;
        token_record <- pending (new_token_row PasswordReset (user_id user) generated expiry) ;;
        add (insert_token PasswordReset token_record) ;;;
        commit ;;;
        refresh (fun _ => token_record) ;;;
        ret (msg, send_password_reset_email settings (user_email user) (token token_record))
  end.

(** [POST /activate/resend/] *)
Definition resend_activation_token (settings : MailSettings)
    (payload : ResendActivationRequestSchema) (generated : string) (expiry : datetime)
    : Handler (MessageResponseSchema * list SmtpCall) :=
  let msg := acknowledge_resend in
  user <- select (fun d => first (users_by_email (resend_email payload) d)) ;;
  match user with
  | None => ret (msg, [])
  | Some user =>
      if user_is_active user then ret (msg, [])
      else
        delete_where Activation (fun r => token_user_id r =? user_id user) ;;;
        token_record <- pending (new_token_row Activation (user_id user) generated expiry) ;;
        add (insert_token Activation token_record) ;;;
        commit ;;;
        refresh (fun _ => token_record) ;;;
        ret (msg, send_activation_email settings (user_email user) (token token_record))
  end.

Section Passwords.

(** Modelled from the spec: the hashing behind [UserModel.create] and
    the [password] setter, and [UserModel.verify_password]. *)
Variable hash_password : string -> string.
Variable verify_password : UserModel -> string -> bool.

(** Modelled from the spec: [UserModel.create(email, raw_password,
    group_id)] builds an inactive user with the hashed password; the
    key is assigned when the row is flushed. *)
Definition UserModel_create (email raw_password : string) (group : Z) (d : Database)
    : UserModel :=
  mk_user (next_id (map user_id (users d))) email (hash_password raw_password) false group.

(** [POST /register/].  The groups table is [groups]; [generated] and
    [expiry] belong to the activation token the handler creates. *)
Definition register_user (groups : list UserGroupModel) (settings : MailSettings)
    (user_data : UserRegistrationRequestSchema) (generated : string) (expiry : datetime)
    : Handler (UserModel * list SmtpCall) :=
  existing <- select (fun d => first (users_by_email (register_email user_data) d)) ;;
  match existing with
  | Some _ =>
      raise (mk_exc 409 ("A user with this email " ++ register_email user_data
                         ++ " already exists.") [])
  | None =>
      user_group <- select (fun _ => first (filter is_default_group groups)) ;;
      match user_group with
      | None => raise (mk_exc 500 "Default user group not found." [])
      | Some user_group =>
          new_user <- pending (UserModel_create (register_email user_data)
                                 (register_password user_data) (group_id user_group)) ;;
          add (with_users (fun rows => (rows ++ [new_user])%list)) ;;;
          activation <- pending (new_token_row Activation (user_id new_user) generated expiry) ;;
          add (insert_token Activation activation) ;;;
          commit ;;;
          refresh (fun _ => new_user) ;;;
          refresh (fun _ => activation) ;;;
          ret (new_user, send_activation_email settings (user_email new_user) (token activation))
      end
  end.

(** [POST /password/change/]; [user] is what [get_current_user]
    returned. *)
Definition change_password (payload : ChangePasswordRequestSchema) (user : UserModel)
    : Handler MessageResponseSchema :=
  if negb (verify_password user (old_password payload))
  then raise (mk_exc 400 "Old password is incorrect." [])
  else
    mutate (set_password user (hash_password (new_password payload))) ;;;
    add (fun d => d) ;;;
    commit ;;;
    ret (mk_message "Password changed successfully.").

End Passwords.

End AccountFlows.

(* ------------------------------------------------------------------ *)
(** ** routers/accounts.py: the password reset with its [try] block *)

Module Faults.
Import Datetime Models Http Orm Accounts.
Local Open Scope string_scope.
Local Open Scope Z_scope.
Local Open Scope handler_scope.

(** Which statements of a request the database refuses with
    [SQLAlchemyError]: statement number [n] of the session, counting
    from 0, when [fails n]. *)
Definition FaultPlan := nat -> bool.

Definition no_faults : FaultPlan := fun _ => false.

(** [await db.rollback()]: the pending changes are dropped. *)
Definition rollback : Handler unit :=
  fun s =>
    (Returned tt,
     {| committed := committed s; working := committed s; calls := calls s |}).

(** A statement [stmt] inside a [try] block whose
    [except SQLAlchemyError] clause is [handler], followed by [k].  A
    refused statement changes nothing. *)
Definition attempt {A B} (fails : FaultPlan) (handler : Handler B)
    (stmt : Handler A) (k : A -> Handler B) : Handler B :=
  fun s => if fails (List.length (calls s)) then handler s else bind stmt k s.

(** The [except SQLAlchemyError] clause of [reset_password_complete]. *)
Definition reset_failed : Handler MessageResponseSchema :=
  rollback ;;;
  raise (mk_exc 500 "An error occurred while resetting the password." []).

Section Handler.
Variable fails : FaultPlan.
Variable hash_password : string -> string.

(** [POST /reset-password/complete/] with both [except] clauses: an
    [HTTPException] raised in the block is raised again; an
    [SQLAlchemyError] of a statement leads to the rollback and the
    500. *)
Definition reset_password_complete (payload : PasswordResetCompleteRequestSchema)
    (clock : Z) : Handler MessageResponseSchema :=
  attempt fails reset_failed
    (select (fun d => first (users_by_email (reset_email payload) d)))
    (fun user =>
  match user with
  | None => raise invalid_reset
  | Some user =>
      if negb (user_is_active user) then raise invalid_reset
      else
        attempt fails reset_failed
          (select (fun d => first (tokens_by_user PasswordReset (user_id user) d)))
          (fun token_record =>
        match token_record with
        | None => raise invalid_reset
        | Some token_record =>
            if negb (String.eqb (token token_record) (reset_token payload))
            then
              attempt fails reset_failed
                (delete_where PasswordReset
                   (fun r => token_id r =? token_id token_record))
                (fun _ =>
              attempt fails reset_failed commit
                (fun _ => raise invalid_reset))
            else
              let expires_at := normalize (expires_at token_record) in
              match Datetime.le expires_at (now_utc clock) with
              | None => raise internal_server_error
              | Some true =>
                  attempt fails reset_failed
                    (delete_where PasswordReset
                       (fun r => token_id r =? token_id token_record))
                    (fun _ =>
                  attempt fails reset_failed commit
                    (fun _ => raise invalid_reset))
              | Some false =>
                  mutate (set_password user (hash_password (reset_password payload))) ;;;
                  attempt fails reset_failed
                    (delete_where PasswordReset
                       (fun r => token_id r =? token_id token_record))
                    (fun _ =>
                  attempt fails reset_failed commit
                    (fun _ => ret (mk_message "Password reset successfully.")))
              end
        end)
  end).

End Handler.

End Faults.

(* ------------------------------------------------------------------ *)
(** ** routers/movies.py: genres with their counts *)

Module Genres.
Import Models Http Orm.
Local Open Scope string_scope.
Local Open Scope Z_scope.
Local Open Scope handler_scope.

(** [database.models.movies.GenreModel] *)
Record GenreModel := mk_genre { genre_id : Z; genre_name : string }.

(** The [genres] table and the [movie_genres] association table (pairs
    of movie key and genre key).  No handler writes them; they are
    passed to the handler that reads them. *)
Record GenreTables := mk_genre_tables {
  genres : list GenreModel;
  movie_genres : list (Z * Z)
}.

(** One element of the answer: [{"id", "name", "movies_count"}]. *)
Record GenreCount := mk_genre_count {
  count_id : Z;
  count_name : string;
  movies_count : Z
}.

(** The movies a genre is joined with through [GenreModel.movies]. *)
Definition movies_of (t : GenreTables) (d : Database) (g : GenreModel) : list MovieModel :=
  flat_map (fun link =>
              if snd link =? genre_id g
              then filter (fun m => movie_id m =? fst link) (movies d)
              else [])
           (movie_genres t).

(** ORDER BY name ASC, byte-wise; rows with equal names keep their
    incoming order. *)
Fixpoint insert_by_name (x : GenreCount) (l : list GenreCount) : list GenreCount :=
  match l with
  | [] => [x]
  | y :: r =>
      if String.leb (count_name x) (count_name y) then x :: y :: r
      else y :: insert_by_name x r
  end.

Definition sort_by_name (l : list GenreCount) : list GenreCount :=
  fold_right insert_by_name [] l.

(** The grouped outer join: [id] is the primary key of [genres], so
    each group is one genre row; [count(MovieModel.id)] counts the
    joined movies and is 0 for the NULL row of a genre without any. *)
Definition genre_counts (t : GenreTables) (d : Database) : list GenreCount :=
  sort_by_name
    (map (fun g => mk_genre_count (genre_id g) (genre_name g)
                     (Z.of_nat (List.length (movies_of t d g))))
         (genres t)).

(** [GET /movies/genres/] *)
Definition list_genres_with_counts (t : GenreTables) : Handler (list GenreCount) :=
  res <- select (genre_counts t) ;;
  ret res.

End Genres.

(* ------------------------------------------------------------------ *)
(** ** schemas/movies.py: the bounds of the movie payloads *)

Module MovieSchemas.
Local Open Scope string_scope.
Local Open Scope Z_scope.

(** The fields of [MovieBaseSchema], after type coercion. *)
Record MovieBase := mk_movie_base {
  name : string;
  year : Z;
  time : Z;
  imdb : Q;
  votes : Z;
  meta_score : option Q;
  gross : option Q;
  description : string;
  price : Q;
  certification_id : Z
}.

(** The fields of [MovieUpdateSchema] that [MovieBaseSchema] has too;
    each may be absent. *)
Record MovieUpdate := mk_movie_update {
  upd_name : option string;
  upd_year : option Z;
  upd_time : option Z;
  upd_imdb : option Q;
  upd_votes : option Z;
  upd_meta_score : option Q;
  upd_gross : option Q;
  upd_description : option string;
  upd_price : option Q;
  upd_certification_id : option Z
}.

(** A constraint on an optional field holds when the field is absent. *)
Definition when_present {A} (check : A -> bool) (v : option A) : bool :=
  match v with
  | None => true
  | Some x => check x
  end.

Definition between (lo hi : Q) (v : Q) : bool := Qle_bool lo v && Qle_bool v hi.

(** [validate_year]: raises when the year is more than one past the
    current one. *)
Definition validate_year (current_year : Z) (value : Z) : bool :=
  negb (current_year + 1 <? value).

(** A [str] of the payload is kept as the bytes of its UTF-8 form.
    A byte [10xxxxxx] continues a character; every other byte starts
    one. *)
Definition is_continuation (c : ascii) : bool :=
  match c with
  | Ascii _ _ _ _ _ _ b6 b7 => b7 && negb b6
  end.

(** [len(s)]: the characters of the string, not its bytes. *)
Fixpoint char_count (s : string) : nat :=
  match s with
  | EmptyString => 0%nat
  | String c rest => ((if is_continuation c then 0 else 1) + char_count rest)%nat
  end.

(** The fields of a [MovieBaseSchema] payload that fail, by name, in
    declaration order.  A field validator runs only when the field's
    declared bounds hold.  [max_length] bounds the characters of the
    name. *)
Definition base_errors (current_year : Z) (m : MovieBase) : list string :=
  (if (Z.of_nat (char_count (name m)) <=? 255) then [] else ["name"])
  ++ (if (1888 <=? year m) && validate_year current_year (year m) then [] else ["year"])
  ++ (if 0 <? time m then [] else ["time"])
  ++ (if between 0 10 (imdb m) then [] else ["imdb"])
  ++ (if 0 <=? votes m then [] else ["votes"])
  ++ (if when_present (between 0 100) (meta_score m) then [] else ["meta_score"])
  ++ (if when_present (Qle_bool 0) (gross m) then [] else ["gross"])
  ++ (if Qle_bool 0 (price m) then [] else ["price"]).

(** The same for a [MovieUpdateSchema] payload. *)
Definition update_errors (u : MovieUpdate) : list string :=
  (if when_present (fun y => 1888 <=? y) (upd_year u) then [] else ["year"])
  ++ (if when_present (fun t => 0 <? t) (upd_time u) then [] else ["time"])
  ++ (if when_present (between 0 10) (upd_imdb u) then [] else ["imdb"])
  ++ (if when_present (fun v => 0 <=? v) (upd_votes u) then [] else ["votes"])
  ++ (if when_present (between 0 100) (upd_meta_score u) then [] else ["meta_score"])
  ++ (if when_present (Qle_bool 0) (upd_gross u) then [] else ["gross"])
  ++ (if when_present (Qle_bool 0) (upd_price u) then [] else ["price"]).

(** A create payload sent again as an update of every field. *)
Definition as_update (m : MovieBase) : MovieUpdate :=
  mk_movie_update (Some (name m)) (Some (year m)) (Some (time m)) (Some (imdb m))
                  (Some (votes m)) (meta_score m) (gross m) (Some (description m))
                  (Some (price m)) (Some (certification_id m)).

End MovieSchemas.

(* ------------------------------------------------------------------ *)
(** ** What a client and the tables see of a listing *)

Module Listing.
Import Models Http Orm Movies.
Local Open Scope Z_scope.

(** The items of the answer to a list request; none when the request
    was refused. *)
Definition listed_items (r : Outcome MovieListResponseSchema * Database * list DbCall)
    : list MovieListItemSchema :=
  match outcome r with
  | Returned envelope => items envelope
  | Raised _ => []
  end.

(** The page numbers [1 .. n]. *)
Definition page_numbers (n : Z) : list Z :=
  map Z.of_nat (seq 1 (Z.to_nat n)).

(** A joined row agrees with the tables: its movie is stored, and each
    joined column comes from a row linked to that movie. *)
Definition row_sound (d : Database) (r : JoinedRow) : Prop :=
  In (row_movie r) (movies d)
  /\ (forall s, row_star r = Some s -> In s (stars_of d (row_movie r)))
  /\ (forall x, row_director r = Some x -> In x (directors_of d (row_movie r)))
  /\ (forall u, row_favorite_user r = Some u ->
                In (u, movie_id (row_movie r)) (user_favorites d)).

(** The texts of a movie a search looks at: its name, its description,
    the names of its stars and of its directors. *)
Definition searched_texts (d : Database) (m : MovieModel) : list string :=
  movie_name m :: movie_description m
  :: map star_name (stars_of d m) ++ map director_name (directors_of d m).

(** The numeric filters as a test on a stored movie; a filter that is
    absent or zero tests nothing. *)
Definition within_filters (year : option Z) (min_imdb max_price : option Q)
    (m : MovieModel) : bool :=
  match year with
  | Some y => (y =? 0) || (movie_year m =? y)
  | None => true
  end
  && match min_imdb with
     | Some v => Qeq_bool v 0 || Qle_bool v (movie_imdb m)
     | None => true
     end
  && match max_price with
     | Some v => Qeq_bool v 0 || Qle_bool (movie_price m) v
     | None => true
     end.

End Listing.

(* ------------------------------------------------------------------ *)
(** ** More sample data *)

Module MoreSamples.
Import Datetime Models Http Orm Security Samples.
Local Open Scope string_scope.
Local Open Scope Z_scope.

(** The hashing the sample password check undoes. *)
Definition hash_password (raw : string) : string := "hash:" ++ raw.

(** A JWT manager whose refresh tokens name the user after a fixed
    prefix; its structural check looks at the prefix only. *)
#[local] Instance prefix_manager : JWTAuthManagerInterface := {|
  create_access_token := fun c => "access-" ++ show_claim c;
  create_refresh_token := fun c => "refresh-" ++ show_claim c;
  decode_refresh_token := fun t =>
    if String.eqb t "refresh-1" then inr [("user_id", 1)]
    else if String.eqb t "refresh-2" then inr [("user_id", 2)]
    else inl (mk_security_error "Invalid token");
  verify_refresh_token_or_raise := fun t =>
    if String.prefix "refresh-" t then None
    else Some (mk_security_error "Invalid token")
|}.

Definition groups : list AccountFlows.UserGroupModel :=
  [AccountFlows.mk_group 5 (AccountFlows.OtherGroup "admin");
   AccountFlows.mk_group 1 AccountFlows.USER].

Definition mail : Email.MailSettings :=
  Email.mk_mail_settings "http://localhost:3000" (Some "smtp.example.com") 587
                         (Some "mailer") (Some "mailer-password")
                         "no-reply@example.com" true.

Definition mail_slashed : Email.MailSettings :=
  Email.mk_mail_settings "http://localhost:3000/" (Some "smtp.example.com") 587
                         (Some "mailer") (Some "mailer-password")
                         "no-reply@example.com" true.

(** An expiry at second 900, stored with zone UTC. *)
Definition later : datetime := mk_datetime (900 * second) (Some 0).

Definition genre_tables : Genres.GenreTables :=
  Genres.mk_genre_tables
    [Genres.mk_genre 1 "Sci-Fi"; Genres.mk_genre 2 "Drama"; Genres.mk_genre 3 "Western"]
    [(1, 1); (2, 1); (3, 2)].

Definition new_release : MovieSchemas.MovieBase :=
  MovieSchemas.mk_movie_base "Dune" 2024 155 (80 # 10) 1000 None None "Sand" (999 # 100) 1.

Definition far_future : MovieSchemas.MovieBase :=
  MovieSchemas.mk_movie_base "Dune" 2999 155 (80 # 10) 1000 None None "Sand" (999 # 100) 1.

Fixpoint copies (n : nat) (s : string) : string :=
  match n with
  | O => EmptyString
  | S n => (s ++ copies n s)%string
  end.

(** Latin small letter e with acute, U+00E9: two bytes. *)
Definition e_acute : string := String "195"%char (String "169"%char EmptyString).

(** A name of 200 characters in 400 bytes. *)
Definition accented : MovieSchemas.MovieBase :=
  MovieSchemas.mk_movie_base (copies 200 e_acute) 2024 155 (80 # 10) 1000 None None "Sand"
                             (999 # 100) 1.

(** A name of 256 characters. *)
Definition overlong : MovieSchemas.MovieBase :=
  MovieSchemas.mk_movie_base (copies 256 "a") 2024 155 (80 # 10) 1000 None None "Sand"
                             (999 # 100) 1.

End MoreSamples.

(* ================================================================== *)
(** * Properties *)

Import Datetime Models Http Orm Security.

(** ** Running handlers *)

(** Unfold one request down to the session operations. *)
Ltac run_handler :=
  unfold outcome, database_after, traffic, run_request, open_session;
  unfold bind, select, get, refresh, execute, mutate, add, commit, ret, raise, log;
  cbn [fst snd committed working calls].

(** Reduce the session plumbing without unfolding the queries. *)
Ltac session_step := cbn [fst snd committed working calls app].

Lemma first_filter_none {A} (p : A -> bool) (l : list A) :
  (forall x, In x l -> p x = false) -> first (filter p l) = None.
Proof.
  induction l as [|a l IH]; intros H; cbn; [reflexivity|].
  rewrite (H a (or_introl eq_refl)). apply IH. intros x Hx. apply H. now right.
Qed.

Lemma first_in {A} (l : list A) (x : A) : first l = Some x -> In x l.
Proof. destruct l; cbn; [discriminate|]. intros [= ->]. now left. Qed.

Lemma filter_all_false {A} (p : A -> bool) (l : list A) :
  (forall x, In x l -> p x = false) -> filter p l = [].
Proof.
  induction l as [|a l IH]; intros H; cbn; [reflexivity|].
  rewrite (H a (or_introl eq_refl)). apply IH. intros x Hx. apply H. now right.
Qed.

Lemma filter_all_true {A} (p : A -> bool) (l : list A) :
  (forall x, In x l -> p x = true) -> filter p l = l.
Proof.
  induction l as [|a l IH]; intros H; cbn; [reflexivity|].
  rewrite (H a (or_introl eq_refl)). f_equal. apply IH. intros x Hx. apply H. now right.
Qed.

(** Normalising and then comparing with an aware "now" never mixes
    naive and aware values, and decides on the UTC instants. *)
Lemma le_normalize_now (expires_at : datetime) (clock : Z) :
  Datetime.le (normalize expires_at) (now_utc clock)
  = Some (utc_instant expires_at <=? clock).
Proof.
  unfold Datetime.le, normalize, now_utc, utc_instant, replace_tzinfo, utc.
  destruct expires_at as [w [off|]]; cbn; f_equal; f_equal; lia.
Qed.

(** A database is the record of its tables. *)
Lemma database_eta (d : Database) :
  mk_db (users d) (activation_tokens d) (password_reset_tokens d) (refresh_tokens d)
        (movies d) (stars d) (directors d) (movie_stars d) (movie_directors d)
        (user_favorites d) = d.
Proof. now destruct d. Qed.

(** ** Activation *)

Section ActivationProperties.
Import Accounts.

Variables (payload : ActivateUserRequestSchema) (clock : Z) (d : Database).
Variables (user : UserModel) (token_record : ActivationTokenModel).

Hypothesis user_found : first (users_by_email (activate_email payload) d) = Some user.
Hypothesis user_inactive : user_is_active user = false.
Hypothesis token_found :
  first (tokens_by_user Activation (user_id user) d) = Some token_record.

(** C4. Activation with the matching token whose expiry, read in UTC
    when stored naive, is at or before the current UTC instant: the
    handler deletes the token row, commits and raises 400 with the
    generic message; afterwards no activation token with that key is
    stored, the remaining activation tokens are the ones with another
    key, and the user is as inactive as before. *)
Theorem activate_user_expired_token :
  token token_record = activate_token payload ->
  utc_instant (expires_at token_record) <= clock ->
  let r := run_request (activate_user payload clock) d in
  outcome r = Raised (mk_exc 400 "Invalid or expired activation token." [])
  /\ ~ In token_record (activation_tokens (database_after r))
  /\ (forall t, In t (activation_tokens (database_after r)) ->
                token_id t <> token_id token_record)
  /\ activation_tokens (database_after r)
     = filter (fun t => negb (token_id t =? token_id token_record)) (activation_tokens d)
  /\ users (database_after r) = users d
  /\ traffic r = [CallExecute; CallExecute; CallExecute; CallCommit].
Proof.
  intros Htok Hexp r. subst r. unfold activate_user. run_handler.
  rewrite user_found, user_inactive. session_step. rewrite token_found.
  rewrite Htok, String.eqb_refl. cbn [negb].
  rewrite le_normalize_now.
  replace (utc_instant (expires_at token_record) <=? clock) with true
    by (symmetry; apply Z.leb_le; exact Hexp).
  unfold delete_where. run_handler. cbn.
  assert (Hgone : forall t,
    In t (filter (fun r => negb (token_id r =? token_id token_record)) (activation_tokens d))
    -> token_id t <> token_id token_record).
  { intros t Ht. apply filter_In in Ht. destruct Ht as [_ Ht].
    apply negb_true_iff, Z.eqb_neq in Ht. exact Ht. }
  repeat split; try reflexivity.
  - intros Hin. apply (Hgone _ Hin). reflexivity.
  - exact Hgone.
Qed.

(** C10. Activation with a token string that differs from the stored
    one: the handler raises 400 and commits nothing; every table is
    as before, so the stored token is still there and the user is
    still inactive. *)
Theorem activate_user_token_mismatch :
  token token_record <> activate_token payload ->
  let r := run_request (activate_user payload clock) d in
  (exists e, outcome r = Raised e /\ status_code e = 400)
  /\ database_after r = d
  /\ In token_record (activation_tokens (database_after r))
  /\ first (users_by_email (activate_email payload) (database_after r)) = Some user
  /\ ~ In CallCommit (traffic r).
Proof.
  intros Hneq r. subst r. unfold activate_user. run_handler.
  rewrite user_found, user_inactive. session_step. rewrite token_found.
  apply String.eqb_neq in Hneq. rewrite Hneq. cbn [negb]. session_step.
  repeat split.
  - eexists. split; reflexivity.
  - apply first_in in token_found. unfold tokens_by_user in token_found.
    apply filter_In in token_found. apply token_found.
  - exact user_found.
  - cbn. intros [H|[H|[]]]; discriminate.
Qed.

End ActivationProperties.

(** The sibling handler for password resets treats the same situation
    differently: a token string that differs from the stored one costs
    the user the stored token. *)
Lemma reset_password_complete_token_mismatch
    (hash_password : string -> string)
    (payload : Accounts.PasswordResetCompleteRequestSchema) (clock : Z) (d : Database)
    (user : UserModel) (token_record : PasswordResetTokenModel) :
  first (Accounts.users_by_email (Accounts.reset_email payload) d) = Some user ->
  user_is_active user = true ->
  first (Accounts.tokens_by_user PasswordReset (user_id user) d) = Some token_record ->
  token token_record <> Accounts.reset_token payload ->
  let r := run_request (Accounts.reset_password_complete hash_password payload clock) d in
  outcome r = Raised (mk_exc 400 "Invalid email or token." [])
  /\ ~ In token_record (password_reset_tokens (database_after r))
  /\ In CallCommit (traffic r).
Proof.
  intros Huser Hact Htok Hneq r. subst r.
  unfold Accounts.reset_password_complete. run_handler.
  rewrite Huser, Hact. cbn [negb]. session_step. rewrite Htok.
  apply String.eqb_neq in Hneq. rewrite Hneq. cbn [negb].
  unfold Accounts.delete_where. run_handler. cbn.
  split; [reflexivity|]. split; [|auto].
  intros Hin. apply filter_In in Hin. destruct Hin as [_ Hin].
  rewrite Z.eqb_refl in Hin. discriminate.
Qed.

(** ** Login, logout, refresh *)

Section AccountProperties.
Import Accounts.
Context {jwt_manager : JWTAuthManagerInterface}.
Variable verify_password : UserModel -> string -> bool.

(** C2. Login answers 401 with one and the same detail text when no
    user has the email and when the user found fails password
    verification; it answers 403 when the user found verifies the
    password but is inactive.  None of the three changes the
    database. *)
Theorem login_user_rejections
    (payload : LoginRequestSchema) (settings : BaseAppSettings) (clock : Z)
    (d : Database) :
  let r := run_request (login_user verify_password payload settings clock) d in
  ((forall u, In u (users d) -> user_email u <> login_email payload) ->
     outcome r = Raised (mk_exc 401 "Invalid email or password." [])
     /\ database_after r = d)
  /\ (forall user,
        first (users_by_email (login_email payload) d) = Some user ->
        verify_password user (login_password payload) = false ->
        outcome r = Raised (mk_exc 401 "Invalid email or password." [])
        /\ database_after r = d)
  /\ (forall user,
        first (users_by_email (login_email payload) d) = Some user ->
        verify_password user (login_password payload) = true ->
        user_is_active user = false ->
        (exists e, outcome r = Raised e /\ status_code e = 403)
        /\ database_after r = d).
Proof.
  intros r. subst r. unfold login_user. run_handler.
  split; [|split].
  - intros Habsent. unfold users_by_email.
    rewrite (first_filter_none _ (users d)); [split; reflexivity|].
    intros u Hu. apply String.eqb_neq. now apply Habsent.
  - intros user Hfound Hbad. rewrite Hfound, Hbad. split; reflexivity.
  - intros user Hfound Hgood Hinactive. rewrite Hfound, Hgood. cbn [negb].
    rewrite Hinactive. cbn [negb]. split; [eexists; split|]; reflexivity.
Qed.

(** C7. Logout always returns the message "Logged out.".  When the
    structural check of the token fails, the session is not used at
    all; when it passes, exactly the refresh-token rows holding the
    supplied string are deleted, which changes nothing when there is
    none. *)
Theorem logout_user_always_succeeds (payload : LogoutRequestSchema) (d : Database) :
  let r := run_request (logout_user payload) d in
  outcome r = Returned (mk_message "Logged out.")
  /\ (verify_refresh_token_or_raise (logout_refresh_token payload) <> None ->
        database_after r = d /\ traffic r = [])
  /\ (verify_refresh_token_or_raise (logout_refresh_token payload) = None ->
        database_after r
        = with_refresh_tokens
            (filter (fun t => negb (String.eqb (token t) (logout_refresh_token payload)))) d
        /\ (forall t, In t (refresh_tokens (database_after r)) <->
                      In t (refresh_tokens d) /\ token t <> logout_refresh_token payload)
        /\ ((forall t, In t (refresh_tokens d) -> token t <> logout_refresh_token payload) ->
              database_after r = d)).
Proof.
  intros r. subst r. unfold logout_user.
  destruct (verify_refresh_token_or_raise (logout_refresh_token payload)) as [e|] eqn:Hv;
    run_handler.
  - split; [reflexivity|]. split; [intros _; split; reflexivity|discriminate].
  - unfold delete_where. run_handler. cbn [with_token_rows].
    split; [reflexivity|]. split; [intros H; now elim H|]. intros _.
    split; [reflexivity|]. split.
    + intros t. cbn [refresh_tokens with_refresh_tokens].
      rewrite filter_In, negb_true_iff, String.eqb_neq. reflexivity.
    + intros H. unfold with_refresh_tokens.
      rewrite filter_all_true; [apply database_eta|].
      intros t Ht. apply negb_true_iff, String.eqb_neq. now apply H.
Qed.

(** C1. A refresh request that passes every check of the handler
    (the token decodes, a stored row holds it, the user of its claim
    exists and is active, the stored expiry is later than now) makes
    the handler compute an access token for the same user and then
    return [None]: no response body carries the token.  The database
    is left as it was. *)
Theorem refresh_access_token_returns_no_body
    (payload : RefreshTokenRequestSchema) (clock : Z) (d : Database)
    (token_data : Claims) (rt_record : RefreshTokenModel) (user : UserModel) :
  decode_refresh_token (refresh_token payload) = inr token_data ->
  first (tokens_by_value Refresh (refresh_token payload) d) = Some rt_record ->
  first (users_by_id (claims_get "user_id" token_data) d) = Some user ->
  user_is_active user = true ->
  clock < utc_instant (expires_at rt_record) ->
  let r := run_request (refresh_access_token payload clock) d in
  outcome r = Returned None /\ database_after r = d.
Proof.
  intros Hdec Hrt Huser Hact Hexp r. subst r. unfold refresh_access_token.
  rewrite Hdec. run_handler. rewrite Hrt. session_step. rewrite Huser, Hact.
  cbn [negb]. rewrite le_normalize_now.
  replace (utc_instant (expires_at rt_record) <=? clock) with false
    by (symmetry; apply Z.leb_gt; exact Hexp).
  split; reflexivity.
Qed.

End AccountProperties.

(** ** The bearer dependency *)

(** Close a goal that is an equation already at hand. *)
Ltac known := first [reflexivity | eassumption].

Section DependencyProperties.
Context {jose : JoseJwt}.
Local Open Scope string_scope.

(** What the function is written to do, and does when it is handed a
    synchronous session as its signature annotates: it raises exactly
    when the bearer token is missing, or does not decode under the
    dependency's secret and algorithm, or decodes to a payload
    without the subject claim, or names a user that is not stored or
    not active.  Whatever it raises is a 401 with the header
    [WWW-Authenticate: Bearer].  In every other case it returns the
    user loaded by the claim.  It never changes the database. *)
Lemma get_current_user_on_sync_session (authorization : option string) (d : Database) :
  let r := run_request (get_current_user SyncSession authorization) d in
  ((exists e, outcome r = Raised e) <->
     bearer_token authorization = None
     \/ exists token, bearer_token authorization = Some token /\
          (jwt_decode token SECRET_KEY [ALGORITHM] = None
           \/ exists payload, jwt_decode token SECRET_KEY [ALGORITHM] = Some payload /\
                (claims_get "sub" payload = None
                 \/ exists uid, claims_get "sub" payload = Some uid /\
                      (get_user uid d = None
                       \/ exists user, get_user uid d = Some user
                                       /\ user_is_active user = false))))
  /\ (forall e, outcome r = Raised e ->
        status_code e = 401 /\ headers e = [("WWW-Authenticate", "Bearer")])
  /\ (forall token payload uid user,
        bearer_token authorization = Some token ->
        jwt_decode token SECRET_KEY [ALGORITHM] = Some payload ->
        claims_get "sub" payload = Some uid ->
        get_user uid d = Some user ->
        user_is_active user = true ->
        outcome r = Returned user)
  /\ database_after r = d.
Proof.
  intros r. subst r. unfold get_current_user, oauth2_scheme.
  destruct (bearer_token authorization) as [token|] eqn:Hb; run_handler.
  2:{ split; [split; [intros _; now left | intros _; eexists; reflexivity]|].
      split; [intros e [= <-]; split; reflexivity|].
      split; [intros; congruence | reflexivity]. }
  destruct (jwt_decode token SECRET_KEY [ALGORITHM]) as [payload|] eqn:Hd; session_step.
  2:{ split; [split; [intros _ | intros _; eexists; reflexivity]|].
      { right. exists token. split; [known|]. now left. }
      split; [intros e [= <-]; split; reflexivity|].
      split; [intros; congruence | reflexivity]. }
  destruct (claims_get "sub" payload) as [uid|] eqn:Hs; session_step.
  2:{ split; [split; [intros _ | intros _; eexists; reflexivity]|].
      { right. exists token. split; [known|]. right.
        exists payload. split; [known|]. now left. }
      split; [intros e [= <-]; split; reflexivity|].
      split; [intros; congruence | reflexivity]. }
  unfold db_get. run_handler.
  destruct (get_user uid d) as [user|] eqn:Hu; session_step.
  2:{ split; [split; [intros _ | intros _; eexists; reflexivity]|].
      { right. exists token. split; [known|]. right.
        exists payload. split; [known|]. right.
        exists uid. split; [known|]. now left. }
      split; [intros e [= <-]; split; reflexivity|].
      split; [intros; congruence | reflexivity]. }
  destruct (user_is_active user) eqn:Ha; cbn [negb]; session_step.
  - split; [split|].
    + intros [e He]. discriminate.
    + intros [Hm|(t & Ht & [Hm|(p & Hp & [Hm|(u & Hu' & [Hm|(v & Hv & Hm)])])])];
        congruence.
    + split; [intros e He; discriminate|].
      split; [intros; congruence | reflexivity].
  - split; [split; [intros _ | intros _; eexists; reflexivity]|].
    { right. exists token. split; [known|]. right.
      exists payload. split; [known|]. right.
      exists uid. split; [known|]. right. exists user. now split. }
    split; [intros e [= <-]; split; reflexivity|].
    split; [intros; congruence | reflexivity].
Qed.


(** C9. Handed the session [get_db] yields, [get_current_user] never
    returns a user.  A request whose bearer token decodes under the
    dependency's secret and algorithm to a payload with the subject
    claim is answered 500, whether or not the user it names is stored
    and active, and no statement reaches the database: the lookup is
    a coroutine that is never awaited.  The 401 with the header
    [WWW-Authenticate: Bearer] is raised exactly for a missing token,
    a token that does not decode, and a payload without the subject
    claim. *)
Theorem get_current_user_lookup_not_awaited (authorization : option string) (d : Database) :
  let r := run_request (get_current_user get_db authorization) d in
  (forall user, outcome r <> Returned user)
  /\ (forall token payload uid,
        bearer_token authorization = Some token ->
        jwt_decode token SECRET_KEY [ALGORITHM] = Some payload ->
        claims_get "sub" payload = Some uid ->
        outcome r = Raised (mk_exc 500 "Internal Server Error" []))
  /\ ((exists e, outcome r = Raised e /\ status_code e = 401
                 /\ headers e = [("WWW-Authenticate", "Bearer")]) <->
      bearer_token authorization = None
      \/ exists token, bearer_token authorization = Some token /\
           (jwt_decode token SECRET_KEY [ALGORITHM] = None
            \/ exists payload, jwt_decode token SECRET_KEY [ALGORITHM] = Some payload
                               /\ claims_get "sub" payload = None))
  /\ traffic r = []
  /\ database_after r = d.
Proof.
  intros r. subst r. unfold get_current_user, oauth2_scheme, get_db.
  destruct (bearer_token authorization) as [token|] eqn:Hb; run_handler.
  2:{ split; [discriminate|]. split; [intros; congruence|].
      split; [|split; reflexivity].
      split; [intros _; now left|]. intros _. eexists. repeat split. }
  destruct (jwt_decode token SECRET_KEY [ALGORITHM]) as [payload|] eqn:Hd; session_step.
  2:{ split; [discriminate|]. split; [intros; congruence|].
      split; [|split; reflexivity].
      split; [|intros _; eexists; repeat split].
      intros _. right. exists token. split; [known|]. now left. }
  destruct (claims_get "sub" payload) as [uid|] eqn:Hs; session_step.
  2:{ split; [discriminate|]. split; [intros; congruence|].
      split; [|split; reflexivity].
      split; [|intros _; eexists; repeat split].
      intros _. right. exists token. split; [known|]. right.
      exists payload. split; [known|exact Hs]. }
  unfold db_get. run_handler.
  split; [discriminate|]. split; [reflexivity|]. split; [|split; reflexivity].
  split.
  - intros (e & [= <-] & Hstatus & _). cbn in Hstatus. discriminate.
  - intros [Hm|(t & Ht & [Hm|(p & Hp & Hm)])]; congruence.
Qed.

End DependencyProperties.

(** ** Token cleanup *)

Section CleanupProperties.
Import Cleanup.

Lemma or_zero_id (x : Z) : or_zero x = x.
Proof. unfold or_zero. destruct (x =? 0) eqn:E; [apply Z.eqb_eq in E; lia|reflexivity]. Qed.

Lemma filter_split_length {A} (p : A -> bool) (l : list A) :
  (List.length (filter p l) + List.length (filter (fun x => negb (p x)) l))%nat
  = List.length l.
Proof.
  induction l as [|a l IH]; cbn; [reflexivity|].
  destruct (p a); cbn; lia.
Qed.

(** The state one run leaves and the count it returns. *)
Lemma cleanup_run (clock : Z) (d : Database) :
  run_request (cleanup_expired_tokens clock) d
  = (Returned
       (Z.of_nat (List.length (filter (expired clock) (activation_tokens d)))
        + Z.of_nat (List.length (filter (expired clock) (password_reset_tokens d)))
        + Z.of_nat (List.length (filter (expired clock) (refresh_tokens d)))),
     mk_db (users d)
           (filter (fun r => negb (expired clock r)) (activation_tokens d))
           (filter (fun r => negb (expired clock r)) (password_reset_tokens d))
           (filter (fun r => negb (expired clock r)) (refresh_tokens d))
           (movies d) (stars d) (directors d) (movie_stars d) (movie_directors d)
           (user_favorites d),
     [CallExecute; CallExecute; CallExecute; CallCommit]).
Proof.
  unfold cleanup_expired_tokens, cleanup_loop, delete_expired. run_handler.
  rewrite !or_zero_id. cbn. reflexivity.
Qed.

(** A run that finds nothing expired returns 0 and changes nothing. *)
Lemma cleanup_nothing_expired (clock : Z) (d : Database) :
  (forall t row, In row (token_rows t d) -> clock < utc_instant (expires_at row)) ->
  outcome (run_request (cleanup_expired_tokens clock) d) = Returned 0
  /\ database_after (run_request (cleanup_expired_tokens clock) d) = d.
Proof.
  intros H. rewrite cleanup_run. unfold outcome, database_after. cbn [fst snd].
  assert (Hf : forall t row, In row (token_rows t d) -> expired clock row = false).
  { intros t row Hin. unfold expired. apply Z.leb_gt. eapply H; eassumption. }
  rewrite !filter_all_false by (try apply (Hf Activation); try apply (Hf PasswordReset);
                                try apply (Hf Refresh)).
  rewrite !filter_all_true.
  - split; [reflexivity|apply database_eta].
  - intros x Hx. apply negb_true_iff. apply (Hf Refresh x Hx).
  - intros x Hx. apply negb_true_iff. apply (Hf PasswordReset x Hx).
  - intros x Hx. apply negb_true_iff. apply (Hf Activation x Hx).
Qed.

(** C6. One run of [cleanup_expired_tokens] keeps, in each of the
    three token tables, exactly the rows whose expiry is later than
    the current UTC instant, in their order, and touches no other
    table; it returns the number of rows it removed over the three
    tables, which is the number of rows whose expiry was at or
    before the instant; a second run right after it, or at any later
    instant at which no remaining row has expired, returns 0. *)
Theorem cleanup_expired_tokens_exact (clock : Z) (d : Database) :
  let r := run_request (cleanup_expired_tokens clock) d in
  let after := database_after r in
  let removed (t : TokenTable) :=
    Z.of_nat (List.length (token_rows t d)) - Z.of_nat (List.length (token_rows t after)) in
  (forall t row, In row (token_rows t after) <->
                 In row (token_rows t d) /\ clock < utc_instant (expires_at row))
  /\ (forall t, token_rows t after
                = filter (fun row => clock <? utc_instant (expires_at row)) (token_rows t d))
  /\ (users after = users d /\ movies after = movies d
      /\ user_favorites after = user_favorites d)
  /\ outcome r = Returned (removed Activation + removed PasswordReset + removed Refresh)
  /\ (forall t, removed t
                = Z.of_nat (List.length
                     (filter (fun row => utc_instant (expires_at row) <=? clock)
                             (token_rows t d))))
  /\ outcome (run_request (cleanup_expired_tokens clock) after) = Returned 0
  /\ (forall clock',
        (forall t row, In row (token_rows t after) ->
                       clock' < utc_instant (expires_at row)) ->
        outcome (run_request (cleanup_expired_tokens clock') after) = Returned 0).
Proof.
  intros r after removed.
  assert (Hkeep : forall t, token_rows t after
            = filter (fun row => negb (expired clock row)) (token_rows t d)).
  { intros t. subst after r. rewrite cleanup_run. now destruct t. }
  assert (Hneg : forall row, negb (expired clock row) = (clock <? utc_instant (expires_at row))).
  { intros row. unfold expired. rewrite Z.ltb_antisym. reflexivity. }
  assert (Hrem : forall t, removed t
            = Z.of_nat (List.length (filter (expired clock) (token_rows t d)))).
  { intros t. subst removed. cbn beta. rewrite Hkeep.
    pose proof (filter_split_length (expired clock) (token_rows t d)). lia. }
  assert (Hin : forall t row, In row (token_rows t after) <->
                 In row (token_rows t d) /\ clock < utc_instant (expires_at row)).
  { intros t row. rewrite Hkeep, filter_In, Hneg, Z.ltb_lt. reflexivity. }
  split; [exact Hin|].
  split; [intros t; rewrite Hkeep; apply filter_ext; exact Hneg|].
  split; [subst after r; rewrite cleanup_run; repeat split; reflexivity|].
  split; [rewrite !Hrem; subst r; rewrite cleanup_run; reflexivity|].
  split; [exact Hrem|].
  split.
  - apply cleanup_nothing_expired. intros t row Hrow. now apply Hin in Hrow.
  - intros clock' H. now apply cleanup_nothing_expired.
Qed.

End CleanupProperties.

(** ** Favorites *)

Section FavoriteProperties.
Import Movies.

Lemma get_movie_row_some (mid : Z) (d : Database) (movie : MovieModel) :
  get_movie_row mid d = Some movie -> In movie (movies d) /\ movie_id movie = mid.
Proof.
  unfold get_movie_row. intros H. apply find_some in H.
  destruct H as [Hin Heq]. apply Z.eqb_eq in Heq. now split.
Qed.

(** For a stored movie, membership in [user.favorites] is the
    presence of the association row. *)
Lemma contains_favorites (user : UserModel) (mid : Z) (d : Database) (movie : MovieModel) :
  get_movie_row mid d = Some movie ->
  contains movie (favorites user d) = existsb (links (user_id user) mid) (user_favorites d).
Proof.
  intros Hget. apply get_movie_row_some in Hget. destruct Hget as [Hin Hid].
  unfold favorites, contains.
  induction (user_favorites d) as [|link l IH]; cbn [flat_map existsb]; [reflexivity|].
  rewrite existsb_app, IH. f_equal. unfold links.
  destruct (fst link =? user_id user); cbn [andb existsb]; [|reflexivity].
  destruct (snd link =? mid) eqn:E.
  - apply Z.eqb_eq in E. apply existsb_exists. exists movie. split.
    + apply filter_In. split; [exact Hin|]. apply Z.eqb_eq. lia.
    + apply Z.eqb_eq. reflexivity.
  - apply Z.eqb_neq in E. apply not_true_is_false. intros H.
    apply existsb_exists in H. destruct H as (m & Hm & Hmid).
    apply filter_In in Hm. destruct Hm as [_ Hm].
    apply Z.eqb_eq in Hm. apply Z.eqb_eq in Hmid. lia.
Qed.

Lemma existsb_false_filter {A} (p : A -> bool) (l : list A) :
  existsb p l = false -> filter p l = [].
Proof.
  intros H. apply filter_all_false. intros x Hx.
  apply not_true_is_false. intros Hp.
  assert (existsb p l = true) by (apply existsb_exists; eauto). congruence.
Qed.

Lemma existsb_true_filter {A} (p : A -> bool) (l : list A) :
  existsb p l = true -> (1 <= List.length (filter p l))%nat.
Proof.
  intros H. apply existsb_exists in H. destruct H as (x & Hx & Hp).
  assert (Hin : In x (filter p l)) by (apply filter_In; now split).
  destruct (filter p l); [destruct Hin|cbn; lia].
Qed.

(** Under the composite primary key a pair occurs at most once. *)
Lemma link_at_most_once (uid mid : Z) (l : list (Z * Z)) :
  NoDup l -> (List.length (filter (links uid mid) l) <= 1)%nat.
Proof.
  intros Hnd.
  assert (Hall : forall x, In x (filter (links uid mid) l) -> x = (uid, mid)).
  { intros [a b] Hx. apply filter_In in Hx. destruct Hx as [_ Hx].
    unfold links in Hx. cbn in Hx. apply andb_true_iff in Hx.
    destruct Hx as [Ha Hb]. apply Z.eqb_eq in Ha, Hb. now subst. }
  pose proof (NoDup_filter (links uid mid) Hnd) as Hnf.
  destruct (filter (links uid mid) l) as [|x [|y r]]; cbn; try lia.
  exfalso. inversion Hnf as [|? ? Hnot _]; subst. apply Hnot.
  rewrite (Hall x), <- (Hall y); cbn; auto.
Qed.

Variables (d : Database) (user : UserModel) (mid : Z) (movie : MovieModel).
Hypothesis movie_exists : get_movie_row mid d = Some movie.
Hypothesis favorites_key : NoDup (user_favorites d).

(** C8. For a stored movie and a user, two successive calls of the
    add-favorite handler both return its success message, the second
    changes nothing, and afterwards exactly one association row links
    the user to the movie; the remove-favorite handler on a movie the
    user has not favorited returns its success message, commits
    nothing and leaves every table as it was. *)
Theorem favorites_idempotent :
  let r1 := run_request (add_to_favorites mid user) d in
  let r2 := run_request (add_to_favorites mid user) (database_after r1) in
  outcome r1 = Returned (mk_message "Added to favorites")
  /\ outcome r2 = Returned (mk_message "Added to favorites")
  /\ database_after r2 = database_after r1
  /\ List.length (filter (links (user_id user) mid)
                         (user_favorites (database_after r2))) = 1%nat
  /\ (existsb (links (user_id user) mid) (user_favorites d) = false ->
      let r := run_request (remove_from_favorites mid user) d in
      outcome r = Returned (mk_message "Removed from favorites")
      /\ database_after r = d
      /\ ~ In CallCommit (traffic r)).
Proof.
  intros r1 r2.
  pose proof (get_movie_row_some _ _ _ movie_exists) as [_ Hid].
  assert (Hr1 : outcome r1 = Returned (mk_message "Added to favorites")
                /\ get_movie_row mid (database_after r1) = Some movie
                /\ existsb (links (user_id user) mid)
                           (user_favorites (database_after r1)) = true
                /\ List.length (filter (links (user_id user) mid)
                                  (user_favorites (database_after r1))) = 1%nat).
  { subst r1 r2. unfold add_to_favorites. run_handler.
    rewrite movie_exists. session_step.
    rewrite (contains_favorites user mid d movie movie_exists).
    destruct (existsb (links (user_id user) mid) (user_favorites d)) eqn:E;
      cbn [negb]; session_step.
    - repeat split; try assumption.
      pose proof (existsb_true_filter _ _ E).
      pose proof (link_at_most_once (user_id user) mid _ favorites_key). lia.
    - repeat split; try assumption.
      + cbn [user_favorites with_user_favorites]. rewrite existsb_app. cbn.
        unfold links. cbn. rewrite Hid, !Z.eqb_refl. cbn. apply orb_true_r.
      + cbn [user_favorites with_user_favorites]. rewrite filter_app.
        rewrite (existsb_false_filter _ _ E). cbn.
        unfold links. cbn. rewrite Hid, !Z.eqb_refl. reflexivity. }
  destruct Hr1 as (Hout1 & Hget1 & Hex1 & Hlen1).
  assert (Hr2 : outcome r2 = Returned (mk_message "Added to favorites")
                /\ database_after r2 = database_after r1).
  { subst r2. generalize dependent (database_after r1). intros d1 Hget1 Hex1 Hlen1.
    unfold add_to_favorites. run_handler. rewrite Hget1. session_step.
    rewrite (contains_favorites user mid d1 movie Hget1), Hex1. cbn [negb].
    session_step. split; reflexivity. }
  destruct Hr2 as (Hout2 & Hdb2).
  split; [exact Hout1|]. split; [exact Hout2|]. split; [exact Hdb2|].
  split; [rewrite Hdb2; exact Hlen1|].
  intros Hnone r. subst r. unfold remove_from_favorites. run_handler.
  rewrite movie_exists. session_step.
  rewrite (contains_favorites user mid d movie movie_exists), Hnone.
  session_step. repeat split. cbn. intros [H|[H|[]]]; discriminate.
Qed.

End FavoriteProperties.

(** ** Listing movies *)

Section ListingProperties.
Import Movies.
Context {text : TextSearch}.

(** C3. For every database and every value of the other parameters,
    the list endpoint answers a request with [year = 0] exactly as it
    answers the request without [year]; the same holds for
    [min_imdb = 0] and for [max_price = 0], whatever fraction writes
    the zero.  The three requests also pass the parameter bounds
    exactly when their counterparts without the filter do. *)
Theorem get_movies_zero_filter_is_absent
    (d : Database) (page size : Z) (year : option Z) (min_imdb max_price : option Q)
    (search : option string) (sort_by : SortBy) (n : positive) :
  run_request (get_movies page size (Some 0) min_imdb max_price search sort_by) d
  = run_request (get_movies page size None min_imdb max_price search sort_by) d
  /\ run_request (get_movies page size year (Some (0 # n)) max_price search sort_by) d
     = run_request (get_movies page size year None max_price search sort_by) d
  /\ run_request (get_movies page size year min_imdb (Some (0 # n)) search sort_by) d
     = run_request (get_movies page size year min_imdb None search sort_by) d
  /\ query_accepted page size (Some (0 # n)) = query_accepted page size None.
Proof.
  assert (Hz : Qeq_bool (0 # n) 0 = true) by reflexivity.
  unfold get_movies, apply_filters. rewrite Hz. cbn [Z.eqb].
  repeat split.
Qed.

(** *** Ordering *)

Lemma insert_desc_perm (key : MovieModel -> Q) (x : MovieModel) (l : list MovieModel) :
  Permutation (x :: l) (insert_desc key x l).
Proof.
  induction l as [|y l IH]; cbn; [apply Permutation_refl|].
  destruct (Qle_bool (key y) (key x)); [apply Permutation_refl|].
  eapply perm_trans; [apply perm_swap|]. now apply perm_skip.
Qed.

Lemma sort_desc_perm (key : MovieModel -> Q) (l : list MovieModel) :
  Permutation l (sort_desc key l).
Proof.
  induction l as [|x l IH]; cbn; [apply perm_nil|].
  eapply perm_trans; [apply perm_skip, IH|]. apply insert_desc_perm.
Qed.

Lemma insert_desc_sorted (key : MovieModel -> Q) (x : MovieModel) (l : list MovieModel) :
  StronglySorted (fun a b => (key b <= key a)%Q) l ->
  StronglySorted (fun a b => (key b <= key a)%Q) (insert_desc key x l).
Proof.
  induction l as [|y l IH]; intros Hs; cbn.
  - constructor; constructor.
  - inversion Hs as [|? ? Hl Hy]; subst.
    destruct (Qle_bool (key y) (key x)) eqn:E.
    + apply Qle_bool_iff in E. constructor; [exact Hs|].
      constructor; [exact E|].
      eapply Forall_impl; [|exact Hy]. intros z Hz. cbn in Hz.
      eapply Qle_trans; eassumption.
    + assert (Hlt : (key x <= key y)%Q).
      { destruct (Qlt_le_dec (key x) (key y)) as [Hlt|Hge]; [now apply Qlt_le_weak|].
        apply Qle_bool_iff in Hge. congruence. }
      constructor; [now apply IH|].
      apply Forall_forall. intros z Hz.
      apply (Permutation_in _ (Permutation_sym (insert_desc_perm key x l))) in Hz.
      destruct Hz as [<-|Hz]; [exact Hlt|].
      rewrite Forall_forall in Hy. now apply Hy.
Qed.

Lemma sort_desc_sorted (key : MovieModel -> Q) (l : list MovieModel) :
  StronglySorted (fun a b => (key b <= key a)%Q) (sort_desc key l).
Proof.
  induction l as [|x l IH]; cbn; [constructor|]. now apply insert_desc_sorted.
Qed.

(** *** Page arithmetic *)

Lemma page_count_zero (size : Z) : page_count 0 size = 1.
Proof. reflexivity. Qed.

Lemma page_count_bounds (total size : Z) :
  0 < total -> 1 <= size ->
  (page_count total size - 1) * size < total <= page_count total size * size.
Proof.
  intros Ht Hs. unfold page_count.
  destruct (total =? 0) eqn:E; [apply Z.eqb_eq in E; lia|].
  destruct size as [|p|p]; try lia.
  unfold Qceiling, Qfloor, Qdiv, Qmult, Qinv, inject_Z, Qopp. cbn.
  rewrite Z.mul_1_r.
  pose proof (Z.div_mod (- total) (Z.pos p) ltac:(lia)) as Hdm.
  pose proof (Z.mod_pos_bound (- total) (Z.pos p) ltac:(lia)) as Hb.
  nia.
Qed.

(** *** The statement the handler runs *)

Lemma apply_filters_unpaginated (year : option Z) (min_imdb max_price : option Q)
    (search : option string) (s : Select) :
  stmt_offset (apply_filters year min_imdb max_price search s) = stmt_offset s
  /\ stmt_limit (apply_filters year min_imdb max_price search s) = stmt_limit s
  /\ ordering (apply_filters year min_imdb max_price search s) = ordering s.
Proof.
  unfold apply_filters.
  destruct year as [y|]; [destruct (y =? 0)|];
    (destruct min_imdb as [v|]; [destruct (Qeq_bool v 0)|]);
    (destruct max_price as [w|]; [destruct (Qeq_bool w 0)|]);
    (destruct search as [t|]; [destruct (String.eqb t "")|]);
    repeat split.
Qed.

Lemma run_select_page (s : Select) (d : Database) (off lim : Z) :
  stmt_offset s = None -> stmt_limit s = None ->
  run_select (limit lim (offset off s)) d
  = firstn (Z.to_nat lim) (skipn (Z.to_nat off) (run_select s d)).
Proof.
  intros Ho Hl. unfold run_select, matching. cbn. rewrite Ho, Hl. reflexivity.
Qed.

Lemma run_select_ordered (s : Select) (d : Database) (c : SortBy) :
  stmt_offset s = None -> stmt_limit s = None -> ordering s = None ->
  run_select (order_by_desc c s) d = sort_desc (sort_column c) (run_select s d).
Proof.
  intros Ho Hl Hn. unfold run_select, matching. cbn. rewrite Ho, Hl, Hn. reflexivity.
Qed.

(** C5. For every list request within the parameter bounds the
    handler returns an envelope in which: [total] is the number of
    rows of the filtered query before pagination (ordering does not
    change it); [pages] is 1 when [total] is 0 and otherwise the
    least integer with [total <= pages * size]; [items] are the rows
    of the filtered query, ordered by the sort column descending,
    from position [(page - 1) * size] on, [size] of them at most. *)
Theorem get_movies_pagination
    (d : Database) (page size : Z) (year : option Z) (min_imdb max_price : option Q)
    (search : option string) (sort_by : SortBy) :
  query_accepted page size min_imdb = true ->
  let filtered := apply_filters year min_imdb max_price search select_movies in
  let sorted := run_select (order_by_desc sort_by filtered) d in
  exists envelope,
    outcome (run_request (get_movies page size year min_imdb max_price search sort_by) d)
    = Returned envelope
    /\ total envelope = Z.of_nat (List.length (run_select filtered d))
    /\ Permutation (run_select filtered d) sorted
    /\ StronglySorted
         (fun a b => (sort_column sort_by b <= sort_column sort_by a)%Q) sorted
    /\ (total envelope = 0 -> pages envelope = 1)
    /\ (0 < total envelope ->
        (pages envelope - 1) * size < total envelope <= pages envelope * size)
    /\ items envelope
       = map model_validate
             (firstn (Z.to_nat size) (skipn (Z.to_nat ((page - 1) * size)) sorted))
    /\ (Z.of_nat (List.length (items envelope)) <= size)
    /\ Movies.page envelope = page.
Proof.
  intros Hq filtered sorted.
  unfold query_accepted in Hq. rewrite !andb_true_iff in Hq.
  destruct Hq as [[[Hp Hs1] Hs2] _]. apply Z.leb_le in Hp, Hs1, Hs2.
  destruct (apply_filters_unpaginated year min_imdb max_price search select_movies)
    as (Ho & Hl & Hn). cbn in Ho, Hl, Hn. fold filtered in Ho, Hl, Hn.
  assert (Hsorted : sorted = sort_desc (sort_column sort_by) (run_select filtered d)).
  { subst sorted. now apply run_select_ordered. }
  assert (Hlen : List.length sorted = List.length (run_select filtered d)).
  { rewrite Hsorted. symmetry. apply Permutation_length, sort_desc_perm. }
  eexists. unfold get_movies, paginate. run_handler. fold filtered.
  split; [reflexivity|]. cbn [total pages items Movies.page].
  rewrite run_select_page by (cbn; assumption). fold sorted.
  unfold count_rows. fold sorted. rewrite Hlen.
  split; [reflexivity|].
  split; [rewrite Hsorted; apply sort_desc_perm|].
  split; [rewrite Hsorted; apply sort_desc_sorted|].
  split; [intros ->; reflexivity|].
  split; [intros Hpos; apply page_count_bounds; lia|].
  split; [reflexivity|].
  split; [|reflexivity].
  rewrite length_map. pose proof (firstn_le_length (Z.to_nat size)
    (skipn (Z.to_nat ((page - 1) * size)) sorted)). lia.
Qed.

End ListingProperties.

(* ================================================================== *)
(** * Worked requests

    The handlers run on the sample database, and each conditional
    property above applied to one of these runs. *)

Section WorkedRequests.
Import Samples Accounts Movies.
Local Open Scope string_scope.
Local Open Scope Z_scope.

#[local] Existing Instance ascii_text.
#[local] Existing Instance table_manager.
#[local] Existing Instance table_jose.

(** Three movies of the years 2000, 2010 and 2020: [year=2010] selects
    the one; [sort_by=price] lists by price descending; [page=2,
    size=1] gives the second row and three pages. *)
Example list_by_year :
  outcome (run_request (get_movies 1 10 (Some 2010) None None None ByYear) cinema)
  = Returned (mk_list_response [model_validate brazil] 1 1 1).
Proof. reflexivity. Qed.

Example list_by_price :
  outcome (run_request (get_movies 1 10 None None None None ByPrice) cinema)
  = Returned (mk_list_response (map model_validate [brazil; alien; casino]) 3 1 1).
Proof. reflexivity. Qed.

Example list_second_page :
  outcome (run_request (get_movies 2 1 None None None None ByYear) cinema)
  = Returned (mk_list_response [model_validate brazil] 3 2 3).
Proof. reflexivity. Qed.

(** A search matches star and director names without regard to case
    and lists a movie once. *)
Example list_search :
  outcome (run_request (get_movies 1 10 None None None (Some "De NIRO") ByYear) cinema)
  = Returned (mk_list_response (map model_validate [casino; brazil]) 2 1 1).
Proof. reflexivity. Qed.

(** The favorites of a user are listed through the association
    table. *)
Example list_favorites :
  outcome (run_request (get_favorite_movies 1 10 None None None None ByYear ann) cinema)
  = Returned (mk_list_response [model_validate brazil] 1 1 1).
Proof. reflexivity. Qed.

(** An unexpired matching token activates the account and is
    consumed. *)
Example activate_in_time :
  let r := run_request
             (activate_user (mk_activate_request "bob@example.com" "activate-bob")
                            (99 * second)) cinema in
  outcome r = Returned (mk_message "User account activated successfully.")
  /\ activation_tokens (database_after r) = []
  /\ map user_is_active (users (database_after r)) = [true; true].
Proof. repeat split. Qed.

(** A login stores a refresh token valid for seven days. *)
Example login_stores_refresh_token :
  let r := run_request
             (login_user verify_password
                         (mk_login_request "ann@example.com" "secret-A1") get_settings 0)
             cinema in
  outcome r = Returned (mk_login_response "access-1" "refresh-1" "bearer")
  /\ refresh_tokens (database_after r)
     = [ann_refresh; ann_refresh_old;
        mk_token 5 1 "refresh-1" (mk_datetime (7 * 86400 * second) (Some 0))].
Proof. repeat split. Qed.

(** Bob redeems his token at the very second it expires: the token is
    purged and the generic error raised. *)
Lemma activate_user_expired_token_witness :
  let payload := mk_activate_request "bob@example.com" "activate-bob" in
  let r := run_request (activate_user payload (100 * second)) cinema in
  utc_instant (expires_at bob_activation) <= 100 * second
  /\ outcome r = Raised (mk_exc 400 "Invalid or expired activation token." [])
  /\ ~ In bob_activation (activation_tokens (database_after r)).
Proof.
  intros payload r.
  assert (Hexp : utc_instant (expires_at bob_activation) <= 100 * second)
    by (apply Z.leb_le; reflexivity).
  split; [exact Hexp|].
  destruct (activate_user_expired_token payload (100 * second) cinema bob bob_activation
              eq_refl eq_refl eq_refl eq_refl Hexp) as (Hout & Hgone & _).
  split; [exact Hout | exact Hgone].
Defined.

(** Bob sends a token string that is not his: nothing is stored. *)
Lemma activate_user_token_mismatch_witness :
  let payload := mk_activate_request "bob@example.com" "activate-ann" in
  let r := run_request (activate_user payload (99 * second)) cinema in
  token bob_activation <> activate_token payload
  /\ database_after r = cinema.
Proof.
  intros payload r.
  assert (Hneq : token bob_activation <> activate_token payload)
    by (apply String.eqb_neq; reflexivity).
  split; [exact Hneq|].
  exact (proj1 (proj2 (activate_user_token_mismatch payload (99 * second) cinema
                         bob bob_activation eq_refl eq_refl eq_refl Hneq))).
Defined.

(** An unknown address, Ann with a wrong password, and inactive Bob
    with the right one. *)
Lemma login_user_rejections_witness :
  let run payload := run_request (login_user verify_password payload get_settings 0) cinema in
  outcome (run (mk_login_request "zed@example.com" "secret-A1"))
  = Raised (mk_exc 401 "Invalid email or password." [])
  /\ outcome (run (mk_login_request "ann@example.com" "secret-B2"))
     = Raised (mk_exc 401 "Invalid email or password." [])
  /\ exists e, outcome (run (mk_login_request "bob@example.com" "secret-B2")) = Raised e
               /\ status_code e = 403.
Proof.
  intros run. split; [|split].
  - refine (proj1 (proj1 (@login_user_rejections table_manager verify_password
             (mk_login_request "zed@example.com" "secret-A1") get_settings 0 cinema) _)).
    intros u [<-|[<-|[]]]; apply String.eqb_neq; reflexivity.
  - exact (proj1 (proj1 (proj2 (@login_user_rejections table_manager verify_password
             (mk_login_request "ann@example.com" "secret-B2") get_settings 0 cinema))
             ann eq_refl eq_refl)).
  - exact (proj1 (proj2 (proj2 (@login_user_rejections table_manager verify_password
             (mk_login_request "bob@example.com" "secret-B2") get_settings 0 cinema))
             bob eq_refl eq_refl eq_refl)).
Defined.

(** Logout with a string that is no token, with Ann's stored token,
    and with a well-formed token that is not stored. *)
Lemma logout_user_always_succeeds_witness :
  let run t := run_request (logout_user (mk_logout_request t)) cinema in
  (database_after (run "garbage") = cinema /\ traffic (run "garbage") = [])
  /\ refresh_tokens (database_after (run "refresh-ann")) = [ann_refresh_old]
  /\ database_after (run "refresh-bob") = cinema.
Proof.
  intros run. split; [|split].
  - refine (proj1 (proj2 (@logout_user_always_succeeds table_manager
             (mk_logout_request "garbage") cinema)) _).
    discriminate.
  - pose proof (proj1 (proj2 (proj2 (@logout_user_always_succeeds table_manager
             (mk_logout_request "refresh-ann") cinema)) eq_refl)) as H.
    unfold run. rewrite H. reflexivity.
  - refine (proj2 (proj2 (proj2 (proj2 (@logout_user_always_succeeds table_manager
             (mk_logout_request "refresh-bob") cinema)) eq_refl)) _).
    intros t [<-|[<-|[]]]; apply String.eqb_neq; reflexivity.
Defined.

(** Ann refreshes one second before her stored token expires. *)
Lemma refresh_access_token_returns_no_body_witness :
  let r := run_request (refresh_access_token (mk_refresh_request "refresh-ann")
                                             (499 * second)) cinema in
  499 * second < utc_instant (expires_at ann_refresh)
  /\ outcome r = Returned None.
Proof.
  intros r.
  assert (Hexp : 499 * second < utc_instant (expires_at ann_refresh))
    by (apply Z.ltb_lt; reflexivity).
  split; [exact Hexp|].
  exact (proj1 (@refresh_access_token_returns_no_body table_manager
                  (mk_refresh_request "refresh-ann") (499 * second) cinema
                  [("user_id", 1)] ann_refresh ann eq_refl eq_refl eq_refl eq_refl Hexp)).
Defined.

(** A token of Ann, stored and active: the dependency answers 500. *)
Lemma get_current_user_lookup_not_awaited_witness :
  bearer_token (Some "Bearer token-ann") = Some "token-ann"
  /\ get_user 1 cinema = Some ann
  /\ user_is_active ann = true
  /\ outcome (run_request (get_current_user get_db (Some "Bearer token-ann")) cinema)
     = Raised (mk_exc 500 "Internal Server Error" []).
Proof.
  split; [reflexivity|]. split; [reflexivity|]. split; [reflexivity|].
  exact (proj1 (proj2 (@get_current_user_lookup_not_awaited table_jose
           (Some "Bearer token-ann") cinema))
           "token-ann" [("sub", 1)] 1 eq_refl eq_refl eq_refl).
Defined.

(** On a synchronous session the same token gives Ann, and a token of
    inactive Bob the 401. *)
Example get_current_user_on_sync_session_runs :
  outcome (run_request (get_current_user SyncSession (Some "Bearer token-ann")) cinema)
  = Returned ann
  /\ outcome (run_request (get_current_user SyncSession (Some "Bearer token-bob")) cinema)
     = Raised credentials_exception.
Proof. split; reflexivity. Qed.

(** A run at second 100 removes three rows; a run 300 seconds later
    finds nothing to remove. *)
Lemma cleanup_expired_tokens_exact_witness :
  let r := run_request (Cleanup.cleanup_expired_tokens (100 * second)) cinema in
  outcome r = Returned 3
  /\ refresh_tokens (database_after r) = [ann_refresh]
  /\ outcome (run_request (Cleanup.cleanup_expired_tokens (400 * second)) (database_after r))
     = Returned 0.
Proof.
  intros r.
  destruct (cleanup_expired_tokens_exact (100 * second) cinema)
    as (_ & Hkeep & _ & Hout & _ & _ & Hlater).
  split; [exact Hout|]. split; [exact (Hkeep Refresh)|].
  apply Hlater. intros t row Hrow. rewrite Hkeep in Hrow.
  destruct t; cbn in Hrow; try contradiction.
  destruct Hrow as [<-|[]]. apply Z.ltb_lt. reflexivity.
Defined.

(** Ann favorites a movie twice, and un-favorites one she never
    favorited. *)
Lemma favorites_idempotent_witness :
  let r1 := run_request (add_to_favorites 1 ann) cinema in
  let r2 := run_request (add_to_favorites 1 ann) (database_after r1) in
  NoDup (user_favorites cinema)
  /\ user_favorites (database_after r2) = [(1, 2); (1, 1)]
  /\ List.length (filter (links 1 1) (user_favorites (database_after r2))) = 1%nat
  /\ database_after (run_request (remove_from_favorites 1 ann) cinema) = cinema.
Proof.
  intros r1 r2.
  assert (Hkey : NoDup (user_favorites cinema)).
  { constructor; [intros []|constructor]. }
  destruct (favorites_idempotent cinema ann 1 alien eq_refl Hkey)
    as (_ & _ & _ & Hone & Hremove).
  split; [exact Hkey|]. split; [reflexivity|]. split; [exact Hone|].
  exact (proj1 (proj2 (Hremove eq_refl))).
Defined.

(** The second page of size one over the three movies. *)
Lemma get_movies_pagination_witness :
  exists envelope,
    outcome (run_request (get_movies 2 1 None None None None ByYear) cinema)
    = Returned envelope
    /\ total envelope = 3 /\ pages envelope = 3
    /\ items envelope = [model_validate brazil].
Proof.
  destruct (@get_movies_pagination ascii_text cinema 2 1 None None None None ByYear eq_refl)
    as (envelope & Hout & Htotal & _ & _ & _ & Hpages & Hitems & _).
  exists envelope. split; [exact Hout|].
  assert (Ht : total envelope = 3) by exact Htotal.
  split; [exact Ht|]. split; [|exact Hitems].
  rewrite Ht in Hpages. specialize (Hpages eq_refl). lia.
Defined.

End WorkedRequests.

(* ================================================================== *)
(** * Further properties of the account handlers *)

(** A key the autoincrement hands out is not in use. *)
Lemma next_id_above (ids : list Z) (i : Z) : In i ids -> i < next_id ids.
Proof.
  unfold next_id. induction ids as [|a ids IH]; cbn [fold_right In]; [intros []|].
  intros [<-|Hi]; [lia|]. specialize (IH Hi). lia.
Qed.

Lemma next_id_fresh (ids : list Z) : ~ In (next_id ids) ids.
Proof. intros H. apply next_id_above in H. lia. Qed.

(** Rewriting one user's row, found first under its email, leaves it
    first under that email. *)
Lemma first_by_email_after_update (f : UserModel -> UserModel) (email : string)
    (rows : list UserModel) (u : UserModel) :
  (forall v, user_email (f v) = user_email v) ->
  first (filter (fun v => String.eqb (user_email v) email) rows) = Some u ->
  first (filter (fun v => String.eqb (user_email v) email)
                (map (fun v => if user_id v =? user_id u then f v else v) rows))
  = Some (f u).
Proof.
  intros Hf. induction rows as [|v rows IH]; cbn [filter map]; [discriminate|].
  destruct (String.eqb (user_email v) email) eqn:E.
  - cbn [first hd_error]. intros [= ->]. rewrite Z.eqb_refl, Hf, E. reflexivity.
  - intros H. destruct (user_id v =? user_id u).
    + rewrite Hf, E. now apply IH.
    + rewrite E. now apply IH.
Qed.

Section ActivationFlow.
Import Accounts.

Variables (payload : ActivateUserRequestSchema) (clock : Z) (d : Database).
Variables (user : UserModel) (token_record : ActivationTokenModel).

Hypothesis user_found : first (users_by_email (activate_email payload) d) = Some user.
Hypothesis user_inactive : user_is_active user = false.
Hypothesis token_found :
  first (tokens_by_user Activation (user_id user) d) = Some token_record.
Hypothesis token_matches : token token_record = activate_token payload.
Hypothesis in_time : clock < utc_instant (expires_at token_record).

(** X1. Activation with the stored token before its expiry returns the
    success message, leaves the user found under the email active with
    every other field as before, and deletes the token; a second
    request with the same payload, at any time, is refused with 400
    "User account is already active." and changes nothing. *)
Theorem activate_user_then_replay :
  let r1 := run_request (activate_user payload clock) d in
  let activated :=
    mk_user (user_id user) (user_email user) (user_hashed_password user) true
            (user_group_id user) in
  outcome r1 = Returned (mk_message "User account activated successfully.")
  /\ first (users_by_email (activate_email payload) (database_after r1)) = Some activated
  /\ activation_tokens (database_after r1)
     = filter (fun t => negb (token_id t =? token_id token_record)) (activation_tokens d)
  /\ forall clock',
       let r2 := run_request (activate_user payload clock') (database_after r1) in
       outcome r2 = Raised (mk_exc 400 "User account is already active." [])
       /\ database_after r2 = database_after r1.
Proof.
  intros r1 activated.
  assert (Hrun : r1 = (Returned (mk_message "User account activated successfully."),
                       with_activation_tokens
                         (filter (fun t => negb (token_id t =? token_id token_record)))
                         (set_active user d),
                       [CallExecute; CallExecute; CallExecute; CallCommit])).
  { subst r1. unfold activate_user. run_handler.
    rewrite user_found, user_inactive. session_step. rewrite token_found.
    rewrite token_matches, String.eqb_refl. cbn [negb].
    rewrite le_normalize_now.
    replace (utc_instant (expires_at token_record) <=? clock) with false
      by (symmetry; apply Z.leb_gt; exact in_time).
    unfold delete_where. run_handler. reflexivity. }
  assert (Hfirst : first (users_by_email (activate_email payload) (database_after r1))
                   = Some activated).
  { rewrite Hrun. unfold database_after, users_by_email. cbn.
    apply (first_by_email_after_update
             (fun v => mk_user (user_id v) (user_email v) (user_hashed_password v) true
                               (user_group_id v))); [reflexivity|exact user_found]. }
  split; [rewrite Hrun; reflexivity|]. split; [exact Hfirst|].
  split; [rewrite Hrun; reflexivity|].
  intros clock' r2. subst r2. unfold activate_user. run_handler.
  fold (database_after r1). rewrite Hfirst. cbn. split; reflexivity.
Qed.

End ActivationFlow.

Section ActivationFailures.
Import Accounts.

(** X2. Whatever the request and the database, [activate_user] either
    returns its success message or raises with status 400, never
    another status; and when it raises, the users table is as before,
    so no account is activated by a refused request. *)
Theorem activate_user_raises_only_400
    (payload : ActivateUserRequestSchema) (clock : Z) (d : Database) :
  let r := run_request (activate_user payload clock) d in
  (outcome r = Returned (mk_message "User account activated successfully.")
   \/ exists e, outcome r = Raised e /\ status_code e = 400)
  /\ (forall e, outcome r = Raised e -> users (database_after r) = users d).
Proof.
  intros r. subst r. unfold activate_user. run_handler.
  destruct (first (users_by_email (activate_email payload) d)) as [user|];
    [|split; [right; eexists; split; reflexivity | reflexivity]].
  destruct (user_is_active user);
    [split; [right; eexists; split; reflexivity | reflexivity]|].
  session_step.
  destruct (first (tokens_by_user Activation (user_id user) d)) as [token_record|];
    [|split; [right; eexists; split; reflexivity | reflexivity]].
  destruct (negb (String.eqb (token token_record) (activate_token payload)));
    [split; [right; eexists; split; reflexivity | reflexivity]|].
  rewrite le_normalize_now.
  destruct (utc_instant (expires_at token_record) <=? clock);
    unfold delete_where; run_handler.
  - split; [right; eexists; split; reflexivity | reflexivity].
  - split; [left; reflexivity | discriminate].
Qed.

End ActivationFailures.

Section SessionFlows.
Import Accounts.
Context {jwt_manager : JWTAuthManagerInterface}.
Variable verify_password : UserModel -> string -> bool.
Local Open Scope string_scope.
Local Open Scope Z_scope.

(** X3. A refresh request whose token decodes, is stored, and belongs
    to an active user, but whose stored expiry (read in UTC when
    naive) is at or before now: the handler deletes the stored row by
    its key, commits, and raises 401 "Refresh token expired.". *)
Theorem refresh_access_token_expired
    (payload : RefreshTokenRequestSchema) (clock : Z) (d : Database)
    (token_data : Claims) (rt_record : RefreshTokenModel) (user : UserModel) :
  decode_refresh_token (refresh_token payload) = inr token_data ->
  first (tokens_by_value Refresh (refresh_token payload) d) = Some rt_record ->
  first (users_by_id (claims_get "user_id" token_data) d) = Some user ->
  user_is_active user = true ->
  utc_instant (expires_at rt_record) <= clock ->
  let r := run_request (refresh_access_token payload clock) d in
  outcome r = Raised (mk_exc 401 "Refresh token expired." [])
  /\ refresh_tokens (database_after r)
     = filter (fun t => negb (token_id t =? token_id rt_record)) (refresh_tokens d)
  /\ ~ In rt_record (refresh_tokens (database_after r))
  /\ users (database_after r) = users d
  /\ In CallCommit (traffic r).
Proof.
  intros Hdec Hrt Huser Hact Hexp r. subst r. unfold refresh_access_token.
  rewrite Hdec. run_handler. rewrite Hrt. session_step. rewrite Huser, Hact.
  cbn [negb]. rewrite le_normalize_now.
  replace (utc_instant (expires_at rt_record) <=? clock) with true
    by (symmetry; apply Z.leb_le; exact Hexp).
  unfold delete_where. run_handler. cbn.
  split; [reflexivity|]. split; [reflexivity|]. split; [|split; [reflexivity|auto]].
  intros Hin. apply filter_In in Hin. destruct Hin as [_ Hin].
  rewrite Z.eqb_refl in Hin. discriminate.
Qed.

(** X4. Whatever the request and the database, [refresh_access_token]
    either returns [None] or raises with status 400 or 401; the status
    is 400 exactly when the token fails to decode; the users table is
    never changed and no refresh token is ever added. *)
Theorem refresh_access_token_statuses
    (payload : RefreshTokenRequestSchema) (clock : Z) (d : Database) :
  let r := run_request (refresh_access_token payload clock) d in
  (outcome r = Returned None
   \/ exists e, outcome r = Raised e /\ (status_code e = 400 \/ status_code e = 401))
  /\ (forall e, outcome r = Raised e ->
        (status_code e = 400 <->
         exists err, decode_refresh_token (refresh_token payload) = inl err))
  /\ users (database_after r) = users d
  /\ (forall t, In t (refresh_tokens (database_after r)) -> In t (refresh_tokens d)).
Proof.
  intros r. subst r. unfold refresh_access_token.
  destruct (decode_refresh_token (refresh_token payload)) as [err|token_data] eqn:Hdec;
    run_handler.
  { split; [right; eexists; split; [reflexivity|now left]|].
    split; [|split; [reflexivity|auto]].
    intros e [= <-]. cbn. split; [intros _; now exists err | reflexivity]. }
  assert (Hno : forall e : HTTPException, status_code e = 401 ->
            (status_code e = 400 <->
             exists err, @inr BaseSecurityError Claims token_data = inl err)).
  { intros e He. split; [lia | intros [err Herr]; discriminate]. }
  destruct (first (tokens_by_value Refresh (refresh_token payload) d)) as [rt_record|].
  2:{ split; [right; eexists; split; [reflexivity|now right]|].
      split; [intros e [= <-]; now apply Hno | split; [reflexivity|auto]]. }
  session_step.
  destruct (first (users_by_id (claims_get "user_id" token_data) d)) as [user|].
  2:{ split; [right; eexists; split; [reflexivity|now right]|].
      split; [intros e [= <-]; now apply Hno | split; [reflexivity|auto]]. }
  destruct (user_is_active user); cbn [negb].
  2:{ split; [right; eexists; split; [reflexivity|now right]|].
      split; [intros e [= <-]; now apply Hno | split; [reflexivity|auto]]. }
  rewrite le_normalize_now.
  destruct (utc_instant (expires_at rt_record) <=? clock);
    unfold delete_where; run_handler.
  - split; [right; eexists; split; [reflexivity|now right]|].
    split; [intros e [= <-]; now apply Hno|]. split; [reflexivity|].
    cbn. intros t Ht. apply filter_In in Ht. apply Ht.
  - split; [now left|]. split; [discriminate | split; [reflexivity|auto]].
Qed.

(** X5. A login with the password of an active user returns the two
    tokens the manager issues for the user's id with token type
    "bearer", and appends one refresh-token row: it holds the returned
    refresh token and the user's id, carries a key no stored row has,
    and expires [LOGIN_TIME_DAYS] days after now.  The stored rows and
    the users stay as they are. *)
Theorem login_user_success
    (payload : LoginRequestSchema) (settings : BaseAppSettings) (clock : Z)
    (d : Database) (user : UserModel) :
  first (users_by_email (login_email payload) d) = Some user ->
  verify_password user (login_password payload) = true ->
  user_is_active user = true ->
  let r := run_request (login_user verify_password payload settings clock) d in
  exists row,
    outcome r = Returned (mk_login_response
                            (create_access_token [("user_id", user_id user)])
                            (token row) "bearer")
    /\ token row = create_refresh_token [("user_id", user_id user)]
    /\ refresh_tokens (database_after r) = (refresh_tokens d ++ [row])%list
    /\ token_user_id row = user_id user
    /\ (forall t, In t (refresh_tokens d) -> token_id t <> token_id row)
    /\ utc_instant (expires_at row)
       = clock + LOGIN_TIME_DAYS settings * (86400 * 1000000)
    /\ users (database_after r) = users d.
Proof.
  intros Huser Hpw Hact r. subst r. unfold login_user. run_handler.
  rewrite Huser, Hpw, Hact. cbn [negb]. run_handler.
  exists (RefreshTokenModel_create (user_id user) (LOGIN_TIME_DAYS settings)
            (create_refresh_token [("user_id", user_id user)]) clock d).
  split; [reflexivity|].
  split; [reflexivity|]. split; [reflexivity|]. split; [reflexivity|].
  split; [|split; [|reflexivity]].
  - intros t Ht Heq. unfold RefreshTokenModel_create in Heq. cbn [token_id] in Heq.
    apply (next_id_fresh (map token_id (refresh_tokens d))).
    rewrite <- Heq. now apply in_map.
  - unfold RefreshTokenModel_create. cbn [expires_at].
    unfold add_days, now_utc, utc_instant, microseconds_per_day, utc.
    cbn [wall tzinfo]. lia.
Qed.

(** X6. Login followed by logout with the refresh token the login
    returned restores the database, provided the manager's structural
    check accepts the tokens it issues and no stored row already held
    that token string. *)
Theorem login_then_logout
    (payload : LoginRequestSchema) (settings : BaseAppSettings) (clock : Z)
    (d : Database) (user : UserModel) :
  first (users_by_email (login_email payload) d) = Some user ->
  verify_password user (login_password payload) = true ->
  user_is_active user = true ->
  verify_refresh_token_or_raise (create_refresh_token [("user_id", user_id user)]) = None ->
  (forall t, In t (refresh_tokens d) ->
             token t <> create_refresh_token [("user_id", user_id user)]) ->
  let r1 := run_request (login_user verify_password payload settings clock) d in
  let issued := create_refresh_token [("user_id", user_id user)] in
  let r2 := run_request (logout_user (mk_logout_request issued)) (database_after r1) in
  outcome r2 = Returned (mk_message "Logged out.")
  /\ database_after r2 = d
  /\ database_after r1 <> d.
Proof.
  intros Huser Hpw Hact Hverify Hnew r1 issued r2.
  assert (Hr1 : database_after r1
                = with_refresh_tokens
                    (fun rows => (rows ++ [RefreshTokenModel_create (user_id user)
                                   (LOGIN_TIME_DAYS settings) issued clock d])%list) d).
  { subst r1. unfold login_user. run_handler.
    rewrite Huser, Hpw, Hact. reflexivity. }
  subst r2. rewrite Hr1. subst issued. unfold logout_user. cbn [logout_refresh_token].
  rewrite Hverify. unfold delete_where. run_handler.
  split; [reflexivity|]. split.
  - unfold with_token_rows, with_refresh_tokens. cbn [refresh_tokens users
      activation_tokens password_reset_tokens movies stars directors movie_stars
      movie_directors user_favorites].
    rewrite filter_app. cbn [filter]. unfold RefreshTokenModel_create at 1.
    cbn [token]. rewrite String.eqb_refl. cbn [negb].
    rewrite app_nil_r, filter_all_true; [apply database_eta|].
    intros t Ht. apply negb_true_iff, String.eqb_neq. now apply Hnew.
  - intros Heq. apply (f_equal (fun x => List.length (refresh_tokens x))) in Heq.
    unfold with_refresh_tokens in Heq. cbn [refresh_tokens] in Heq.
    rewrite length_app in Heq. cbn [List.length] in Heq.
    unfold RefreshTokenModel in Heq. lia.
Qed.

(** X7. Whatever the request, the password check and the database,
    [login_user] removes and alters nothing: the refresh tokens
    afterwards are the ones before followed by at most one new row,
    and every other table is as before. *)
Theorem login_user_only_appends
    (payload : LoginRequestSchema) (settings : BaseAppSettings) (clock : Z)
    (d : Database) :
  let r := run_request (login_user verify_password payload settings clock) d in
  exists added,
    (List.length added <= 1)%nat
    /\ database_after r = with_refresh_tokens (fun rows => (rows ++ added)%list) d
    /\ (added <> [] -> exists body, outcome r = Returned body).
Proof.
  intros r. subst r. unfold login_user. run_handler.
  assert (Hsame : with_refresh_tokens (fun rows => (rows ++ [])%list) d = d).
  { unfold with_refresh_tokens. rewrite app_nil_r. apply database_eta. }
  destruct (first (users_by_email (login_email payload) d)) as [user|].
  2:{ exists []. split; [cbn; lia|]. split; [now rewrite Hsame|]. now intros []. }
  destruct (verify_password user (login_password payload)); cbn [negb].
  2:{ exists []. split; [cbn; lia|]. split; [now rewrite Hsame|]. now intros []. }
  destruct (user_is_active user); cbn [negb].
  2:{ exists []. split; [cbn; lia|]. split; [now rewrite Hsame|]. now intros []. }
  run_handler. eexists [_]. split; [cbn; lia|]. split; [reflexivity|].
  intros _. eexists. reflexivity.
Qed.

End SessionFlows.

Lemma filter_comm {A} (p q : A -> bool) (l : list A) :
  filter p (filter q l) = filter q (filter p l).
Proof.
  induction l as [|a l IH]; cbn; [reflexivity|].
  destruct (q a) eqn:Hq, (p a) eqn:Hp; cbn; rewrite ?Hq, ?Hp, IH; reflexivity.
Qed.

Section PasswordReset.
Import Accounts.
Variable hash_password : string -> string.
Local Open Scope string_scope.
Local Open Scope Z_scope.

(** X8. A password reset completed with the user's only stored token
    before its expiry returns the success message, stores the hash of
    the new password for the user found under the email, and consumes
    the token: the user has no reset token left, and the same request
    sent again, at any time, is refused with 400 "Invalid email or
    token." and changes nothing. *)
Theorem reset_password_complete_single_use
    (payload : PasswordResetCompleteRequestSchema) (clock : Z) (d : Database)
    (user : UserModel) (token_record : PasswordResetTokenModel) :
  first (users_by_email (reset_email payload) d) = Some user ->
  user_is_active user = true ->
  tokens_by_user PasswordReset (user_id user) d = [token_record] ->
  token token_record = reset_token payload ->
  clock < utc_instant (expires_at token_record) ->
  let r1 := run_request (reset_password_complete hash_password payload clock) d in
  let updated :=
    mk_user (user_id user) (user_email user) (hash_password (reset_password payload))
            true (user_group_id user) in
  outcome r1 = Returned (mk_message "Password reset successfully.")
  /\ first (users_by_email (reset_email payload) (database_after r1)) = Some updated
  /\ tokens_by_user PasswordReset (user_id user) (database_after r1) = []
  /\ forall clock',
       let r2 := run_request (reset_password_complete hash_password payload clock')
                             (database_after r1) in
       outcome r2 = Raised (mk_exc 400 "Invalid email or token." [])
       /\ database_after r2 = database_after r1.
Proof.
  intros Huser Hact Htokens Hmatch Htime r1 updated.
  assert (Hrun : r1 = (Returned (mk_message "Password reset successfully."),
                       with_password_reset_tokens
                         (filter (fun t => negb (token_id t =? token_id token_record)))
                         (set_password user (hash_password (reset_password payload)) d),
                       [CallExecute; CallExecute; CallExecute; CallCommit])).
  { subst r1. unfold reset_password_complete. run_handler.
    rewrite Huser, Hact. cbn [negb]. session_step. rewrite Htokens.
    cbn [first hd_error]. rewrite Hmatch, String.eqb_refl. cbn [negb].
    rewrite le_normalize_now.
    replace (utc_instant (expires_at token_record) <=? clock) with false
      by (symmetry; apply Z.leb_gt; exact Htime).
    unfold delete_where. run_handler. reflexivity. }
  assert (Hfirst : first (users_by_email (reset_email payload) (database_after r1))
                   = Some updated).
  { rewrite Hrun. unfold database_after, users_by_email. cbn.
    replace updated with
      ((fun v => mk_user (user_id v) (user_email v)
                         (hash_password (reset_password payload))
                         (user_is_active v) (user_group_id v)) user)
      by (unfold updated; cbn beta; rewrite Hact; reflexivity).
    apply (first_by_email_after_update
             (fun v => mk_user (user_id v) (user_email v)
                               (hash_password (reset_password payload))
                               (user_is_active v) (user_group_id v)));
      [reflexivity|exact Huser]. }
  assert (Hnone : tokens_by_user PasswordReset (user_id user) (database_after r1) = []).
  { rewrite Hrun. unfold database_after, tokens_by_user. cbn.
    rewrite filter_comm. unfold tokens_by_user in Htokens. cbn in Htokens.
    rewrite Htokens. cbn. rewrite Z.eqb_refl. reflexivity. }
  split; [rewrite Hrun; reflexivity|]. split; [exact Hfirst|]. split; [exact Hnone|].
  intros clock' r2. subst r2. unfold reset_password_complete. run_handler.
  fold (database_after r1). rewrite Hfirst. cbn [user_is_active updated negb].
  session_step. fold (database_after r1).
  change (user_id updated) with (user_id user). rewrite Hnone.
  split; reflexivity.
Qed.

(** The session after one more statement, with its number. *)
Ltac statement_step := cbn [fst snd committed working calls app Datatypes.length].

(** A branch that ends in the [except SQLAlchemyError] clause. *)
Ltac refused_statement F n :=
  split; [right; eexists; split; [reflexivity | right; reflexivity]|];
  split; [reflexivity|];
  split; [intros ? _ _; split; [exists n; exact F | reflexivity]|];
  let H := fresh in intros H; rewrite H in F; discriminate F.

(** A branch that ends in one of the handler's own 400s. *)
Ltac refused_request :=
  split; [right; eexists; split; [reflexivity | left; reflexivity]|];
  split; [reflexivity|];
  split; [let Hs := fresh in intros ? [= <-] Hs; cbn in Hs; discriminate Hs|];
  intros _; reflexivity.

(** X9. Whatever the request, the database and the statements the
    database refuses, [reset_password_complete] either returns its
    success message or raises with status 400 or 500.  When it
    raises, the users table is as before, so a refused request
    changes no password.  It raises 500 only when a statement was
    refused, and then nothing at all is stored.  When no statement is
    refused it runs as the handler without the [try] block. *)
Theorem reset_password_complete_refusals
    (fails : Faults.FaultPlan)
    (payload : PasswordResetCompleteRequestSchema) (clock : Z) (d : Database) :
  let r := run_request (Faults.reset_password_complete fails hash_password payload clock) d in
  (outcome r = Returned (mk_message "Password reset successfully.")
   \/ exists e, outcome r = Raised e /\ (status_code e = 400 \/ status_code e = 500))
  /\ (forall e, outcome r = Raised e -> users (database_after r) = users d)
  /\ (forall e, outcome r = Raised e -> status_code e = 500 ->
        (exists n, fails n = true) /\ database_after r = d)
  /\ ((forall n, fails n = false) ->
      r = run_request (reset_password_complete hash_password payload clock) d).
Proof.
  intros r. subst r.
  unfold Faults.reset_password_complete, reset_password_complete, Faults.attempt,
    Faults.reset_failed, Faults.rollback, delete_where.
  run_handler. statement_step.
  destruct (fails 0%nat) eqn:F0; [refused_statement F0 0%nat|]. statement_step.
  destruct (first (users_by_email (reset_email payload) d)) as [user|]; [|refused_request].
  destruct (user_is_active user); cbn [negb]; [|refused_request].
  statement_step.
  destruct (fails 1%nat) eqn:F1; [refused_statement F1 1%nat|]. statement_step.
  destruct (first (tokens_by_user PasswordReset (user_id user) d)) as [token_record|];
    [|refused_request].
  destruct (negb (String.eqb (token token_record) (reset_token payload))).
  { statement_step.
    destruct (fails 2%nat) eqn:F2; [refused_statement F2 2%nat|]. statement_step.
    destruct (fails 3%nat) eqn:F3; [refused_statement F3 3%nat|]. statement_step.
    refused_request. }
  rewrite le_normalize_now.
  destruct (utc_instant (expires_at token_record) <=? clock).
  { statement_step.
    destruct (fails 2%nat) eqn:F2; [refused_statement F2 2%nat|]. statement_step.
    destruct (fails 3%nat) eqn:F3; [refused_statement F3 3%nat|]. statement_step.
    refused_request. }
  statement_step.
  destruct (fails 2%nat) eqn:F2; [refused_statement F2 2%nat|]. statement_step.
  destruct (fails 3%nat) eqn:F3; [refused_statement F3 3%nat|]. statement_step.
  split; [left; reflexivity|]. split; [discriminate|]. split; [discriminate|].
  intros _. reflexivity.
Qed.

End PasswordReset.

(* ================================================================== *)
(** * Registration, resending, reset requests, password change *)

(** ** The runs of the successful paths, for composing requests *)

Lemma activate_user_success_run
    (payload : Accounts.ActivateUserRequestSchema) (clock : Z) (d : Database)
    (user : UserModel) (token_record : ActivationTokenModel) :
  first (Accounts.users_by_email (Accounts.activate_email payload) d) = Some user ->
  user_is_active user = false ->
  first (Accounts.tokens_by_user Activation (user_id user) d) = Some token_record ->
  token token_record = Accounts.activate_token payload ->
  clock < utc_instant (expires_at token_record) ->
  run_request (Accounts.activate_user payload clock) d
  = (Returned (mk_message "User account activated successfully."),
     with_activation_tokens
       (filter (fun t => negb (token_id t =? token_id token_record)))
       (Accounts.set_active user d),
     [CallExecute; CallExecute; CallExecute; CallCommit]).
Proof.
  intros Huser Hinactive Htoken Hmatch Htime.
  unfold Accounts.activate_user. run_handler.
  rewrite Huser, Hinactive. session_step. rewrite Htoken.
  rewrite Hmatch, String.eqb_refl. cbn [negb].
  rewrite le_normalize_now.
  replace (utc_instant (expires_at token_record) <=? clock) with false
    by (symmetry; apply Z.leb_gt; exact Htime).
  unfold Accounts.delete_where. run_handler. reflexivity.
Qed.

Lemma reset_password_complete_success_run
    (hash_password : string -> string)
    (payload : Accounts.PasswordResetCompleteRequestSchema) (clock : Z) (d : Database)
    (user : UserModel) (token_record : PasswordResetTokenModel) :
  first (Accounts.users_by_email (Accounts.reset_email payload) d) = Some user ->
  user_is_active user = true ->
  first (Accounts.tokens_by_user PasswordReset (user_id user) d) = Some token_record ->
  token token_record = Accounts.reset_token payload ->
  clock < utc_instant (expires_at token_record) ->
  run_request (Accounts.reset_password_complete hash_password payload clock) d
  = (Returned (mk_message "Password reset successfully."),
     with_password_reset_tokens
       (filter (fun t => negb (token_id t =? token_id token_record)))
       (Accounts.set_password user
          (hash_password (Accounts.reset_password payload)) d),
     [CallExecute; CallExecute; CallExecute; CallCommit]).
Proof.
  intros Huser Hact Htoken Hmatch Htime.
  unfold Accounts.reset_password_complete. run_handler.
  rewrite Huser, Hact. cbn [negb]. session_step. rewrite Htoken.
  rewrite Hmatch, String.eqb_refl. cbn [negb].
  rewrite le_normalize_now.
  replace (utc_instant (expires_at token_record) <=? clock) with false
    by (symmetry; apply Z.leb_gt; exact Htime).
  unfold Accounts.delete_where. run_handler. reflexivity.
Qed.

Lemma first_none_filter {A} (l : list A) : first l = None -> l = [].
Proof. destruct l; [reflexivity|discriminate]. Qed.

Lemma first_filter_app_last {A} (p : A -> bool) (l : list A) (x : A) :
  filter p l = [] -> p x = true -> first (filter p (l ++ [x])) = Some x.
Proof. intros Hl Hx. rewrite filter_app, Hl. cbn. rewrite Hx. reflexivity. Qed.

(** Deleting a user's tokens and appending one for the user leaves
    exactly that one for the user. *)
Lemma tokens_of_user_replaced (uid : Z) (rows : list TokenRow) (row : TokenRow) :
  token_user_id row = uid ->
  filter (fun r => token_user_id r =? uid)
         (filter (fun r => negb (token_user_id r =? uid)) rows ++ [row])
  = [row].
Proof.
  intros Hrow. rewrite filter_app.
  rewrite (filter_all_false _ (filter _ rows)).
  - cbn. rewrite Hrow, Z.eqb_refl. reflexivity.
  - intros r Hr. apply filter_In in Hr. destruct Hr as [_ Hr].
    now apply negb_true_iff in Hr.
Qed.

Section ResetRequests.
Import Accounts Email AccountFlows.
Variable hash_password : string -> string.
Local Open Scope string_scope.
Local Open Scope Z_scope.

(** X10. [request_password_reset_token] answers every request with the
    same acknowledgement and never changes the users table.  When no
    user has the email, or the user found is inactive, it changes
    nothing at all, commits nothing and sends no mail. *)
Theorem request_password_reset_token_acknowledges
    (settings : MailSettings) (payload : PasswordResetRequestSchema)
    (generated : string) (expiry : datetime) (d : Database) :
  let r := run_request (request_password_reset_token settings payload generated expiry) d in
  (exists mail, outcome r = Returned (acknowledge_reset, mail))
  /\ users (database_after r) = users d
  /\ ((forall u, first (users_by_email (request_email payload) d) = Some u ->
                 user_is_active u = false) ->
      outcome r = Returned (acknowledge_reset, [])
      /\ database_after r = d
      /\ ~ In CallCommit (traffic r)).
Proof.
  intros r. subst r. unfold request_password_reset_token. run_handler.
  destruct (first (users_by_email (request_email payload) d)) as [user|].
  2:{ split; [eexists; reflexivity|]. split; [reflexivity|]. intros _.
      repeat split. cbn. intros [H|[]]; discriminate. }
  destruct (user_is_active user) eqn:Hact; cbn [negb].
  - unfold delete_where, pending. run_handler.
    split; [eexists; reflexivity|]. split; [reflexivity|].
    intros H. specialize (H user eq_refl). congruence.
  - split; [eexists; reflexivity|]. split; [reflexivity|]. intros _.
    repeat split. cbn. intros [H|[]]; discriminate.
Qed.

(** X11. For an active user found under the email,
    [request_password_reset_token] leaves the user with exactly one
    reset token, the new one with the generated string and expiry;
    the reset tokens of other users are the ones stored before; and
    the mail traffic is that of the reset mail to the user's address
    with the generated token. *)
Theorem request_password_reset_token_replaces
    (settings : MailSettings) (payload : PasswordResetRequestSchema)
    (generated : string) (expiry : datetime) (d : Database) (user : UserModel) :
  first (users_by_email (request_email payload) d) = Some user ->
  user_is_active user = true ->
  let r := run_request (request_password_reset_token settings payload generated expiry) d in
  exists row,
    tokens_by_user PasswordReset (user_id user) (database_after r) = [row]
    /\ token row = generated /\ expires_at row = expiry
    /\ (forall t, token_user_id t <> user_id user ->
          (In t (password_reset_tokens (database_after r))
           <-> In t (password_reset_tokens d)))
    /\ outcome r = Returned (acknowledge_reset,
                             send_password_reset_email settings (user_email user) generated).
Proof.
  intros Huser Hact r. subst r. unfold request_password_reset_token. run_handler.
  rewrite Huser, Hact. cbn [negb]. unfold delete_where, pending. run_handler.
  eexists. unfold tokens_by_user.
  cbn [token_rows with_token_rows insert_token with_password_reset_tokens
       password_reset_tokens].
  split; [apply tokens_of_user_replaced; reflexivity|].
  split; [reflexivity|]. split; [reflexivity|]. split; [|reflexivity].
  intros t Ht. rewrite in_app_iff, filter_In. cbn [In]. split.
  - intros [[Hin _]|[<-|[]]]; [exact Hin|]. now elim Ht.
  - intros Hin. left. split; [exact Hin|].
    apply negb_true_iff, Z.eqb_neq. exact Ht.
Qed.

(** X12. A reset requested for an active user and completed with the
    generated token before the generated expiry succeeds: the
    completion returns its success message and the user found under
    the email then carries the hash of the new password. *)
Theorem request_then_complete_reset
    (settings : MailSettings) (email generated password : string) (expiry : datetime)
    (clock : Z) (d : Database) (user : UserModel) :
  first (users_by_email email d) = Some user ->
  user_is_active user = true ->
  clock < utc_instant expiry ->
  let r1 := run_request (request_password_reset_token settings
                           (mk_reset_request_email email) generated expiry) d in
  let r2 := run_request (reset_password_complete hash_password
                           (mk_reset_request email generated password) clock)
                        (database_after r1) in
  outcome r2 = Returned (mk_message "Password reset successfully.")
  /\ first (users_by_email email (database_after r2))
     = Some (mk_user (user_id user) (user_email user) (hash_password password) true
                     (user_group_id user))
  /\ tokens_by_user PasswordReset (user_id user) (database_after r2) = [].
Proof.
  intros Huser Hact Htime r1 r2.
  set (row := new_token_row PasswordReset (user_id user) generated expiry
                (with_token_rows PasswordReset
                   (filter (fun r => negb (token_user_id r =? user_id user))) d)).
  assert (Hdb1 : database_after r1
                 = with_password_reset_tokens
                     (fun rows => (filter (fun r => negb (token_user_id r =? user_id user)) rows
                                   ++ [row])%list) d).
  { subst r1. unfold request_password_reset_token. run_handler.
    cbn [request_email]. rewrite Huser, Hact. cbn [negb].
    unfold delete_where, pending. run_handler. reflexivity. }
  assert (Htokens : tokens_by_user PasswordReset (user_id user) (database_after r1) = [row]).
  { rewrite Hdb1. unfold tokens_by_user. cbn [token_rows with_password_reset_tokens
      password_reset_tokens]. apply tokens_of_user_replaced. reflexivity. }
  assert (Huser1 : first (users_by_email email (database_after r1)) = Some user).
  { rewrite Hdb1. exact Huser. }
  assert (Hrun : r2 = (Returned (mk_message "Password reset successfully."),
                       with_password_reset_tokens
                         (filter (fun t => negb (token_id t =? token_id row)))
                         (set_password user (hash_password password) (database_after r1)),
                       [CallExecute; CallExecute; CallExecute; CallCommit])).
  { subst r2.
    apply (reset_password_complete_success_run hash_password
             (mk_reset_request email generated password) clock (database_after r1)
             user row); try assumption.
    - rewrite Htokens. reflexivity.
    - reflexivity. }
  assert (Hdb2 : database_after r2
                 = with_password_reset_tokens
                     (filter (fun t => negb (token_id t =? token_id row)))
                     (set_password user (hash_password password) (database_after r1)))
    by (rewrite Hrun; reflexivity).
  split; [rewrite Hrun; reflexivity|]. rewrite Hdb2. split.
  - unfold users_by_email. cbn [users with_password_reset_tokens set_password with_users].
    replace (mk_user (user_id user) (user_email user) (hash_password password) true
                     (user_group_id user))
      with ((fun v => mk_user (user_id v) (user_email v) (hash_password password)
                              (user_is_active v) (user_group_id v)) user)
      by (cbn beta; rewrite Hact; reflexivity).
    apply (first_by_email_after_update
             (fun v => mk_user (user_id v) (user_email v) (hash_password password)
                               (user_is_active v) (user_group_id v)));
      [reflexivity|exact Huser1].
  - unfold tokens_by_user in *. cbn [token_rows with_password_reset_tokens
      password_reset_tokens set_password with_users] in *.
    rewrite filter_comm, Htokens. cbn. rewrite Z.eqb_refl. reflexivity.
Qed.

End ResetRequests.

Section Resending.
Import Accounts Email AccountFlows.
Local Open Scope string_scope.
Local Open Scope Z_scope.

(** X13. [resend_activation_token] answers every request with the same
    acknowledgement and never changes the users table.  When no user
    has the email, or the user found is already active, it changes
    nothing at all, commits nothing and sends no mail. *)
Theorem resend_activation_token_acknowledges
    (settings : MailSettings) (payload : ResendActivationRequestSchema)
    (generated : string) (expiry : datetime) (d : Database) :
  let r := run_request (resend_activation_token settings payload generated expiry) d in
  (exists mail, outcome r = Returned (acknowledge_resend, mail))
  /\ users (database_after r) = users d
  /\ ((forall u, first (users_by_email (resend_email payload) d) = Some u ->
                 user_is_active u = true) ->
      outcome r = Returned (acknowledge_resend, [])
      /\ database_after r = d
      /\ ~ In CallCommit (traffic r)).
Proof.
  intros r. subst r. unfold resend_activation_token. run_handler.
  destruct (first (users_by_email (resend_email payload) d)) as [user|].
  2:{ split; [eexists; reflexivity|]. split; [reflexivity|]. intros _.
      repeat split. cbn. intros [H|[]]; discriminate. }
  destruct (user_is_active user) eqn:Hact.
  - split; [eexists; reflexivity|]. split; [reflexivity|]. intros _.
    repeat split. cbn. intros [H|[]]; discriminate.
  - unfold delete_where, pending. run_handler.
    split; [eexists; reflexivity|]. split; [reflexivity|].
    intros H. specialize (H user eq_refl). congruence.
Qed.

(** X14. After [resend_activation_token] for an inactive user, the
    mail carries the generated token, every activation request for
    the email with another token string is refused with 400 and
    changes nothing (tokens sent earlier no longer work), and the
    activation request with the generated token before the generated
    expiry succeeds and leaves the user active. *)
Theorem resend_then_activate
    (settings : MailSettings) (email generated : string) (expiry : datetime)
    (clock : Z) (d : Database) (user : UserModel) :
  first (users_by_email email d) = Some user ->
  user_is_active user = false ->
  clock < utc_instant expiry ->
  let r1 := run_request (resend_activation_token settings (mk_resend_request email)
                           generated expiry) d in
  let d1 := database_after r1 in
  outcome r1 = Returned (acknowledge_resend,
                         send_activation_email settings (user_email user) generated)
  /\ (forall other clock',
        other <> generated ->
        let r := run_request (activate_user (mk_activate_request email other) clock') d1 in
        outcome r = Raised (mk_exc 400 "Invalid or expired activation token." [])
        /\ database_after r = d1)
  /\ let r2 := run_request (activate_user (mk_activate_request email generated) clock) d1 in
     outcome r2 = Returned (mk_message "User account activated successfully.")
     /\ first (users_by_email email (database_after r2))
        = Some (mk_user (user_id user) (user_email user) (user_hashed_password user) true
                        (user_group_id user))
     /\ tokens_by_user Activation (user_id user) (database_after r2) = [].
Proof.
  intros Huser Hinactive Htime r1 d1.
  set (row := new_token_row Activation (user_id user) generated expiry
                (with_token_rows Activation
                   (filter (fun r => negb (token_user_id r =? user_id user))) d)).
  assert (Hrun1 : r1 = (Returned (acknowledge_resend,
                                  send_activation_email settings (user_email user) generated),
                        with_activation_tokens
                          (fun rows =>
                             (filter (fun r => negb (token_user_id r =? user_id user)) rows
                              ++ [row])%list) d,
                        [CallExecute; CallExecute; CallAdd; CallCommit; CallRefresh])).
  { subst r1. unfold resend_activation_token. run_handler.
    cbn [resend_email]. rewrite Huser, Hinactive.
    unfold delete_where, pending. run_handler. reflexivity. }
  assert (Hd1 : d1 = with_activation_tokens
                       (fun rows =>
                          (filter (fun r => negb (token_user_id r =? user_id user)) rows
                           ++ [row])%list) d)
    by (subst d1; rewrite Hrun1; reflexivity).
  assert (Htokens : tokens_by_user Activation (user_id user) d1 = [row]).
  { rewrite Hd1. unfold tokens_by_user. cbn [token_rows with_activation_tokens
      activation_tokens]. apply tokens_of_user_replaced. reflexivity. }
  assert (Huser1 : first (users_by_email email d1) = Some user)
    by (rewrite Hd1; exact Huser).
  split; [rewrite Hrun1; reflexivity|]. split.
  - intros other clock' Hother r. subst r. unfold activate_user. run_handler.
    cbn [activate_email activate_token]. rewrite Huser1, Hinactive. session_step.
    rewrite Htokens. cbn [first hd_error].
    change (token row) with generated.
    replace (String.eqb generated other) with false
      by (symmetry; apply String.eqb_neq; congruence).
    split; reflexivity.
  - intros r2.
    assert (Hrun2 : r2 = (Returned (mk_message "User account activated successfully."),
                          with_activation_tokens
                            (filter (fun t => negb (token_id t =? token_id row)))
                            (set_active user d1),
                          [CallExecute; CallExecute; CallExecute; CallCommit])).
    { subst r2.
      apply (activate_user_success_run (mk_activate_request email generated) clock d1
               user row); try assumption.
      - rewrite Htokens. reflexivity.
      - reflexivity. }
    assert (Hd2 : database_after r2
                  = with_activation_tokens
                      (filter (fun t => negb (token_id t =? token_id row)))
                      (set_active user d1))
      by (rewrite Hrun2; reflexivity).
    split; [rewrite Hrun2; reflexivity|]. rewrite Hd2. split.
    + unfold users_by_email. cbn [users with_activation_tokens set_active with_users].
      apply (first_by_email_after_update
               (fun v => mk_user (user_id v) (user_email v) (user_hashed_password v) true
                                 (user_group_id v))); [reflexivity|exact Huser1].
    + unfold tokens_by_user in *. cbn [token_rows with_activation_tokens
        activation_tokens set_active with_users] in *.
      rewrite filter_comm, Htokens. cbn. rewrite Z.eqb_refl. reflexivity.
Qed.

End Resending.

Lemma login_user_success_run
    {jwt_manager : JWTAuthManagerInterface}
    (verify_password : UserModel -> string -> bool)
    (payload : Accounts.LoginRequestSchema) (settings : Accounts.BaseAppSettings)
    (clock : Z) (d : Database) (user : UserModel) :
  first (Accounts.users_by_email (Accounts.login_email payload) d) = Some user ->
  verify_password user (Accounts.login_password payload) = true ->
  user_is_active user = true ->
  outcome (run_request (Accounts.login_user verify_password payload settings clock) d)
  = Returned (mk_login_response
                (create_access_token [("user_id"%string, user_id user)])
                (create_refresh_token [("user_id"%string, user_id user)])
                "bearer").
Proof.
  intros Huser Hpw Hact. unfold Accounts.login_user. run_handler.
  rewrite Huser, Hpw, Hact. reflexivity.
Qed.

Lemma login_user_inactive_run
    {jwt_manager : JWTAuthManagerInterface}
    (verify_password : UserModel -> string -> bool)
    (payload : Accounts.LoginRequestSchema) (settings : Accounts.BaseAppSettings)
    (clock : Z) (d : Database) (user : UserModel) :
  first (Accounts.users_by_email (Accounts.login_email payload) d) = Some user ->
  verify_password user (Accounts.login_password payload) = true ->
  user_is_active user = false ->
  outcome (run_request (Accounts.login_user verify_password payload settings clock) d)
  = Raised (mk_exc 403 "User account is not activated." []).
Proof.
  intros Huser Hpw Hact. unfold Accounts.login_user. run_handler.
  rewrite Huser, Hpw, Hact. reflexivity.
Qed.

Section Registration.
Import Accounts Email AccountFlows.
Context {jwt_manager : JWTAuthManagerInterface}.
Variable hash_password : string -> string.
Variable verify_password : UserModel -> string -> bool.
Local Open Scope string_scope.
Local Open Scope Z_scope.

(** X15. [register_user] refuses an email that a stored user already
    has with 409 and a detail naming the email, and otherwise refuses
    with 500 "Default user group not found." when the groups table
    has no [USER] group; in both cases nothing is stored and nothing
    committed. *)
Theorem register_user_refusals
    (groups : list UserGroupModel) (settings : MailSettings)
    (user_data : UserRegistrationRequestSchema) (generated : string) (expiry : datetime)
    (d : Database) :
  let r := run_request (register_user hash_password groups settings user_data
                          generated expiry) d in
  (forall existing,
     first (users_by_email (register_email user_data) d) = Some existing ->
     outcome r = Raised (mk_exc 409 ("A user with this email "
                                     ++ register_email user_data ++ " already exists.") [])
     /\ database_after r = d /\ ~ In CallCommit (traffic r))
  /\ (first (users_by_email (register_email user_data) d) = None ->
      (forall g, In g groups -> group_name g <> USER) ->
      outcome r = Raised (mk_exc 500 "Default user group not found." [])
      /\ database_after r = d /\ ~ In CallCommit (traffic r)).
Proof.
  intros r. subst r. unfold register_user. run_handler. split.
  - intros existing Hex. rewrite Hex. repeat split.
    cbn. intros [H|[]]; discriminate.
  - intros Hnone Hgroups. rewrite Hnone. session_step.
    rewrite (first_filter_none is_default_group groups).
    + repeat split. cbn. intros [H|[H|[]]]; discriminate.
    + intros g Hg. specialize (Hgroups g Hg). unfold is_default_group.
      destruct (group_name g); [now elim Hgroups | reflexivity].
Qed.

(** X16. For an email no stored user has and a groups table with a
    [USER] group, [register_user] returns the new user: inactive,
    with the email, the hash of the password, the first [USER] group
    and a key no stored user has.  The user is appended to the users
    table and one activation token with the generated string and
    expiry is appended for it; the mail traffic is that of the
    activation mail to the email with that token. *)
Theorem register_user_creates
    (groups : list UserGroupModel) (settings : MailSettings)
    (user_data : UserRegistrationRequestSchema) (generated : string) (expiry : datetime)
    (d : Database) (group : UserGroupModel) :
  first (users_by_email (register_email user_data) d) = None ->
  first (filter is_default_group groups) = Some group ->
  let r := run_request (register_user hash_password groups settings user_data
                          generated expiry) d in
  exists new_user row,
    outcome r = Returned (new_user,
                          send_activation_email settings (register_email user_data) generated)
    /\ user_email new_user = register_email user_data
    /\ user_hashed_password new_user = hash_password (register_password user_data)
    /\ user_is_active new_user = false
    /\ user_group_id new_user = group_id group
    /\ (forall u, In u (users d) -> user_id u <> user_id new_user)
    /\ users (database_after r) = (users d ++ [new_user])%list
    /\ activation_tokens (database_after r) = (activation_tokens d ++ [row])%list
    /\ token_user_id row = user_id new_user
    /\ token row = generated
    /\ expires_at row = expiry.
Proof.
  intros Hnone Hgroup r. subst r. unfold register_user. run_handler.
  rewrite Hnone. session_step. rewrite Hgroup. unfold pending. run_handler.
  eexists. eexists. split; [reflexivity|].
  split; [reflexivity|]. split; [reflexivity|]. split; [reflexivity|].
  split; [reflexivity|]. split.
  - intros u Hu Heq. unfold UserModel_create in Heq. cbn [user_id] in Heq.
    apply (next_id_fresh (map user_id (users d))). rewrite <- Heq. now apply in_map.
  - repeat split.
Qed.

(** X17. The life of a new account, for an email no stored user has, a
    groups table with a [USER] group, stored activation tokens that
    all belong to stored users, and a password check that accepts a
    password against its own hash: after registration a login is
    refused with 403; activation with the generated token before its
    expiry succeeds; after it the same login returns tokens of type
    "bearer". *)
Theorem register_activate_login
    (groups : list UserGroupModel) (settings : MailSettings)
    (email password generated : string) (expiry : datetime)
    (app_settings : BaseAppSettings) (clock : Z)
    (d : Database) (group : UserGroupModel) :
  first (users_by_email email d) = None ->
  first (filter is_default_group groups) = Some group ->
  (forall t, In t (activation_tokens d) ->
             exists u, In u (users d) /\ user_id u = token_user_id t) ->
  (forall u raw, user_hashed_password u = hash_password raw ->
                 verify_password u raw = true) ->
  clock < utc_instant expiry ->
  let login := login_user verify_password (mk_login_request email password)
                          app_settings clock in
  let r1 := run_request (register_user hash_password groups settings
                           (mk_registration email password) generated expiry) d in
  let early := run_request login (database_after r1) in
  let r2 := run_request (activate_user (mk_activate_request email generated) clock)
                        (database_after r1) in
  let r3 := run_request login (database_after r2) in
  outcome early = Raised (mk_exc 403 "User account is not activated." [])
  /\ outcome r2 = Returned (mk_message "User account activated successfully.")
  /\ exists body, outcome r3 = Returned body /\ token_type body = "bearer".
Proof.
  intros Hnone Hgroup Hfk Hcompat Htime login r1 early r2 r3.
  set (new_user := UserModel_create hash_password email password (group_id group) d).
  set (row := mk_token (next_id (map token_id (activation_tokens d)))
                       (user_id new_user) generated expiry).
  assert (Hd1 : database_after r1
                = with_activation_tokens (fun rows => (rows ++ [row])%list)
                    (with_users (fun rows => (rows ++ [new_user])%list) d)).
  { subst r1. unfold register_user. run_handler. cbn [register_email register_password].
    rewrite Hnone. session_step. rewrite Hgroup. unfold pending. run_handler.
    reflexivity. }
  assert (Huser1 : first (users_by_email email (database_after r1)) = Some new_user).
  { rewrite Hd1. unfold users_by_email. cbn [users with_activation_tokens with_users].
    apply first_filter_app_last.
    - apply first_none_filter. exact Hnone.
    - cbn. apply String.eqb_refl. }
  assert (Htokens : tokens_by_user Activation (user_id new_user) (database_after r1) = [row]).
  { rewrite Hd1. unfold tokens_by_user.
    cbn [token_rows activation_tokens with_activation_tokens with_users].
    rewrite filter_app, filter_all_false.
    - cbn. rewrite Z.eqb_refl. reflexivity.
    - intros t Ht. apply Z.eqb_neq. intros Heq.
      destruct (Hfk t Ht) as (u & Hu & Hid).
      apply (next_id_fresh (map user_id (users d))).
      change (next_id (map user_id (users d))) with (user_id new_user).
      rewrite <- Heq, <- Hid. now apply in_map. }
  assert (Hverify : verify_password new_user password = true)
    by (apply Hcompat; reflexivity).
  split.
  { subst early login.
    apply (login_user_inactive_run verify_password (mk_login_request email password)
             app_settings clock (database_after r1) new_user);
      [exact Huser1 | exact Hverify | reflexivity]. }
  assert (Hrun2 : r2 = (Returned (mk_message "User account activated successfully."),
                        with_activation_tokens
                          (filter (fun t => negb (token_id t =? token_id row)))
                          (set_active new_user (database_after r1)),
                        [CallExecute; CallExecute; CallExecute; CallCommit])).
  { subst r2.
    apply (activate_user_success_run (mk_activate_request email generated) clock
             (database_after r1) new_user row); try assumption; try reflexivity.
    rewrite Htokens. reflexivity. }
  split; [rewrite Hrun2; reflexivity|].
  set (activated := mk_user (user_id new_user) (user_email new_user)
                            (user_hashed_password new_user) true (user_group_id new_user)).
  assert (Huser2 : first (users_by_email email (database_after r2)) = Some activated).
  { rewrite Hrun2. unfold database_after. cbn [fst snd]. unfold users_by_email.
    cbn [users with_activation_tokens set_active with_users].
    apply (first_by_email_after_update
             (fun v => mk_user (user_id v) (user_email v) (user_hashed_password v) true
                               (user_group_id v))); [reflexivity|exact Huser1]. }
  eexists. split.
  - subst r3 login.
    apply (login_user_success_run verify_password (mk_login_request email password)
             app_settings clock (database_after r2) activated).
    + exact Huser2.
    + apply Hcompat. reflexivity.
    + reflexivity.
  - reflexivity.
Qed.

(** X18. [change_password] refuses with 400 "Old password is
    incorrect." and changes nothing when the old password fails the
    check.  When it passes, the handler returns its success message
    and stores the hash of the new password for the user; if the
    password check accepts a password against its own hash, the
    user, found under the email and active, can then log in with the
    new password. *)
Theorem change_password_then_login
    (payload : ChangePasswordRequestSchema) (user : UserModel)
    (app_settings : BaseAppSettings) (clock : Z) (d : Database) :
  let r := run_request (change_password hash_password verify_password payload user) d in
  (verify_password user (old_password payload) = false ->
     outcome r = Raised (mk_exc 400 "Old password is incorrect." [])
     /\ database_after r = d)
  /\ (verify_password user (old_password payload) = true ->
      outcome r = Returned (mk_message "Password changed successfully.")
      /\ database_after r = set_password user (hash_password (new_password payload)) d
      /\ (first (users_by_email (user_email user) d) = Some user ->
          user_is_active user = true ->
          (forall u raw, user_hashed_password u = hash_password raw ->
                         verify_password u raw = true) ->
          exists body,
            outcome (run_request
                       (login_user verify_password
                          (mk_login_request (user_email user) (new_password payload))
                          app_settings clock)
                       (database_after r))
            = Returned body)).
Proof.
  intros r. subst r. unfold change_password. split.
  - intros Hbad. rewrite Hbad. run_handler. split; reflexivity.
  - intros Hgood. rewrite Hgood. cbn [negb]. run_handler.
    split; [reflexivity|]. split; [reflexivity|].
    intros Hstored Hact Hcompat. eexists.
    apply (login_user_success_run verify_password
             (mk_login_request (user_email user) (new_password payload))
             app_settings clock _
             (mk_user (user_id user) (user_email user)
                      (hash_password (new_password payload)) true (user_group_id user))).
    + cbn [login_email]. unfold users_by_email, set_password.
      cbn [users with_users].
      replace (mk_user (user_id user) (user_email user)
                       (hash_password (new_password payload)) true (user_group_id user))
        with ((fun v => mk_user (user_id v) (user_email v)
                                (hash_password (new_password payload))
                                (user_is_active v) (user_group_id v)) user)
        by (cbn beta; rewrite Hact; reflexivity).
      apply (first_by_email_after_update
               (fun v => mk_user (user_id v) (user_email v)
                                 (hash_password (new_password payload))
                                 (user_is_active v) (user_group_id v)));
        [reflexivity|exact Hstored].
    + apply Hcompat. reflexivity.
    + reflexivity.
Qed.

End Registration.

(* ================================================================== *)
(** * Further properties of the listings and the favorites *)

Section ListingSoundness.
Import Movies Listing.
Context {text : TextSearch}.
Local Open Scope string_scope.
Local Open Scope Z_scope.

Lemma outer_some {A} (l : list A) (x : A) : In (Some x) (outer l) -> In x l.
Proof.
  destruct l as [|a l]; cbn [outer].
  - intros [H|[]]. discriminate.
  - intros H. apply in_map_iff in H. destruct H as (y & [= ->] & Hy). exact Hy.
Qed.

Lemma favorited_by_link (d : Database) (m : MovieModel) (u : Z) :
  In u (favorited_by d m) <-> In (u, movie_id m) (user_favorites d).
Proof.
  unfold favorited_by. rewrite in_map_iff. split.
  - intros ([a b] & Hfst & Hin). apply filter_In in Hin. destruct Hin as [Hin Hb].
    cbn in Hfst, Hb. apply Z.eqb_eq in Hb. now subst.
  - intros Hin. exists (u, movie_id m). split; [reflexivity|].
    apply filter_In. split; [exact Hin|]. cbn. apply Z.eqb_refl.
Qed.

Lemma apply_join_sound (d : Database) (j : Join) (rows : list JoinedRow) :
  Forall (row_sound d) rows -> Forall (row_sound d) (apply_join d j rows).
Proof.
  intros H. rewrite Forall_forall in *. intros r Hr.
  destruct j; cbn [apply_join] in Hr; apply in_flat_map in Hr;
    destruct Hr as (r0 & Hr0 & Hr); apply in_map_iff in Hr;
    destruct Hr as (x & <- & Hx); destruct (H r0 Hr0) as (Hm & Hs & Hd & Hf);
    unfold row_sound; cbn [row_movie row_star row_director row_favorite_user];
    (split; [exact Hm|]); (split; [|split]); try assumption.
  - intros s ->. now apply outer_some.
  - intros s ->. now apply outer_some.
  - intros u [= <-]. now apply favorited_by_link.
Qed.

Lemma joined_sound (d : Database) (js : list Join) (rows : list JoinedRow) :
  Forall (row_sound d) rows ->
  Forall (row_sound d) (fold_left (fun rows j => apply_join d j rows) js rows).
Proof.
  revert rows. induction js as [|j js IH]; intros rows H; cbn [fold_left]; [exact H|].
  apply IH. now apply apply_join_sound.
Qed.

Lemma matching_sound (s : Select) (d : Database) (m : MovieModel) :
  In m (matching s d) ->
  exists r, row_sound d r /\ row_movie r = m /\ passes (wheres s) r = true.
Proof.
  unfold matching. intros H. apply in_map_iff in H. destruct H as (r & Hm & Hr).
  apply filter_In in Hr. destruct Hr as [Hr Hp]. exists r. split; [|now split].
  assert (Hall : Forall (row_sound d)
                   (fold_left (fun rows j => apply_join d j rows) (joins s)
                      (map (fun m => mk_row m None None None) (movies d)))).
  { apply joined_sound. apply Forall_forall. intros r0 Hr0.
    apply in_map_iff in Hr0. destruct Hr0 as (m0 & <- & Hm0).
    unfold row_sound. cbn. repeat split; try discriminate. exact Hm0. }
  rewrite Forall_forall in Hall. now apply Hall.
Qed.

Lemma passes_in (cs : list Condition) (r : JoinedRow) (c : Condition) :
  passes cs r = true -> In c cs -> eval_condition c r = Some true.
Proof.
  unfold passes. intros H Hc. rewrite forallb_forall in H. specialize (H c Hc).
  destruct (eval_condition c r) as [[|]|]; congruence.
Qed.

Lemma distinct_rows_in (l : list MovieModel) (m : MovieModel) :
  In m (distinct_rows l) -> In m l.
Proof.
  induction l as [|a l IH]; cbn [distinct_rows]; [intros []|].
  intros [<-|H]; [now left|]. right. apply filter_In in H. now apply IH.
Qed.

Lemma firstn_in {A} (n : nat) (l : list A) (x : A) : In x (firstn n l) -> In x l.
Proof. intros H. rewrite <- (firstn_skipn n l). apply in_or_app. now left. Qed.

Lemma skipn_in {A} (n : nat) (l : list A) (x : A) : In x (skipn n l) -> In x l.
Proof. intros H. rewrite <- (firstn_skipn n l). apply in_or_app. now right. Qed.

Lemma run_select_in_matching (s : Select) (d : Database) (m : MovieModel) :
  In m (run_select s d) -> In m (matching s d).
Proof.
  unfold run_select, apply_limit, apply_offset, apply_order. intros H.
  destruct (stmt_limit s); [apply firstn_in in H|];
    (destruct (stmt_offset s); [apply skipn_in in H|]);
    (destruct (ordering s);
       [apply (Permutation_in _ (Permutation_sym (sort_desc_perm _ _))) in H|]);
    (destruct (is_distinct s); [now apply distinct_rows_in | exact H]).
Qed.

Lemma sql_or_true (a b : option bool) :
  sql_or a b = Some true -> a = Some true \/ b = Some true.
Proof. destruct a as [[|]|], b as [[|]|]; cbn; intros H; auto; discriminate. Qed.

(** Which conditions the filters put on the statement. *)
Ltac filter_cases :=
  unfold apply_filters;
  repeat match goal with
         | |- context [match ?o with Some _ => _ | None => _ end] => destruct o
         | |- context [if ?b then _ else _] => destruct b eqn:?
         end;
  cbn [wheres where_ join distinct joins is_distinct];
  rewrite ?in_app_iff; cbn [In].

Lemma base_condition_kept (year : option Z) (min_imdb max_price : option Q)
    (search : option string) (s : Select) (c : Condition) :
  In c (wheres s) -> In c (wheres (apply_filters year min_imdb max_price search s)).
Proof. intros H. filter_cases; tauto. Qed.

Lemma year_condition_applied (y : Z) (min_imdb max_price : option Q)
    (search : option string) (s : Select) :
  y <> 0 -> In (YearEq y) (wheres (apply_filters (Some y) min_imdb max_price search s)).
Proof.
  intros Hy. apply Z.eqb_neq in Hy. unfold apply_filters. rewrite Hy.
  filter_cases; tauto.
Qed.

Lemma imdb_condition_applied (year : option Z) (v : Q) (max_price : option Q)
    (search : option string) (s : Select) :
  ~ (v == 0)%Q -> In (ImdbGe v) (wheres (apply_filters year (Some v) max_price search s)).
Proof.
  intros Hv. assert (E : Qeq_bool v 0 = false).
  { apply not_true_is_false. intros H. now apply Qeq_bool_iff in H. }
  unfold apply_filters. rewrite E. filter_cases; tauto.
Qed.

Lemma price_condition_applied (year : option Z) (min_imdb : option Q) (v : Q)
    (search : option string) (s : Select) :
  ~ (v == 0)%Q -> In (PriceLe v) (wheres (apply_filters year min_imdb (Some v) search s)).
Proof.
  intros Hv. assert (E : Qeq_bool v 0 = false).
  { apply not_true_is_false. intros H. now apply Qeq_bool_iff in H. }
  unfold apply_filters. rewrite E. filter_cases; tauto.
Qed.

Lemma search_condition_applied (year : option Z) (min_imdb max_price : option Q)
    (text_ : string) (s : Select) :
  text_ <> "" ->
  In (SearchLike ("%" ++ py_lower text_ ++ "%"))
     (wheres (apply_filters year min_imdb max_price (Some text_) s)).
Proof.
  intros Ht. apply String.eqb_neq in Ht. unfold apply_filters. rewrite Ht.
  filter_cases; tauto.
Qed.

(** What passing a search condition means for a sound row. *)
Lemma search_condition_sound (d : Database) (r : JoinedRow) (term : string) :
  row_sound d r ->
  eval_condition (SearchLike term) r = Some true ->
  exists column, In column (searched_texts d (row_movie r))
                 /\ sql_like (sql_lower column) term = true.
Proof.
  intros (_ & Hs & Hd & _) H. cbn [eval_condition] in H. unfold searched_texts.
  apply sql_or_true in H. destruct H as [H|H].
  { cbn in H. injection H as H. exists (movie_name (row_movie r)). split; [now left|exact H]. }
  apply sql_or_true in H. destruct H as [H|H].
  { cbn in H. injection H as H. exists (movie_description (row_movie r)).
    split; [right; now left|exact H]. }
  apply sql_or_true in H. destruct H as [H|H].
  - destruct (row_star r) as [st|]; [|discriminate]. cbn in H. injection H as H.
    exists (star_name st). split; [|exact H]. right. right. apply in_or_app. left.
    apply in_map. now apply Hs.
  - destruct (row_director r) as [di|]; [|discriminate]. cbn in H. injection H as H.
    exists (director_name di). split; [|exact H]. right. right. apply in_or_app. right.
    apply in_map. now apply Hd.
Qed.

(** The items of a list answer come from rows that match the
    statement the filters built. *)
Lemma paginate_items_match (page size : Z) (sort_by : SortBy) (stmt : Select)
    (d : Database) :
  exists envelope,
    outcome (run_request (paginate page size sort_by stmt) d) = Returned envelope
    /\ total envelope = count_rows (order_by_desc sort_by stmt) d
    /\ items envelope
       = map model_validate
             (run_select (limit size (offset ((page - 1) * size)
                                        (order_by_desc sort_by stmt))) d)
    /\ forall item, In item (items envelope) ->
         exists r, row_sound d r /\ item = model_validate (row_movie r)
                   /\ passes (wheres stmt) r = true.
Proof.
  unfold paginate. run_handler. eexists. split; [reflexivity|].
  cbn [total items]. split; [reflexivity|]. split; [reflexivity|].
  intros item Hitem. apply in_map_iff in Hitem. destruct Hitem as (m & <- & Hm).
  apply run_select_in_matching in Hm.
  change (matching (limit size (offset ((page - 1) * size) (order_by_desc sort_by stmt))) d)
    with (matching stmt d) in Hm.
  apply matching_sound in Hm. destruct Hm as (r & Hr & <- & Hp).
  exists r. split; [exact Hr|]. split; [reflexivity|exact Hp].
Qed.

(** X19. Every item of a [get_movies] answer is the projection of a
    stored movie that meets each filter of the request: its year
    equals a non-zero [year], its rating is at least a non-zero
    [min_imdb], its price at most a non-zero [max_price], and for a
    non-empty [search] one of its name, description, star names and
    director names matches the pattern [%search%] in lower case. *)
Theorem get_movies_items_meet_filters
    (d : Database) (page size : Z) (year : option Z) (min_imdb max_price : option Q)
    (search : option string) (sort_by : SortBy) :
  exists envelope,
    outcome (run_request (get_movies page size year min_imdb max_price search sort_by) d)
    = Returned envelope
    /\ forall item, In item (items envelope) ->
         exists m, In m (movies d) /\ item = model_validate m
           /\ (forall y, year = Some y -> y <> 0 -> movie_year m = y)
           /\ (forall v, min_imdb = Some v -> ~ (v == 0)%Q -> (v <= movie_imdb m)%Q)
           /\ (forall v, max_price = Some v -> ~ (v == 0)%Q -> (movie_price m <= v)%Q)
           /\ (forall s, search = Some s -> s <> "" ->
                 exists column, In column (searched_texts d m)
                   /\ sql_like (sql_lower column) ("%" ++ py_lower s ++ "%") = true).
Proof.
  unfold get_movies.
  destruct (paginate_items_match page size sort_by
              (apply_filters year min_imdb max_price search select_movies) d)
    as (envelope & Hout & _ & _ & Hitems).
  exists envelope. split; [exact Hout|].
  intros item Hitem. destruct (Hitems item Hitem) as (r & Hr & -> & Hp).
  exists (row_movie r). split; [apply Hr|]. split; [reflexivity|].
  split; [|split; [|split]].
  - intros y -> Hy.
    pose proof (passes_in _ _ _ Hp (year_condition_applied y _ _ _ _ Hy)) as H.
    cbn in H. injection H as H. now apply Z.eqb_eq.
  - intros v -> Hv.
    pose proof (passes_in _ _ _ Hp (imdb_condition_applied _ v _ _ _ Hv)) as H.
    cbn in H. injection H as H. now apply Qle_bool_iff.
  - intros v -> Hv.
    pose proof (passes_in _ _ _ Hp (price_condition_applied _ _ v _ _ Hv)) as H.
    cbn in H. injection H as H. now apply Qle_bool_iff.
  - intros s -> Hs.
    pose proof (passes_in _ _ _ Hp (search_condition_applied _ _ _ s _ Hs)) as H.
    now apply (search_condition_sound d r).
Qed.

(** X22. Every item of a [get_favorite_movies] answer is the
    projection of a stored movie that the association table links to
    the user, whatever the filters, the sort column and the page. *)
Theorem get_favorite_movies_only_favorites
    (d : Database) (page size : Z) (year : option Z) (min_imdb max_price : option Q)
    (search : option string) (sort_by : SortBy) (user : UserModel) :
  exists envelope,
    outcome (run_request
               (get_favorite_movies page size year min_imdb max_price search sort_by user) d)
    = Returned envelope
    /\ forall item, In item (items envelope) ->
         exists m, In m (movies d) /\ item = model_validate m
                   /\ In (user_id user, movie_id m) (user_favorites d).
Proof.
  unfold get_favorite_movies.
  destruct (paginate_items_match page size sort_by
              (apply_filters year min_imdb max_price search
                 (where_ (FavoriteOf (user_id user)) (join JoinFavorites select_movies))) d)
    as (envelope & Hout & _ & _ & Hitems).
  exists envelope. split; [exact Hout|].
  intros item Hitem. destruct (Hitems item Hitem) as (r & Hr & -> & Hp).
  exists (row_movie r). split; [apply Hr|]. split; [reflexivity|].
  assert (Hc : In (FavoriteOf (user_id user))
                  (wheres (apply_filters year min_imdb max_price search
                     (where_ (FavoriteOf (user_id user))
                             (join JoinFavorites select_movies)))))
    by (apply base_condition_kept; cbn; now left).
  pose proof (passes_in _ _ _ Hp Hc) as H. cbn [eval_condition] in H.
  destruct Hr as (_ & _ & _ & Hf).
  destruct (row_favorite_user r) as [u|]; [|discriminate].
  injection H as H. apply Z.eqb_eq in H. subst u. now apply Hf.
Qed.

End ListingSoundness.

Section ListingCompleteness.
Import Movies Listing.
Context {text : TextSearch}.
Local Open Scope string_scope.
Local Open Scope Z_scope.

Lemma base_rows_filter (cs : list Condition) (l : list MovieModel) :
  map row_movie (filter (passes cs) (map (fun m => mk_row m None None None) l))
  = filter (fun m => passes cs (mk_row m None None None)) l.
Proof.
  induction l as [|m l IH]; cbn [map filter]; [reflexivity|].
  destruct (passes cs (mk_row m None None None)); cbn [map row_movie]; now rewrite IH.
Qed.

(** Without a search the statement selects, once each, the stored
    movies within the numeric filters. *)
Lemma unsearched_matching (year : option Z) (min_imdb max_price : option Q)
    (search : option string) (d : Database) :
  search = None \/ search = Some "" ->
  matching (apply_filters year min_imdb max_price search select_movies) d
  = filter (within_filters year min_imdb max_price) (movies d)
  /\ is_distinct (apply_filters year min_imdb max_price search select_movies) = false.
Proof.
  intros [-> | ->]; unfold apply_filters; cbn [String.eqb];
    (destruct year as [y|]; [destruct (y =? 0) eqn:Ey|]);
    (destruct min_imdb as [v|]; [destruct (Qeq_bool v 0) eqn:Ev|]);
    (destruct max_price as [w|]; [destruct (Qeq_bool w 0) eqn:Ew|]);
    (split; [|reflexivity]);
    unfold matching; cbn [joins wheres where_ select_movies fold_left app];
    rewrite base_rows_filter; apply filter_ext; intros m;
    unfold within_filters, passes; rewrite ?Ey, ?Ev, ?Ew;
    cbn [forallb eval_condition row_movie orb andb];
    repeat match goal with
           | |- context [?a =? ?b] => destruct (a =? b)
           | |- context [Qle_bool ?a ?b] => destruct (Qle_bool a b)
           end; reflexivity.
Qed.

(** X20. When a [get_movies] request carries no search text, [total]
    is the number of stored movies within its numeric filters, each
    counted once; a filter that is absent or zero excludes nothing. *)
Theorem get_movies_total_counts_filtered
    (d : Database) (page size : Z) (year : option Z) (min_imdb max_price : option Q)
    (search : option string) (sort_by : SortBy) :
  search = None \/ search = Some "" ->
  exists envelope,
    outcome (run_request (get_movies page size year min_imdb max_price search sort_by) d)
    = Returned envelope
    /\ total envelope
       = Z.of_nat (List.length (filter (within_filters year min_imdb max_price) (movies d))).
Proof.
  intros Hsearch. unfold get_movies.
  destruct (paginate_items_match page size sort_by
              (apply_filters year min_imdb max_price search select_movies) d)
    as (envelope & Hout & Htotal & _).
  exists envelope. split; [exact Hout|]. rewrite Htotal.
  destruct (apply_filters_unpaginated year min_imdb max_price search select_movies)
    as (Ho & Hl & Hn).
  destruct (unsearched_matching year min_imdb max_price search d Hsearch) as (Hm & Hd).
  unfold count_rows. rewrite run_select_ordered by assumption.
  rewrite <- (Permutation_length (sort_desc_perm _ _)).
  unfold run_select. rewrite Hd, Ho, Hl, Hn, Hm. reflexivity.
Qed.

(** *** Pages *)

Lemma firstn_plus {A} (a b : nat) (l : list A) :
  firstn (a + b) l = (firstn a l ++ firstn b (skipn a l))%list.
Proof.
  revert l. induction a as [|a IH]; intros l; [reflexivity|].
  destruct l as [|x l]; cbn [Nat.add firstn skipn app].
  - now rewrite firstn_nil.
  - now rewrite IH.
Qed.

Lemma firstn_chunks {A} (s : nat) (l : list A) (k : nat) :
  List.concat (map (fun i => firstn s (skipn (i * s) l)) (seq 0 k)) = firstn (k * s) l.
Proof.
  induction k as [|k IH]; [reflexivity|].
  rewrite seq_S, map_app, concat_app, IH. cbn [map List.concat Nat.add].
  rewrite app_nil_r. replace (S k * s)%nat with (k * s + s)%nat by lia.
  now rewrite firstn_plus.
Qed.

(** The items of page [p]. *)
Lemma fetch_page (d : Database) (p size : Z) (year : option Z)
    (min_imdb max_price : option Q) (search : option string) (sort_by : SortBy) :
  listed_items (run_request (get_movies p size year min_imdb max_price search sort_by) d)
  = map model_validate
        (firstn (Z.to_nat size)
           (skipn (Z.to_nat ((p - 1) * size))
              (run_select (order_by_desc sort_by
                 (apply_filters year min_imdb max_price search select_movies)) d))).
Proof.
  unfold listed_items, get_movies.
  destruct (paginate_items_match p size sort_by
              (apply_filters year min_imdb max_price search select_movies) d)
    as (envelope & Hout & _ & Hitems & _).
  rewrite Hout, Hitems.
  destruct (apply_filters_unpaginated year min_imdb max_price search select_movies)
    as (Ho & Hl & _).
  now rewrite run_select_page.
Qed.

Lemma tie_free_perm (key : MovieModel -> Q) (l l' : list MovieModel) :
  Permutation l l' -> tie_free key l -> tie_free key l'.
Proof.
  unfold tie_free. induction 1 as [|x l l' Hp IH|x y l|l l' l'' _ IH1 _ IH2]; intros H.
  - exact H.
  - inversion H as [|? ? Hx Hl]; subst. constructor.
    + exact (Permutation_Forall Hp Hx).
    + exact (IH Hl).
  - inversion H as [|? ? Hy Hyl]; subst.
    inversion Hy as [|? ? Hyx Hyr]; subst.
    inversion Hyl as [|? ? Hxr Hl]; subst.
    constructor; [constructor|constructor]; try assumption.
    intros E. apply Hyx. symmetry. exact E.
  - exact (IH2 (IH1 H)).
Qed.

Lemma tie_free_strict (key : MovieModel -> Q) (l : list MovieModel) :
  tie_free key l ->
  StronglySorted (fun a b => (key b <= key a)%Q) l ->
  StronglySorted (fun a b => (key b < key a)%Q) l.
Proof.
  unfold tie_free. induction l as [|x l IH]; intros Hfree Hsorted; [constructor|].
  inversion Hfree as [|? ? Hx Hl]; subst.
  apply StronglySorted_inv in Hsorted. destruct Hsorted as (Hs & Hle).
  constructor; [exact (IH Hl Hs)|].
  rewrite Forall_forall in *. intros b Hb.
  destruct (proj1 (Qle_lteq _ _) (Hle b Hb)) as [Hlt | Heq]; [exact Hlt|].
  exfalso. apply (Hx b Hb). symmetry. exact Heq.
Qed.

(** Rows without ties have one descending order. *)
Lemma ordered_desc_unique (key : MovieModel -> Q) (l1 l2 : list MovieModel) :
  StronglySorted (fun a b => (key b < key a)%Q) l1 ->
  StronglySorted (fun a b => (key b <= key a)%Q) l2 ->
  Permutation l1 l2 -> l1 = l2.
Proof.
  revert l2. induction l1 as [|x r1 IH]; intros l2 H1 H2 Hp.
  - now apply Permutation_nil in Hp.
  - destruct l2 as [|y r2]; [symmetry in Hp; now apply Permutation_nil in Hp|].
    apply StronglySorted_inv in H1. destruct H1 as (Hs1 & Hlt).
    apply StronglySorted_inv in H2. destruct H2 as (Hs2 & Hle).
    rewrite Forall_forall in Hlt, Hle.
    assert (Exy : x = y).
    { assert (Hy : In y (x :: r1))
        by (apply (Permutation_in _ (Permutation_sym Hp)); now left).
      destruct Hy as [E | Hy]; [exact E|].
      assert (Hx : In x (y :: r2)) by (apply (Permutation_in _ Hp); now left).
      destruct Hx as [E | Hx]; [now symmetry|].
      exfalso. apply (Qlt_not_le _ _ (Hlt y Hy)). exact (Hle x Hx). }
    subst y. f_equal. apply IH; [assumption..|].
    exact (Permutation_cons_inv Hp).
Qed.

(** X21. For a page size of at least 1 and fixed filters and sort
    column: every page of [get_movies] past [pages] is empty; when
    there is any row, no page from 1 to [pages] is empty; and [pages]
    is the number every answer reports.  These hold whatever order the
    database gives to rows of equal sort value.  When no two rows of
    the filtered query share the sort value, the database has one
    possible answer to the ordered statement, the same for every page
    request, and the pages [1 .. pages], one after the other, are
    exactly that answer: each row once and in order. *)
Theorem get_movies_pages_partition
    (d : Database) (size : Z) (year : option Z) (min_imdb max_price : option Q)
    (search : option string) (sort_by : SortBy) :
  1 <= size ->
  let fetch p :=
    listed_items (run_request (get_movies p size year min_imdb max_price search sort_by) d) in
  let filtered := apply_filters year min_imdb max_price search select_movies in
  let all := run_select (order_by_desc sort_by filtered) d in
  let n := page_count (Z.of_nat (List.length all)) size in
  (tie_free (sort_column sort_by) (run_select filtered d) ->
     ordered_desc (sort_column sort_by) (run_select filtered d) all
     /\ (forall answer,
           ordered_desc (sort_column sort_by) (run_select filtered d) answer -> answer = all)
     /\ List.concat (map fetch (page_numbers n)) = map model_validate all)
  /\ (forall p, n < p -> fetch p = [])
  /\ (all <> [] -> forall p, 1 <= p <= n -> fetch p <> [])
  /\ (forall p, exists envelope,
        outcome (run_request (get_movies p size year min_imdb max_price search sort_by) d)
        = Returned envelope /\ pages envelope = n).
Proof.
  intros Hsize fetch filtered all n.
  assert (Hfetch : forall p, fetch p
            = map model_validate
                  (firstn (Z.to_nat size) (skipn (Z.to_nat ((p - 1) * size)) all)))
    by (intros p; apply fetch_page).
  assert (Hn : 1 <= n /\ Z.of_nat (List.length all) <= n * size
               /\ (all <> [] -> (n - 1) * size < Z.of_nat (List.length all))).
  { assert (Hlen : all <> [] -> (0 < List.length all)%nat).
    { destruct all; [intros H; now elim H | cbn; lia]. }
    subst n. destruct (Z.eq_dec (Z.of_nat (List.length all)) 0) as [E|E].
    - rewrite E, page_count_zero. split; [lia|]. split; [lia|].
      intros H. apply Hlen in H. lia.
    - pose proof (page_count_bounds (Z.of_nat (List.length all)) size
                    ltac:(lia) Hsize) as Hb.
      split; [nia|]. split; [lia|intros _; lia]. }
  destruct Hn as (Hn1 & Hcover & Hlast).
  split; [|split; [|split]].
  - intros Hfree.
    assert (Hall : all = sort_desc (sort_column sort_by) (run_select filtered d)).
    { destruct (apply_filters_unpaginated year min_imdb max_price search select_movies)
        as (Ho & Hl & Hnone).
      subst all filtered. now rewrite run_select_ordered. }
    assert (Hanswer : ordered_desc (sort_column sort_by) (run_select filtered d) all).
    { rewrite Hall. split; [apply sort_desc_perm | apply sort_desc_sorted]. }
    split; [exact Hanswer|]. split.
    + intros answer (Hperm & Hsorted). symmetry.
      apply (ordered_desc_unique (sort_column sort_by)); [|exact Hsorted|].
      * apply tie_free_strict; [|exact (proj2 Hanswer)].
        exact (tie_free_perm _ _ _ (proj1 Hanswer) Hfree).
      * exact (Permutation_trans (Permutation_sym (proj1 Hanswer)) Hperm).
    + unfold page_numbers. rewrite <- seq_shift, !map_map.
      rewrite (map_ext _ (fun i => map model_validate
                            (firstn (Z.to_nat size) (skipn (i * Z.to_nat size) all)))).
      * rewrite <- (map_map (fun i => firstn (Z.to_nat size) (skipn (i * Z.to_nat size) all))
                            (map model_validate)).
        rewrite <- concat_map, firstn_chunks, firstn_all2; [reflexivity|]. nia.
      * intros i. rewrite Hfetch. do 3 f_equal. nia.
  - intros p Hp. rewrite Hfetch, skipn_all2; [now rewrite firstn_nil|]. nia.
  - intros Hall p Hp. rewrite Hfetch. specialize (Hlast Hall).
    assert (Hlt : (Z.to_nat ((p - 1) * size) < List.length all)%nat) by nia.
    destruct (skipn (Z.to_nat ((p - 1) * size)) all) as [|m rest] eqn:E.
    + apply (f_equal (@List.length _)) in E. rewrite length_skipn in E. cbn in E. lia.
    + destruct (Z.to_nat size) eqn:Es; [lia|]. cbn. discriminate.
  - intros p. unfold get_movies. unfold paginate. run_handler. eexists.
    split; [reflexivity|]. reflexivity.
Qed.

End ListingCompleteness.

Section FavoriteListing.
Import Movies Listing.
Context {text : TextSearch}.
Local Open Scope string_scope.
Local Open Scope Z_scope.

(** The statement both favorite listings start from. *)
Let favorites_of (uid : Z) : Select :=
  where_ (FavoriteOf uid) (join JoinFavorites select_movies).

Lemma favorite_items_linked
    (d : Database) (page size : Z) (year : option Z) (min_imdb max_price : option Q)
    (search : option string) (sort_by : SortBy) (user : UserModel)
    (item : MovieListItemSchema) :
  In item (listed_items
             (run_request
                (get_favorite_movies page size year min_imdb max_price search sort_by user) d)) ->
  exists m, In m (movies d) /\ item = model_validate m
            /\ In (user_id user, movie_id m) (user_favorites d).
Proof.
  unfold listed_items, get_favorite_movies.
  destruct (paginate_items_match page size sort_by
              (apply_filters year min_imdb max_price search (favorites_of (user_id user))) d)
    as (envelope & Hout & _ & _ & Hitems).
  unfold favorites_of in Hout. rewrite Hout. intros Hitem.
  destruct (Hitems item Hitem) as (r & Hr & -> & Hp).
  exists (row_movie r). split; [apply Hr|]. split; [reflexivity|].
  assert (Hc : In (FavoriteOf (user_id user))
                  (wheres (apply_filters year min_imdb max_price search
                             (favorites_of (user_id user)))))
    by (apply base_condition_kept; cbn; now left).
  pose proof (passes_in _ _ _ Hp Hc) as H. cbn [eval_condition] in H.
  destruct Hr as (_ & _ & _ & Hf).
  destruct (row_favorite_user r) as [u|]; [|discriminate].
  injection H as H. apply Z.eqb_eq in H. subst u. now apply Hf.
Qed.

(** A stored movie linked to the user is selected. *)
Lemma favorite_selected (d : Database) (uid : Z) (m : MovieModel) :
  In m (movies d) -> In (uid, movie_id m) (user_favorites d) ->
  In m (matching (favorites_of uid) d).
Proof.
  intros Hm Hlink. unfold matching, favorites_of.
  cbn [joins wheres where_ join select_movies app fold_left apply_join].
  apply in_map_iff. exists (mk_row m None None (Some uid)). split; [reflexivity|].
  apply filter_In. split.
  - apply in_flat_map. exists (mk_row m None None None). split.
    + apply in_map_iff. now exists m.
    + cbn [row_movie row_star row_director]. apply in_map_iff. exists uid.
      split; [reflexivity|]. now apply favorited_by_link.
  - cbn. now rewrite Z.eqb_refl.
Qed.

(** What the two handlers leave in the association table. *)
Lemma add_to_favorites_run (d : Database) (user : UserModel) (mid : Z) (movie : MovieModel) :
  get_movie_row mid d = Some movie ->
  let r := run_request (add_to_favorites mid user) d in
  outcome r = Returned (mk_message "Added to favorites")
  /\ database_after r
     = if existsb (links (user_id user) mid) (user_favorites d) then d
       else with_user_favorites (fun rows => (rows ++ [(user_id user, mid)])%list) d.
Proof.
  intros Hget r. subst r.
  pose proof (get_movie_row_some _ _ _ Hget) as [_ Hid].
  unfold add_to_favorites. run_handler. rewrite Hget. session_step.
  rewrite (contains_favorites user mid d movie Hget).
  destruct (existsb (links (user_id user) mid) (user_favorites d));
    cbn [negb]; session_step; rewrite ?Hid; split; reflexivity.
Qed.

Lemma remove_from_favorites_run (d : Database) (user : UserModel) (mid : Z)
    (movie : MovieModel) :
  get_movie_row mid d = Some movie ->
  let r := run_request (remove_from_favorites mid user) d in
  outcome r = Returned (mk_message "Removed from favorites")
  /\ database_after r
     = with_user_favorites (filter (fun link => negb (links (user_id user) mid link))) d.
Proof.
  intros Hget r. subst r.
  pose proof (get_movie_row_some _ _ _ Hget) as [_ Hid].
  unfold remove_from_favorites. run_handler. rewrite Hget. session_step.
  rewrite (contains_favorites user mid d movie Hget).
  destruct (existsb (links (user_id user) mid) (user_favorites d)) eqn:E;
    session_step; rewrite ?Hid; (split; [reflexivity|]); [reflexivity|].
  unfold with_user_favorites. rewrite filter_all_true; [now rewrite database_eta|].
  intros link Hlink. apply negb_true_iff. apply not_true_is_false. intros Hl.
  assert (existsb (links (user_id user) mid) (user_favorites d) = true)
    by (apply existsb_exists; eauto).
  congruence.
Qed.

Lemma links_iff (uid mid : Z) (link : Z * Z) :
  links uid mid link = true <-> link = (uid, mid).
Proof.
  destruct link as [a b]. unfold links. cbn.
  rewrite andb_true_iff, !Z.eqb_eq. split; [intros [-> ->]; reflexivity|].
  intros [= -> ->]. now split.
Qed.

(** X23. After [add_to_favorites] for a stored movie, the user's
    favorites listing without filters reports at least one row, and
    shows the movie on its first page whenever the page size holds the
    whole listing. *)
Theorem add_then_listed
    (d : Database) (user : UserModel) (mid : Z) (movie : MovieModel)
    (size : Z) (sort_by : SortBy) :
  get_movie_row mid d = Some movie ->
  let d1 := database_after (run_request (add_to_favorites mid user) d) in
  exists envelope,
    outcome (run_request (get_favorite_movies 1 size None None None None sort_by user) d1)
    = Returned envelope
    /\ 1 <= total envelope
    /\ (total envelope <= size -> In (model_validate movie) (items envelope)).
Proof.
  intros Hget d1.
  pose proof (get_movie_row_some _ _ _ Hget) as [Hin Hid].
  destruct (add_to_favorites_run d user mid movie Hget) as [_ Hdb]. fold d1 in Hdb.
  assert (Hmovies : movies d1 = movies d).
  { rewrite Hdb. now destruct (existsb _ _). }
  assert (Hlink : In (user_id user, movie_id movie) (user_favorites d1)).
  { rewrite Hdb, Hid. destruct (existsb _ _) eqn:E.
    - apply existsb_exists in E. destruct E as (link & Hl & Hlk).
      apply links_iff in Hlk. now subst link.
    - cbn. apply in_or_app. right. now left. }
  assert (Hsel : In movie (matching (favorites_of (user_id user)) d1)).
  { apply favorite_selected; [now rewrite Hmovies | exact Hlink]. }
  unfold get_favorite_movies.
  destruct (paginate_items_match 1 size sort_by
              (apply_filters None None None None (favorites_of (user_id user))) d1)
    as (envelope & Hout & Htotal & Hitems & _).
  exists envelope. split; [exact Hout|].
  change (apply_filters None None None None (favorites_of (user_id user)))
    with (favorites_of (user_id user)) in *.
  assert (Hrows : run_select (order_by_desc sort_by (favorites_of (user_id user))) d1
                  = sort_desc (sort_column sort_by) (matching (favorites_of (user_id user)) d1))
    by reflexivity.
  assert (Hsorted : In movie (run_select (order_by_desc sort_by
                                 (favorites_of (user_id user))) d1)).
  { rewrite Hrows. apply (Permutation_in _ (sort_desc_perm _ _)). exact Hsel. }
  unfold count_rows in Htotal. split.
  - rewrite Htotal.
    destruct (run_select (order_by_desc sort_by (favorites_of (user_id user))) d1);
      [destruct Hsorted | cbn [List.length]; lia].
  - intros Hfit. rewrite Hitems. apply in_map.
    rewrite run_select_page by reflexivity. cbn [Z.sub Z.mul Z.to_nat skipn].
    rewrite firstn_all2; [exact Hsorted | rewrite length_skipn; lia].
Qed.

(** X24. After [remove_from_favorites] for a stored movie, no page of
    the user's favorites listing, under any filters and sort column,
    shows an item with the movie's key. *)
Theorem remove_then_unlisted
    (d : Database) (user : UserModel) (mid : Z) (movie : MovieModel)
    (page size : Z) (year : option Z) (min_imdb max_price : option Q)
    (search : option string) (sort_by : SortBy) :
  get_movie_row mid d = Some movie ->
  let d1 := database_after (run_request (remove_from_favorites mid user) d) in
  forall item,
    In item (listed_items
               (run_request
                  (get_favorite_movies page size year min_imdb max_price search sort_by user)
                  d1)) ->
    item_id item <> mid.
Proof.
  intros Hget d1 item Hitem.
  destruct (remove_from_favorites_run d user mid movie Hget) as [_ Hdb]. fold d1 in Hdb.
  apply favorite_items_linked in Hitem. destruct Hitem as (m & _ & -> & Hlink).
  cbn [model_validate item_id]. intros Hmid.
  rewrite Hdb in Hlink. cbn [user_favorites with_user_favorites] in Hlink.
  apply filter_In in Hlink. destruct Hlink as [_ Hl].
  apply negb_true_iff in Hl. rewrite Hmid in Hl.
  assert (links (user_id user) mid (user_id user, mid) = true) by (now apply links_iff).
  congruence.
Qed.

(** X25. For a stored movie the user has not favorited, adding it and
    then removing it restores the database; both calls return their
    success messages. *)
Theorem add_then_remove_restores
    (d : Database) (user : UserModel) (mid : Z) (movie : MovieModel) :
  get_movie_row mid d = Some movie ->
  ~ In (user_id user, mid) (user_favorites d) ->
  let r1 := run_request (add_to_favorites mid user) d in
  let r2 := run_request (remove_from_favorites mid user) (database_after r1) in
  outcome r1 = Returned (mk_message "Added to favorites")
  /\ In (user_id user, mid) (user_favorites (database_after r1))
  /\ outcome r2 = Returned (mk_message "Removed from favorites")
  /\ database_after r2 = d.
Proof.
  intros Hget Hnot r1 r2.
  assert (E : existsb (links (user_id user) mid) (user_favorites d) = false).
  { apply not_true_is_false. intros H. apply existsb_exists in H.
    destruct H as (link & Hl & Hlk). apply links_iff in Hlk. now subst link. }
  destruct (add_to_favorites_run d user mid movie Hget) as [Hout1 Hdb1].
  fold r1 in Hout1, Hdb1. rewrite E in Hdb1.
  assert (Hget1 : get_movie_row mid (database_after r1) = Some movie)
    by (rewrite Hdb1; exact Hget).
  destruct (remove_from_favorites_run (database_after r1) user mid movie Hget1)
    as [Hout2 Hdb2]. fold r2 in Hout2, Hdb2.
  split; [exact Hout1|]. split; [|split; [exact Hout2|]].
  - rewrite Hdb1. cbn. apply in_or_app. right. now left.
  - rewrite Hdb2, Hdb1. unfold with_user_favorites. cbn.
    rewrite filter_app. cbn [filter].
    replace (links (user_id user) mid (user_id user, mid)) with true
      by (symmetry; now apply links_iff).
    cbn [negb]. rewrite app_nil_r, filter_all_true; [apply database_eta|].
    intros link Hlink. apply negb_true_iff, not_true_is_false. intros Hl.
    apply links_iff in Hl. now subst link.
Qed.

(** X26. Both favorite handlers raise 404 "Movie not found" exactly
    when no stored movie has the key, and then change nothing.
    Whatever they do, they leave the users and the movies alone, and
    in the association table they touch no pair other than the one of
    the user and the movie. *)
Theorem favorites_touch_only_their_pair (d : Database) (user : UserModel) (mid : Z) :
  let ra := run_request (add_to_favorites mid user) d in
  let rr := run_request (remove_from_favorites mid user) d in
  let absent := forall m, In m (movies d) -> movie_id m <> mid in
  (absent <-> outcome ra = Raised (mk_exc 404 "Movie not found" []))
  /\ (absent <-> outcome rr = Raised (mk_exc 404 "Movie not found" []))
  /\ (absent -> database_after ra = d /\ database_after rr = d)
  /\ (users (database_after ra) = users d /\ movies (database_after ra) = movies d
      /\ users (database_after rr) = users d /\ movies (database_after rr) = movies d)
  /\ (forall link, link <> (user_id user, mid) ->
        (In link (user_favorites (database_after ra)) <-> In link (user_favorites d))
        /\ (In link (user_favorites (database_after rr)) <-> In link (user_favorites d))).
Proof.
  intros ra rr absent.
  destruct (get_movie_row mid d) as [movie|] eqn:Hget.
  - pose proof (get_movie_row_some _ _ _ Hget) as [Hin Hid].
    destruct (add_to_favorites_run d user mid movie Hget) as [Houta Hdba].
    destruct (remove_from_favorites_run d user mid movie Hget) as [Houtr Hdbr].
    fold ra in Houta, Hdba. fold rr in Houtr, Hdbr.
    assert (Hpresent : ~ absent) by (intros H; now apply (H movie Hin)).
    split; [split; [intros H; now elim Hpresent | rewrite Houta; discriminate]|].
    split; [split; [intros H; now elim Hpresent | rewrite Houtr; discriminate]|].
    split; [intros H; now elim Hpresent|].
    split.
    { rewrite Hdba, Hdbr. destruct (existsb _ _); repeat split. }
    intros link Hlink. rewrite Hdba, Hdbr. split.
    + destruct (existsb _ _); [reflexivity|]. cbn. rewrite in_app_iff. cbn.
      split; [intros [H|[H|[]]]; [exact H | now elim Hlink] | now left].
    + cbn. rewrite filter_In, negb_true_iff. split; [now intros [H _]|].
      intros H. split; [exact H|]. apply not_true_is_false. intros Hl.
      now apply links_iff in Hl.
  - assert (Habsent : absent).
    { intros m Hm Hid. unfold get_movie_row in Hget.
      pose proof (find_none _ _ Hget m Hm) as H. cbn in H.
      apply Z.eqb_neq in H. contradiction. }
    assert (Hra : ra = (Raised (mk_exc 404 "Movie not found" []), d, [CallGet])).
    { subst ra. unfold add_to_favorites. run_handler. rewrite Hget. reflexivity. }
    assert (Hrr : rr = (Raised (mk_exc 404 "Movie not found" []), d, [CallGet])).
    { subst rr. unfold remove_from_favorites. run_handler. rewrite Hget. reflexivity. }
    rewrite Hra, Hrr. unfold outcome, database_after. cbn [fst snd].
    split; [split; [reflexivity | intros _; exact Habsent]|].
    split; [split; [reflexivity | intros _; exact Habsent]|].
    split; [intros _; split; reflexivity|].
    split; [repeat split|]. intros link _. split; reflexivity.
Qed.

End FavoriteListing.

(* ================================================================== *)
(** * Genres, mail and payload bounds *)

Section GenreCounts.
Import Genres.
Local Open Scope Z_scope.

Lemma insert_by_name_perm (x : GenreCount) (l : list GenreCount) :
  Permutation (x :: l) (insert_by_name x l).
Proof.
  induction l as [|y l IH]; cbn; [apply Permutation_refl|].
  destruct (String.leb (count_name x) (count_name y)); [apply Permutation_refl|].
  eapply perm_trans; [apply perm_swap|]. now apply perm_skip.
Qed.

Lemma sort_by_name_perm (l : list GenreCount) : Permutation l (sort_by_name l).
Proof.
  induction l as [|x l IH]; cbn; [apply perm_nil|].
  eapply perm_trans; [apply perm_skip, IH|]. apply insert_by_name_perm.
Qed.

Lemma insert_by_name_sorted (x : GenreCount) (l : list GenreCount) :
  Sorted (fun a b => String.leb (count_name a) (count_name b) = true) l ->
  Sorted (fun a b => String.leb (count_name a) (count_name b) = true) (insert_by_name x l).
Proof.
  induction l as [|y l IH]; intros Hs; cbn.
  - repeat constructor.
  - destruct (String.leb (count_name x) (count_name y)) eqn:E.
    + constructor; [exact Hs|]. constructor. exact E.
    + inversion Hs as [|? ? Hl Hy]; subst. constructor; [now apply IH|].
      destruct l as [|z l]; cbn.
      * constructor. destruct (String.leb_total (count_name x) (count_name y)); congruence.
      * destruct (String.leb (count_name x) (count_name z)).
        -- constructor.
           destruct (String.leb_total (count_name x) (count_name y)); congruence.
        -- constructor. now inversion Hy.
Qed.

Lemma sort_by_name_sorted (l : list GenreCount) :
  Sorted (fun a b => String.leb (count_name a) (count_name b) = true) (sort_by_name l).
Proof.
  induction l as [|x l IH]; cbn; [constructor|]. now apply insert_by_name_sorted.
Qed.

Lemma flat_map_all_nil {A B} (f : A -> list B) (l : list A) :
  (forall x, In x l -> f x = []) -> flat_map f l = [].
Proof.
  induction l as [|a l IH]; intros H; cbn [flat_map]; [reflexivity|].
  rewrite (H a (or_introl eq_refl)), IH; [reflexivity|]. intros x Hx. apply H. now right.
Qed.

(** With every association row pointing at exactly one stored movie,
    the movies joined to a genre are as many as its association
    rows. *)
Lemma movies_of_counts_links (t : GenreTables) (d : Database) (g : GenreModel) :
  (forall link, In link (movie_genres t) ->
     List.length (filter (fun m => movie_id m =? fst link) (movies d)) = 1%nat) ->
  List.length (movies_of t d g)
  = List.length (filter (fun link => snd link =? genre_id g) (movie_genres t)).
Proof.
  unfold movies_of. induction (movie_genres t) as [|link l IH]; intros H;
    cbn [flat_map filter]; [reflexivity|].
  rewrite length_app, IH by (intros k Hk; apply H; now right).
  destruct (snd link =? genre_id g); cbn [List.length]; [|reflexivity].
  rewrite (H link (or_introl eq_refl)). reflexivity.
Qed.

(** X27. [list_genres_with_counts] answers with one entry per stored
    genre, carrying the genre's key and name, in ascending order of
    the names, and changes nothing.  The count of a genre that no
    association row names is 0; and when every association row points
    at exactly one stored movie, the count of each genre is the number
    of its association rows. *)
Theorem list_genres_with_counts_complete (t : GenreTables) (d : Database) :
  let r := run_request (list_genres_with_counts t) d in
  exists res,
    outcome r = Returned res
    /\ database_after r = d
    /\ Permutation (map (fun c => (count_id c, count_name c)) res)
                   (map (fun g => (genre_id g, genre_name g)) (genres t))
    /\ Sorted (fun a b => String.leb (count_name a) (count_name b) = true) res
    /\ (forall c, In c res ->
          (forall link, In link (movie_genres t) -> snd link <> count_id c) ->
          movies_count c = 0)
    /\ ((forall link, In link (movie_genres t) ->
           List.length (filter (fun m => movie_id m =? fst link) (movies d)) = 1%nat) ->
        forall c, In c res ->
          movies_count c
          = Z.of_nat (List.length (filter (fun link => snd link =? count_id c)
                                          (movie_genres t)))).
Proof.
  intros r. subst r. unfold list_genres_with_counts. run_handler.
  exists (genre_counts t d). split; [reflexivity|]. split; [reflexivity|].
  assert (Hin : forall c, In c (genre_counts t d) ->
            exists g, In g (genres t)
                      /\ c = mk_genre_count (genre_id g) (genre_name g)
                               (Z.of_nat (List.length (movies_of t d g)))).
  { intros c Hc. unfold genre_counts in Hc.
    apply (Permutation_in _ (Permutation_sym (sort_by_name_perm _))) in Hc.
    apply in_map_iff in Hc. destruct Hc as (g & <- & Hg). now exists g. }
  split; [|split; [apply sort_by_name_sorted|split]].
  - unfold genre_counts.
    eapply perm_trans; [apply Permutation_map, Permutation_sym, sort_by_name_perm|].
    rewrite map_map. cbn [count_id count_name]. apply Permutation_refl.
  - intros c Hc Hnone. destruct (Hin c Hc) as (g & _ & ->).
    cbn [movies_count count_id] in *. unfold movies_of.
    rewrite flat_map_all_nil; [reflexivity|].
    intros link Hlink. specialize (Hnone link Hlink).
    apply Z.eqb_neq in Hnone. now rewrite Hnone.
  - intros Hone c Hc. destruct (Hin c Hc) as (g & _ & ->).
    cbn [movies_count count_id]. f_equal. now apply movies_of_counts_links.
Qed.

End GenreCounts.

Section Mail.
Import Email.
Local Open Scope string_scope.

(** X28. [send_email] does nothing with the transport when no mail
    host is configured or the host is the empty string.  Otherwise it
    connects to the configured host and port, sends exactly the one
    message with the given recipient, subject and body and the
    configured sender, and quits; in between it starts TLS exactly
    when TLS is switched on, and it logs in only with a non-empty
    configured user name and the configured password, after TLS has
    been started whenever TLS is on. *)
Theorem send_email_dialogue (settings : MailSettings) (to_email subject body : string) :
  (truthy (SMTP_HOST settings) = false -> send_email settings to_email subject body = [])
  /\ (forall host, SMTP_HOST settings = Some host -> host <> "" ->
      exists middle,
        send_email settings to_email subject body
        = (Connect host (SMTP_PORT settings) :: middle
           ++ [SendMessage (mk_email subject (SMTP_FROM settings) to_email body); Quit])%list
        /\ (forall c, In c middle -> c = StartTls \/ exists u p, c = Login u p)
        /\ (In StartTls middle <-> SMTP_USE_TLS settings = true)
        /\ (forall u p, In (Login u p) middle ->
              SMTP_USERNAME settings = Some u /\ u <> "" /\ p = SMTP_PASSWORD settings
              /\ (SMTP_USE_TLS settings = true -> middle = [StartTls; Login u p]))).
Proof.
  unfold send_email, truthy. split.
  - destruct (SMTP_HOST settings) as [host|]; [|reflexivity].
    intros H. now rewrite H.
  - intros host -> Hhost. apply String.eqb_neq in Hhost. rewrite Hhost. cbn [negb].
    exists ((if SMTP_USE_TLS settings then [StartTls] else [])
            ++ match SMTP_USERNAME settings with
               | Some username =>
                   if negb (String.eqb username "")
                   then [Login username (SMTP_PASSWORD settings)]
                   else []
               | None => []
               end)%list.
    split; [cbn [app]; now rewrite <- app_assoc|].
    destruct (SMTP_USE_TLS settings), (SMTP_USERNAME settings) as [u|];
      try destruct (String.eqb u "") eqn:Eu; cbn [negb app In];
      (split; [intros c Hc; intuition eauto|]);
      (split; [intuition congruence|]);
      intros u' p' Hin;
      repeat match goal with
             | H : _ \/ _ |- _ => destruct H
             | H : False |- _ => destruct H
             | H : StartTls = Login _ _ |- _ => discriminate H
             | H : Login _ _ = Login _ _ |- _ => injection H as <- <-
             end;
      apply String.eqb_neq in Eu; repeat split; auto; discriminate.
Qed.

Lemma rstrip_app_char (c : ascii) (s : string) :
  rstrip c (s ++ String c EmptyString) = rstrip c s.
Proof.
  induction s as [|a s IH]; cbn [append rstrip].
  - now rewrite Ascii.eqb_refl.
  - now rewrite IH.
Qed.

Lemma append_last_inv (p : string) (c a : ascii) (r : string) :
  p ++ String c EmptyString = String a r ->
  (p = EmptyString /\ a = c /\ r = EmptyString)
  \/ exists p', p = String a p' /\ p' ++ String c EmptyString = r.
Proof.
  destruct p as [|b p]; cbn [append]; intros [= -> <-]; [now left|].
  right. now exists p.
Qed.

Lemma rstrip_no_trailing (c : ascii) (s p : string) :
  rstrip c s <> p ++ String c EmptyString.
Proof.
  revert p. induction s as [|a s IH]; intros p; cbn [rstrip].
  - destruct p; discriminate.
  - destruct (rstrip c s) as [|b r] eqn:E.
    + destruct (Ascii.eqb a c) eqn:Ea; [destruct p; discriminate|].
      intros H. symmetry in H. apply append_last_inv in H.
      destruct H as [(_ & -> & _)|(p' & _ & H)].
      * now rewrite Ascii.eqb_refl in Ea.
      * destruct p'; discriminate.
    + intros H. symmetry in H. apply append_last_inv in H.
      destruct H as [(_ & _ & H)|(p' & _ & H)]; [discriminate|].
      now apply (IH p').
Qed.

(** X29. A trailing slash on [FRONTEND_URL] makes no difference to the
    mails: the activation mail and the reset mail are the same with
    and without it.  In both links the part before [/activate] or
    [/reset-password] never ends with a slash, and the link ends with
    the token. *)
Theorem mail_links_ignore_trailing_slash
    (settings slashed : MailSettings) (to_email token : string) :
  FRONTEND_URL slashed = FRONTEND_URL settings ++ "/" ->
  SMTP_HOST slashed = SMTP_HOST settings ->
  SMTP_PORT slashed = SMTP_PORT settings ->
  SMTP_USERNAME slashed = SMTP_USERNAME settings ->
  SMTP_PASSWORD slashed = SMTP_PASSWORD settings ->
  SMTP_FROM slashed = SMTP_FROM settings ->
  SMTP_USE_TLS slashed = SMTP_USE_TLS settings ->
  send_activation_email slashed to_email token
  = send_activation_email settings to_email token
  /\ send_password_reset_email slashed to_email token
     = send_password_reset_email settings to_email token
  /\ (exists base,
        activation_link settings to_email token
        = base ++ "/activate?email=" ++ to_email ++ "&token=" ++ token
        /\ password_reset_link settings to_email token
           = base ++ "/reset-password?email=" ++ to_email ++ "&token=" ++ token
        /\ forall p, base <> p ++ "/").
Proof.
  intros Hurl Hhost Hport Huser Hpw Hfrom Htls.
  assert (Hbase : rstrip "/" (FRONTEND_URL slashed) = rstrip "/" (FRONTEND_URL settings))
    by (rewrite Hurl; apply rstrip_app_char).
  unfold send_activation_email, send_password_reset_email, activation_link,
    password_reset_link, send_email.
  rewrite Hbase, Hhost, Hport, Huser, Hpw, Hfrom, Htls.
  split; [reflexivity|]. split; [reflexivity|].
  exists (rstrip "/" (FRONTEND_URL settings)).
  split; [reflexivity|]. split; [reflexivity|].
  intros p. apply rstrip_no_trailing.
Qed.

End Mail.

Section PayloadBounds.
Import MovieSchemas.
Local Open Scope string_scope.
Local Open Scope Z_scope.

(** X30. A payload that [MovieBaseSchema] accepts is accepted by
    [MovieUpdateSchema] when sent as an update of every field.  The
    converse fails in two ways the schemas show: a year more than one
    past the current year is an error of the create payload but none
    of the update payload, and so is a name of more than 255
    characters, counted as characters and not as bytes. *)
Theorem update_accepts_what_create_accepts (current_year : Z) (m : MovieBase) :
  (base_errors current_year m = [] -> update_errors (as_update m) = [])
  /\ (1888 <= year m -> current_year + 1 < year m ->
      In "year" (base_errors current_year m)
      /\ ~ In "year" (update_errors (as_update m)))
  /\ (255 < Z.of_nat (char_count (name m)) ->
      In "name" (base_errors current_year m)
      /\ ~ In "name" (update_errors (as_update m))).
Proof.
  unfold base_errors, update_errors, as_update, validate_year.
  cbn [upd_name upd_year upd_time upd_imdb upd_votes upd_meta_score upd_gross
       upd_description upd_price upd_certification_id].
  split; [|split].
  - cbn [when_present].
    destruct (Z.of_nat (char_count (name m)) <=? 255); [|discriminate].
    destruct (1888 <=? year m); cbn [andb];
      [destruct (negb (current_year + 1 <? year m))|]; try discriminate.
    destruct (0 <? time m); [|discriminate].
    destruct (between 0 10 (imdb m)); [|discriminate].
    destruct (0 <=? votes m); [|discriminate].
    destruct (when_present (between 0 100) (meta_score m)); [|discriminate].
    destruct (when_present (Qle_bool 0) (gross m)); [|discriminate].
    destruct (Qle_bool 0 (price m)); [|discriminate].
    reflexivity.
  - intros Hlo Hhi. cbn [when_present].
    replace (1888 <=? year m) with true by (symmetry; apply Z.leb_le; lia).
    replace (current_year + 1 <? year m) with true by (symmetry; apply Z.ltb_lt; lia).
    cbn [andb negb]. split.
    + apply in_or_app. right. cbn. now left.
    + intros H.
      repeat (apply in_app_or in H; destruct H as [H|H]);
        repeat match goal with
               | H : In _ (if ?b then _ else _) |- _ => destruct b
               | H : In _ [] |- _ => destruct H
               | H : In _ [_] |- _ => destruct H as [H|[]]; discriminate H
               end.
  - intros Hlong.
    replace (Z.of_nat (char_count (name m)) <=? 255) with false
      by (symmetry; apply Z.leb_gt; lia).
    split; [cbn; now left|].
    intros H.
    repeat (apply in_app_or in H; destruct H as [H|H]);
      repeat match goal with
             | H : In _ (if ?b then _ else _) |- _ => destruct b
             | H : In _ [] |- _ => destruct H
             | H : In _ [_] |- _ => destruct H as [H|[]]; discriminate H
             end.
Qed.

End PayloadBounds.

(* ================================================================== *)
(** * More worked requests *)

Section MoreWorkedRequests.
Import Samples MoreSamples Accounts Movies Listing Email AccountFlows.
Local Open Scope string_scope.
Local Open Scope Z_scope.

#[local] Existing Instance ascii_text.

(** Bob activates in time, then tries again. *)
Lemma activate_user_then_replay_witness :
  let payload := mk_activate_request "bob@example.com" "activate-bob" in
  let r1 := run_request (activate_user payload (99 * second)) cinema in
  let r2 := run_request (activate_user payload (99 * second)) (database_after r1) in
  99 * second < utc_instant (expires_at bob_activation)
  /\ outcome r1 = Returned (mk_message "User account activated successfully.")
  /\ outcome r2 = Raised (mk_exc 400 "User account is already active." []).
Proof.
  intros payload r1 r2.
  assert (Htime : 99 * second < utc_instant (expires_at bob_activation))
    by (apply Z.ltb_lt; reflexivity).
  destruct (activate_user_then_replay payload (99 * second) cinema bob bob_activation
              eq_refl eq_refl eq_refl eq_refl Htime) as (Hout & _ & _ & Hreplay).
  split; [exact Htime|]. split; [exact Hout|]. exact (proj1 (Hreplay (99 * second))).
Defined.

(** A refused activation leaves the users as they were. *)
Lemma activate_user_raises_only_400_witness :
  let r := run_request (activate_user (mk_activate_request "bob@example.com" "guess")
                                      (99 * second)) cinema in
  users (database_after r) = users cinema.
Proof.
  intros r.
  exact (proj2 (activate_user_raises_only_400
                  (mk_activate_request "bob@example.com" "guess") (99 * second) cinema)
               (mk_exc 400 "Invalid or expired activation token." []) eq_refl).
Defined.

(** Ann's old refresh token is found expired. *)
Lemma refresh_access_token_expired_witness :
  let r := run_request (@refresh_access_token table_manager
                          (mk_refresh_request "refresh-old") (20 * second)) cinema in
  utc_instant (expires_at ann_refresh_old) <= 20 * second
  /\ outcome r = Raised (mk_exc 401 "Refresh token expired." [])
  /\ refresh_tokens (database_after r) = [ann_refresh].
Proof.
  intros r.
  assert (Hexp : utc_instant (expires_at ann_refresh_old) <= 20 * second)
    by (apply Z.leb_le; reflexivity).
  destruct (@refresh_access_token_expired table_manager
              (mk_refresh_request "refresh-old") (20 * second) cinema
              [("user_id", 1)] ann_refresh_old ann eq_refl eq_refl eq_refl eq_refl Hexp)
    as (Hout & Hrows & _).
  split; [exact Hexp|]. split; [exact Hout|]. exact Hrows.
Defined.

(** A string that is no token is answered 400. *)
Lemma refresh_access_token_statuses_witness :
  exists err, @decode_refresh_token table_manager "garbage" = inl err.
Proof.
  apply (proj1 (proj1 (proj2 (@refresh_access_token_statuses table_manager
                                (mk_refresh_request "garbage") 0 cinema))
                      (mk_exc 400 "Invalid token" []) eq_refl)).
  reflexivity.
Defined.

(** Ann logs in. *)
Lemma login_user_success_witness :
  exists row,
    outcome (run_request (@login_user table_manager verify_password
                            (mk_login_request "ann@example.com" "secret-A1")
                            get_settings 0) cinema)
    = Returned (mk_login_response "access-1" (token row) "bearer")
    /\ utc_instant (expires_at row) = 7 * 86400 * second.
Proof.
  destruct (@login_user_success table_manager verify_password
              (mk_login_request "ann@example.com" "secret-A1") get_settings 0 cinema ann
              eq_refl eq_refl eq_refl)
    as (row & Hout & _ & _ & _ & _ & Hexp & _).
  exists row. split; [exact Hout|]. rewrite Hexp. reflexivity.
Defined.

(** Ann logs in and out again. *)
Lemma login_then_logout_witness :
  let r1 := run_request (@login_user prefix_manager verify_password
                           (mk_login_request "ann@example.com" "secret-A1")
                           get_settings 0) cinema in
  let r2 := run_request (@logout_user prefix_manager (mk_logout_request "refresh-1"))
                        (database_after r1) in
  database_after r2 = cinema.
Proof.
  intros r1 r2.
  refine (proj1 (proj2 (@login_then_logout prefix_manager verify_password
            (mk_login_request "ann@example.com" "secret-A1") get_settings 0 cinema ann
            eq_refl eq_refl eq_refl eq_refl _))).
  intros t [<-|[<-|[]]]; apply String.eqb_neq; reflexivity.
Defined.

(** A login with a wrong password adds nothing. *)
Lemma login_user_only_appends_witness :
  exists added,
    (List.length added <= 1)%nat
    /\ database_after (run_request (@login_user table_manager verify_password
                                      (mk_login_request "ann@example.com" "guess")
                                      get_settings 0) cinema)
       = with_refresh_tokens (fun rows => (rows ++ added)%list) cinema.
Proof.
  destruct (@login_user_only_appends table_manager verify_password
              (mk_login_request "ann@example.com" "guess") get_settings 0 cinema)
    as (added & Hlen & Hdb & _).
  exists added. split; [exact Hlen | exact Hdb].
Defined.

(** Ann completes a reset in time, then tries the token again. *)
Lemma reset_password_complete_single_use_witness :
  let payload := mk_reset_request "ann@example.com" "reset-ann" "secret-A2" in
  let r1 := run_request (reset_password_complete hash_password payload (40 * second)) cinema in
  let r2 := run_request (reset_password_complete hash_password payload (41 * second))
                        (database_after r1) in
  40 * second < utc_instant (expires_at ann_reset)
  /\ outcome r1 = Returned (mk_message "Password reset successfully.")
  /\ outcome r2 = Raised (mk_exc 400 "Invalid email or token." []).
Proof.
  intros payload r1 r2.
  assert (Htime : 40 * second < utc_instant (expires_at ann_reset))
    by (apply Z.ltb_lt; reflexivity).
  destruct (reset_password_complete_single_use hash_password payload (40 * second) cinema
              ann ann_reset eq_refl eq_refl eq_refl eq_refl Htime)
    as (Hout & _ & _ & Hreplay).
  split; [exact Htime|]. split; [exact Hout|]. exact (proj1 (Hreplay (41 * second))).
Defined.

(** Ann completes her reset while the database refuses the commit:
    500, and nothing is stored. *)
Lemma reset_password_complete_refusals_witness :
  let r := run_request (Faults.reset_password_complete (Nat.eqb 3) hash_password
                          (mk_reset_request "ann@example.com" "reset-ann" "secret-A2")
                          (40 * second)) cinema in
  outcome r = Raised (mk_exc 500 "An error occurred while resetting the password." [])
  /\ (exists n, Nat.eqb 3 n = true)
  /\ database_after r = cinema.
Proof.
  intros r. split; [reflexivity|].
  exact (proj1 (proj2 (proj2 (reset_password_complete_refusals hash_password (Nat.eqb 3)
                                (mk_reset_request "ann@example.com" "reset-ann" "secret-A2")
                                (40 * second) cinema)))
               (mk_exc 500 "An error occurred while resetting the password." [])
               eq_refl eq_refl).
Defined.

(** A reset requested for inactive Bob does nothing. *)
Lemma request_password_reset_token_acknowledges_witness :
  let r := run_request (request_password_reset_token mail
                          (mk_reset_request_email "bob@example.com") "reset-bob" later)
                       cinema in
  outcome r = Returned (acknowledge_reset, []) /\ database_after r = cinema.
Proof.
  intros r.
  destruct (proj2 (proj2 (request_password_reset_token_acknowledges mail
                            (mk_reset_request_email "bob@example.com") "reset-bob" later
                            cinema))) as (Hout & Hdb & _).
  - intros u [= <-]. reflexivity.
  - split; [exact Hout | exact Hdb].
Defined.

(** A reset requested for Ann replaces her stored token. *)
Lemma request_password_reset_token_replaces_witness :
  let r := run_request (request_password_reset_token mail
                          (mk_reset_request_email "ann@example.com") "reset-new" later)
                       cinema in
  exists row,
    tokens_by_user PasswordReset 1 (database_after r) = [row] /\ token row = "reset-new".
Proof.
  intros r.
  destruct (request_password_reset_token_replaces mail
              (mk_reset_request_email "ann@example.com") "reset-new" later cinema ann
              eq_refl eq_refl) as (row & Hrows & Htoken & _).
  exists row. split; [exact Hrows | exact Htoken].
Defined.

(** Ann requests a reset and completes it with the token she got. *)
Lemma request_then_complete_reset_witness :
  let r1 := run_request (request_password_reset_token mail
                           (mk_reset_request_email "ann@example.com") "reset-new" later)
                        cinema in
  let r2 := run_request (reset_password_complete hash_password
                           (mk_reset_request "ann@example.com" "reset-new" "secret-A2")
                           (800 * second))
                        (database_after r1) in
  800 * second < utc_instant later
  /\ outcome r2 = Returned (mk_message "Password reset successfully.").
Proof.
  intros r1 r2.
  assert (Htime : 800 * second < utc_instant later) by (apply Z.ltb_lt; reflexivity).
  split; [exact Htime|].
  exact (proj1 (request_then_complete_reset hash_password mail "ann@example.com"
                  "reset-new" "secret-A2" later (800 * second) cinema ann
                  eq_refl eq_refl Htime)).
Defined.

(** A resend for active Ann does nothing. *)
Lemma resend_activation_token_acknowledges_witness :
  let r := run_request (resend_activation_token mail (mk_resend_request "ann@example.com")
                          "activate-ann" later) cinema in
  outcome r = Returned (acknowledge_resend, []) /\ database_after r = cinema.
Proof.
  intros r.
  destruct (proj2 (proj2 (resend_activation_token_acknowledges mail
                            (mk_resend_request "ann@example.com") "activate-ann" later
                            cinema))) as (Hout & Hdb & _).
  - intros u [= <-]. reflexivity.
  - split; [exact Hout | exact Hdb].
Defined.

(** Bob asks for a new activation mail; his old token stops working
    and the new one activates him. *)
Lemma resend_then_activate_witness :
  let d1 := database_after
              (run_request (resend_activation_token mail (mk_resend_request "bob@example.com")
                              "activate-new" later) cinema) in
  800 * second < utc_instant later
  /\ outcome (run_request (activate_user
                             (mk_activate_request "bob@example.com" "activate-bob")
                             (50 * second)) d1)
     = Raised (mk_exc 400 "Invalid or expired activation token." [])
  /\ outcome (run_request (activate_user
                             (mk_activate_request "bob@example.com" "activate-new")
                             (800 * second)) d1)
     = Returned (mk_message "User account activated successfully.").
Proof.
  intros d1.
  assert (Htime : 800 * second < utc_instant later) by (apply Z.ltb_lt; reflexivity).
  destruct (resend_then_activate mail "bob@example.com" "activate-new" later
              (800 * second) cinema bob eq_refl eq_refl Htime)
    as (_ & Hold & Hnew & _).
  split; [exact Htime|]. split; [|exact Hnew].
  refine (proj1 (Hold "activate-bob" (50 * second) _)).
  apply String.eqb_neq. reflexivity.
Defined.

(** Registering Ann's address again is a conflict. *)
Lemma register_user_refusals_witness :
  outcome (run_request (register_user hash_password groups mail
                          (mk_registration "ann@example.com" "secret-C3")
                          "activate-cat" later) cinema)
  = Raised (mk_exc 409 "A user with this email ann@example.com already exists." []).
Proof.
  exact (proj1 (proj1 (register_user_refusals hash_password groups mail
                         (mk_registration "ann@example.com" "secret-C3")
                         "activate-cat" later cinema) ann eq_refl)).
Defined.

(** Cat registers. *)
Lemma register_user_creates_witness :
  exists new_user row,
    users (database_after
             (run_request (register_user hash_password groups mail
                             (mk_registration "cat@example.com" "secret-C3")
                             "activate-cat" later) cinema))
    = [ann; bob; new_user]
    /\ user_is_active new_user = false
    /\ token_user_id row = user_id new_user.
Proof.
  destruct (register_user_creates hash_password groups mail
              (mk_registration "cat@example.com" "secret-C3") "activate-cat" later cinema
              (mk_group 1 USER) eq_refl eq_refl)
    as (new_user & row & _ & _ & _ & Hinactive & _ & _ & Husers & _ & Hrow & _).
  exists new_user, row. split; [exact Husers|]. split; [exact Hinactive | exact Hrow].
Defined.

(** Cat registers, is refused a login, activates, and logs in. *)
Lemma register_activate_login_witness :
  let login := @login_user table_manager verify_password
                 (mk_login_request "cat@example.com" "secret-C3") get_settings (800 * second) in
  let r1 := run_request (register_user hash_password groups mail
                           (mk_registration "cat@example.com" "secret-C3")
                           "activate-cat" later) cinema in
  let r2 := run_request (activate_user (mk_activate_request "cat@example.com" "activate-cat")
                                       (800 * second)) (database_after r1) in
  outcome (run_request login (database_after r1))
  = Raised (mk_exc 403 "User account is not activated." [])
  /\ exists body, outcome (run_request login (database_after r2)) = Returned body
                  /\ token_type body = "bearer".
Proof.
  intros login r1 r2.
  destruct (@register_activate_login table_manager hash_password verify_password
              groups mail "cat@example.com" "secret-C3" "activate-cat" later
              get_settings (800 * second) cinema (mk_group 1 USER) eq_refl eq_refl)
    as (Hearly & _ & Hlate).
  - intros t [<-|[]]. exists bob. split; [right; now left | reflexivity].
  - intros u raw Hhash. unfold verify_password. rewrite Hhash. apply String.eqb_refl.
  - apply Z.ltb_lt. reflexivity.
  - split; [exact Hearly | exact Hlate].
Defined.

(** Ann changes her password and logs in with the new one. *)
Lemma change_password_then_login_witness :
  let r := run_request (change_password hash_password verify_password
                          (mk_change_password "secret-A1" "secret-A2") ann) cinema in
  outcome r = Returned (mk_message "Password changed successfully.")
  /\ exists body,
       outcome (run_request (@login_user table_manager verify_password
                               (mk_login_request "ann@example.com" "secret-A2")
                               get_settings 0) (database_after r))
       = Returned body.
Proof.
  intros r.
  destruct (proj2 (@change_password_then_login table_manager hash_password verify_password
                     (mk_change_password "secret-A1" "secret-A2") ann get_settings 0 cinema)
                  eq_refl) as (Hout & _ & Hlogin).
  split; [exact Hout|]. apply Hlogin; [reflexivity | reflexivity |].
  intros u raw Hhash. unfold verify_password. rewrite Hhash. apply String.eqb_refl.
Defined.

End MoreWorkedRequests.

Section MoreWorkedListings.
Import Samples MoreSamples Movies Listing Email Genres MovieSchemas.
Local Open Scope string_scope.
Local Open Scope Z_scope.

#[local] Existing Instance ascii_text.

(** The movies of 2010 rated 7 or more: what is listed is of 2010. *)
Lemma get_movies_items_meet_filters_witness :
  exists m, In m (movies cinema)
            /\ model_validate brazil = model_validate m
            /\ movie_year m = 2010
            /\ (7 <= movie_imdb m)%Q.
Proof.
  destruct (@get_movies_items_meet_filters ascii_text cinema 1 10 (Some 2010) (Some 7%Q)
              None None ByYear) as (envelope & Hout & Hitems).
  injection Hout as <-.
  destruct (Hitems (model_validate brazil) (or_introl eq_refl))
    as (m & Hm & Heq & Hyear & Himdb & _).
  exists m. split; [exact Hm|]. split; [exact Heq|]. split.
  - apply (Hyear 2010 eq_refl). discriminate.
  - apply (Himdb 7%Q eq_refl). discriminate.
Defined.

(** Two stored movies cost 10 or less. *)
Lemma get_movies_total_counts_filtered_witness :
  exists envelope,
    outcome (run_request (get_movies 1 10 None None (Some 10%Q) None ByPrice) cinema)
    = Returned envelope
    /\ total envelope = 2.
Proof.
  destruct (@get_movies_total_counts_filtered ascii_text cinema 1 10 None None (Some 10%Q)
              None ByPrice (or_introl eq_refl)) as (envelope & Hout & Htotal).
  exists envelope. split; [exact Hout | exact Htotal].
Defined.

(** Three movies of three different years in pages of two: two pages,
    together the whole list, which is the one order by year. *)
Lemma get_movies_pages_partition_witness :
  let fetch p := listed_items (run_request (get_movies p 2 None None None None ByYear) cinema) in
  (fetch 1 ++ fetch 2)%list = map model_validate [casino; brazil; alien]
  /\ (forall answer,
        ordered_desc (sort_column ByYear) [alien; brazil; casino] answer ->
        answer = [casino; brazil; alien])
  /\ fetch 3 = [].
Proof.
  intros fetch.
  destruct (@get_movies_pages_partition ascii_text cinema 2 None None None None ByYear
              ltac:(lia)) as (Hall & Hpast & _).
  assert (Hfree : tie_free (sort_column ByYear) [alien; brazil; casino])
    by (repeat constructor; intros E; discriminate E).
  destruct (Hall Hfree) as (_ & Hone & Hpages).
  split; [|split].
  - rewrite <- (app_nil_r (fetch 2)). exact Hpages.
  - exact Hone.
  - apply Hpast. reflexivity.
Defined.

(** What Ann's favorites listing shows is linked to Ann. *)
Lemma get_favorite_movies_only_favorites_witness :
  exists m, In m (movies cinema)
            /\ model_validate brazil = model_validate m
            /\ In (1, movie_id m) (user_favorites cinema).
Proof.
  destruct (@get_favorite_movies_only_favorites ascii_text cinema 1 10 None None None None
              ByYear ann) as (envelope & Hout & Hitems).
  injection Hout as <-.
  exact (Hitems (model_validate brazil) (or_introl eq_refl)).
Defined.

(** Ann favorites Alien and finds it listed. *)
Lemma add_then_listed_witness :
  let d1 := database_after (run_request (add_to_favorites 1 ann) cinema) in
  In (model_validate alien)
     (listed_items (run_request (get_favorite_movies 1 10 None None None None ByYear ann) d1)).
Proof.
  intros d1.
  destruct (@add_then_listed ascii_text cinema ann 1 alien 10 ByYear eq_refl)
    as (envelope & Hout & _ & Hlisted).
  unfold listed_items. fold d1 in Hout. rewrite Hout. apply Hlisted.
  injection Hout as <-. apply Z.leb_le. reflexivity.
Defined.

(** Ann un-favorites Brazil and no longer finds it listed. *)
Lemma remove_then_unlisted_witness :
  let d1 := database_after (run_request (remove_from_favorites 2 ann) cinema) in
  ~ In (model_validate brazil)
       (listed_items (run_request (get_favorite_movies 1 10 None None None None ByYear ann)
                                  d1)).
Proof.
  intros d1 Hin.
  apply (@remove_then_unlisted ascii_text cinema ann 2 brazil 1 10 None None None None
           ByYear eq_refl (model_validate brazil) Hin).
  reflexivity.
Defined.

(** Ann favorites Alien and takes it back. *)
Lemma add_then_remove_restores_witness :
  let r1 := run_request (add_to_favorites 1 ann) cinema in
  database_after (run_request (remove_from_favorites 1 ann) (database_after r1)) = cinema.
Proof.
  intros r1.
  refine (proj2 (proj2 (proj2 (add_then_remove_restores cinema ann 1 alien eq_refl _)))).
  intros [H|[]]. discriminate H.
Defined.

(** No movie has the key 99. *)
Lemma favorites_touch_only_their_pair_witness :
  outcome (run_request (add_to_favorites 99 ann) cinema)
  = Raised (mk_exc 404 "Movie not found" [])
  /\ (In (1, 2) (user_favorites (database_after (run_request (remove_from_favorites 1 ann)
                                                              cinema)))
      <-> In (1, 2) (user_favorites cinema)).
Proof.
  split.
  - apply (proj1 (proj1 (favorites_touch_only_their_pair cinema ann 99))).
    intros m [<-|[<-|[<-|[]]]]; discriminate.
  - refine (proj2 (proj2 (proj2 (proj2 (proj2 (favorites_touch_only_their_pair cinema ann 1))))
                     (1, 2) _)).
    discriminate.
Defined.

(** Three genres, one of them without movies. *)
Lemma list_genres_with_counts_complete_witness :
  exists res,
    outcome (run_request (list_genres_with_counts genre_tables) cinema) = Returned res
    /\ map count_name res = ["Drama"; "Sci-Fi"; "Western"]
    /\ forall c, In c res ->
         movies_count c
         = Z.of_nat (List.length (filter (fun link => snd link =? count_id c)
                                         (Genres.movie_genres genre_tables))).
Proof.
  destruct (list_genres_with_counts_complete genre_tables cinema)
    as (res & Hout & _ & _ & _ & _ & Hcount).
  exists res. split; [exact Hout|]. split.
  - injection Hout as <-. reflexivity.
  - apply Hcount. intros link [<-|[<-|[<-|[]]]]; reflexivity.
Defined.

(** With TLS on and a user name set, the log-in follows the TLS
    start. *)
Lemma send_email_dialogue_witness :
  exists middle,
    send_email mail "cat@example.com" "Hello" "Text"
    = (Connect "smtp.example.com" 587 :: middle
       ++ [SendMessage (mk_email "Hello" "no-reply@example.com" "cat@example.com" "Text");
           Quit])%list
    /\ middle = [StartTls; Login "mailer" (Some "mailer-password")].
Proof.
  destruct (proj2 (send_email_dialogue mail "cat@example.com" "Hello" "Text")
                  "smtp.example.com" eq_refl) as (middle & Hsend & _).
  - discriminate.
  - exists middle. split; [exact Hsend|].
    cbn in Hsend. injection Hsend as Hmiddle.
    change ([StartTls; Login "mailer" (Some "mailer-password")]
            ++ [SendMessage (mk_email "Hello" "no-reply@example.com" "cat@example.com" "Text");
                Quit]
            = middle
              ++ [SendMessage (mk_email "Hello" "no-reply@example.com" "cat@example.com"
                                        "Text"); Quit])%list in Hmiddle.
    apply app_inv_tail in Hmiddle. now symmetry.
Defined.

(** The same activation mail for the URL with and without the slash. *)
Lemma mail_links_ignore_trailing_slash_witness :
  send_activation_email mail_slashed "cat@example.com" "activate-cat"
  = send_activation_email mail "cat@example.com" "activate-cat"
  /\ activation_link mail "cat@example.com" "activate-cat"
     = "http://localhost:3000/activate?email=cat@example.com&token=activate-cat".
Proof.
  split; [|reflexivity].
  exact (proj1 (mail_links_ignore_trailing_slash mail mail_slashed "cat@example.com"
                  "activate-cat" eq_refl eq_refl eq_refl eq_refl eq_refl eq_refl eq_refl)).
Defined.

(** A release of 2024 passes both schemas in 2024; one of 2999 passes
    only the update schema, and so does a name of 256 characters. *)
Lemma update_accepts_what_create_accepts_witness :
  update_errors (as_update new_release) = []
  /\ In "year" (base_errors 2024 far_future)
  /\ ~ In "year" (update_errors (as_update far_future))
  /\ In "name" (base_errors 2024 overlong)
  /\ ~ In "name" (update_errors (as_update overlong)).
Proof.
  destruct (proj1 (proj2 (update_accepts_what_create_accepts 2024 far_future)))
    as (Hyear & Hyear_update).
  { apply Z.leb_le. reflexivity. }
  { apply Z.ltb_lt. reflexivity. }
  destruct (proj2 (proj2 (update_accepts_what_create_accepts 2024 overlong)))
    as (Hname & Hname_update).
  { apply Z.ltb_lt. vm_compute. reflexivity. }
  split; [|split; [|split; [|split]]]; try assumption.
  exact (proj1 (update_accepts_what_create_accepts 2024 new_release) eq_refl).
Defined.

(** A name of 200 accented characters takes 400 bytes and is within
    the bound. *)
Example accented_name_is_within_bound :
  String.length (name accented) = 400%nat
  /\ char_count (name accented) = 200%nat
  /\ base_errors 2024 accented = [].
Proof. repeat split; vm_compute; reflexivity. Qed.

End MoreWorkedListings.
